(** * Virtuozzo Storage provisioner: volume lifecycle engine

    A shallow embedding of the Go provisioners of this repository
    ([prepareVstorage], [createPloop], [patchSecret], [removePloop],
    [Provision], [Delete] and the sibling variants) over an explicit model
    of the outside world: mount table, file tree, ploop volumes, the secret
    store and the log.  Go maps are [gmap string string], Go errors are
    [option error] ([None] is [nil]), and every function that touches the
    world is a state transformer on [World]. *)

From Stdlib Require Import ZArith String Ascii DecimalString SpecFloat.
From stdpp Require Import gmap strings list fin_maps.

Local Open Scope string_scope.
Local Open Scope Z_scope.
Local Open Scope list_scope.

(** ** Paths

    [path.Join] and [path.Clean] of the Go standard library, on strings.
    A path is split at the slashes; empty and [.] elements are dropped, an
    inner [..] removes the element before it, and a [..] at the start of a
    rooted path is dropped. *)

Module Path.

Fixpoint split_from (cur : string) (s : string) : list string :=
  match s with
  | EmptyString => [cur]
  | String c s' =>
      if Ascii.eqb c "/"%char then cur :: split_from "" s'
      else split_from (cur +:+ String c "") s'
  end.

Definition split (s : string) : list string := split_from "" s.

Definition rooted (s : string) : bool :=
  match s with
  | String c _ => Ascii.eqb c "/"%char
  | EmptyString => false
  end.

(** One step of the clean-up, on the stack of elements kept so far (last
    element first). *)
Definition push_elem (is_rooted : bool) (stack : list string) (e : string)
  : list string :=
  if decide (e = "") then stack
  else if decide (e = ".") then stack
  else if decide (e = "..") then
    match stack with
    | top :: rest => if decide (top = "..") then e :: stack else rest
    | [] => if is_rooted then [] else [e]
    end
  else e :: stack.

Definition elems (s : string) : list string :=
  rev (fold_left (push_elem (rooted s)) (split s) []).

Fixpoint join_slash (l : list string) : string :=
  match l with
  | [] => ""
  | [e] => e
  | e :: l' => e +:+ "/" +:+ join_slash l'
  end.

Definition render (is_rooted : bool) (l : list string) : string :=
  if is_rooted then "/" +:+ join_slash l
  else match l with [] => "." | _ => join_slash l end.

Definition Clean (s : string) : string := render (rooted s) (elems s).

(** [path.Join]: empty elements are ignored, the rest is joined with
    slashes and cleaned; no element at all gives the empty string. *)
Definition Join (l : list string) : string :=
  match filter (λ e, e ≠ "") l with
  | [] => ""
  | l' => Clean (join_slash l')
  end.

(** The place a path names in the file tree: rooted or not, and the
    elements that are left after cleaning. *)
Definition parse (s : string) : bool * list string := (rooted s, elems s).

(** The place itself and the directories above it, nearest the root first. *)
Definition ancestors (p : bool * list string) : list (bool * list string) :=
  (λ n, (p.1, take (S n) p.2)) <$> seq 0 (length p.2).

(** [under p q]: [q] is [p] or lies in the tree below [p]. *)
Definition under (p q : bool * list string) : bool :=
  bool_decide (p.1 = q.1 ∧ p.2 `prefix_of` q.2).

End Path.

(** ** Errors and results

    A Go [error] value is [option error], [None] being [nil].  The
    controller library tells apart the ordinary errors ([errors.New],
    [fmt.Errorf], whatever an external call reports) from
    [controller.IgnoredError], which the controller skips. *)

Inductive error : Type :=
| Errorf (msg : string)
| IgnoredError (msg : string).

Definition Error_ (e : error) : string :=
  match e with Errorf m => m | IgnoredError m => m end.

Definition is_ignored (e : option error) : bool :=
  match e with Some (IgnoredError _) => true | _ => false end.

Definition is_plain (e : option error) : bool :=
  match e with Some (Errorf _) => true | _ => false end.

Global Instance error_eq_dec : EqDecision error.
Proof. solve_decision. Defined.

(** ** The outside world *)

(** A ploop volume as the ploop library keeps it: its size in kilobytes and
    the place of its backing image. *)
Record Volume : Type := mkVolume { vol_size : Z; vol_image : bool * list string }.

(** The part of a [v1.Secret] the provisioner reads and writes. *)
Record Secret : Type := mkSecret {
  Name : string;
  Namespace : string;
  Data : gmap string string;
  Finalizers : list string;
}.

(** A strategic merge patch of the finalizer list: entries to add and
    entries to delete. *)
Record Patch : Type := mkPatch { patch_add : list string; patch_del : list string }.

(** Every call that leaves the process. *)
Inductive Op : Type :=
| OpIsVstorage (path : string)
| OpMountpoint (cluster : string)
| OpMkdirAll (path : string)
| OpRemoveAll (path : string)
| OpBindMount (source target : string)
| OpUnmount (target : string)
| OpAuth (cluster password : string)
| OpMount (cluster target : string)
| OpPloopVolumeCreate (path : string) (size : Z) (image : string)
| OpPloopCreate (size : Z) (file : string)
| OpPloopVolumeOpen (path : string)
| OpPloopVolumeDelete (path : string)
| OpSetAttr (path attr value : string)
| OpSecretGet (namespace name : string)
| OpSecretPatch (namespace name : string) (p : Patch).

Inductive Level : Type := INFO | WARNING | ERROR.

Record World : Type := mkWorld {
  mounts : list (string * string);        (* mount point, cluster; newest first *)
  files : gset (bool * list string);      (* the places that hold a directory or file *)
  volumes : gmap (bool * list string) Volume; (* ploop volumes by descriptor place *)
  secrets : gmap (string * string) Secret;(* by namespace and name *)
  glog : list (Level * string);
  trace : list Op;                        (* the external calls made, oldest first *)
}.

(** What the environment decides during one call of the engine: which
    external calls fail (and with which message), and the UUID that
    [uuid.NewUUID] hands out. *)
Record Env : Type := mkEnv {
  fails : Op → option string;
  NewUUID : string;
}.

(** ** State passing *)

Definition St (A : Type) : Type := World → A * World.

Global Instance St_ret : MRet St := λ A a w, (a, w).
Global Instance St_bind : MBind St := λ A B k m w, let '(a, w') := m w in k a w'.

(** [if err != nil { return err }] *)
Notation "'check' e ; k" :=
  (mbind (M := St) (λ r : option error,
     match r with Some err => mret (M := St) (Some err) | None => k end) e)
  (at level 20, e at level 100, k at level 200, only parsing).

Definition record (op : Op) (w : World) : World :=
  mkWorld (mounts w) (files w) (volumes w) (secrets w) (glog w) (trace w ++ [op]).

Definition logf (lvl : Level) (msg : string) : St () := λ w,
  ((), mkWorld (mounts w) (files w) (volumes w) (secrets w)
         (glog w ++ [(lvl, msg)]) (trace w)).

(** An external call: it is recorded, and either fails as the environment
    says, leaving the rest of the world as it was, or has its effect. *)
Definition call (env : Env) (op : Op) (effect : World → World) : St (option error) :=
  λ w,
    match fails env op with
    | Some msg => (Some (Errorf msg), record op w)
    | None => (None, effect (record op w))
    end.

Definition set_mounts (f : list (string * string) → list (string * string))
    (w : World) : World :=
  mkWorld (f (mounts w)) (files w) (volumes w) (secrets w) (glog w) (trace w).

Definition set_files (f : gset (bool * list string) → gset (bool * list string))
    (w : World) : World :=
  mkWorld (mounts w) (f (files w)) (volumes w) (secrets w) (glog w) (trace w).

Definition set_volumes
    (f : gmap (bool * list string) Volume → gmap (bool * list string) Volume)
    (w : World) : World :=
  mkWorld (mounts w) (files w) (f (volumes w)) (secrets w) (glog w) (trace w).

Definition set_secrets
    (f : gmap (string * string) Secret → gmap (string * string) Secret)
    (w : World) : World :=
  mkWorld (mounts w) (files w) (volumes w) (f (secrets w)) (glog w) (trace w).

Definition exists_path (w : World) (p : string) : bool :=
  bool_decide (Path.parse p ∈ files w).

(** ** The libraries the provisioner calls

    None of these packages is part of the provisioner's own sources; each is
    given by its effect on [World]. *)

Module os.

(** Modelled from the spec: [os.MkdirAll], "directory ... is created
    (parents included) ..., idempotently (pre-existing directory is not an
    error)". *)
Definition MkdirAll (env : Env) (path : string) : St (option error) :=
  call env (OpMkdirAll path)
    (set_files (λ fs, fs ∪ list_to_set (Path.ancestors (Path.parse path)))).

(** Modelled from the spec: [os.RemoveAll], "the entire volume directory
    tree ... is removed": the path and all that lies below it, the volume
    descriptors kept there included. *)
Definition remove_tree (p : bool * list string) (w : World) : World :=
  set_volumes (filter (λ kv, Path.under p kv.1 = false))
    (set_files (filter (λ q, Path.under p q = false)) w).

Definition RemoveAll (env : Env) (path : string) : St (option error) :=
  call env (OpRemoveAll path) (remove_tree (Path.parse path)).

End os.

Module syscall.

Definition cluster_at (tbl : list (string * string)) (point : string) : option string :=
  (λ im : nat * (string * string), im.2.2) <$> list_find (λ m, m.1 = point) tbl.

(** Modelled from the spec: [syscall.Mount] with [MS_BIND], "bind-mount it
    into the expected local path": the target becomes a mount of the cluster
    mounted at the source. *)
Definition bind_mount (source target : string) (tbl : list (string * string))
  : list (string * string) :=
  match cluster_at tbl source with
  | Some c => (Path.Clean target, c) :: tbl
  | None => tbl
  end.

Definition Mount (env : Env) (source target : string) : St (option error) :=
  call env (OpBindMount source target) (set_mounts (bind_mount source target)).

(** [syscall.Unmount] with [MNT_DETACH]: the newest mount at the target
    leaves the table. *)
Fixpoint detach (target : string) (tbl : list (string * string))
  : list (string * string) :=
  match tbl with
  | [] => []
  | m :: tbl' => if decide (m.1 = target) then tbl' else m :: detach target tbl'
  end.

Definition Unmount (env : Env) (target : string) : St (option error) :=
  call env (OpUnmount target) (set_mounts (detach (Path.Clean target))).

End syscall.

Module vstorage.

(** Modelled from the spec: [vstorage.IsVstorage], "inspect whether the
    target local path is already a live mount of the cluster"; the check is
    "side-effect-free".  The caller drops its error. *)
Definition IsVstorage (path : string) : St bool := λ w,
  (bool_decide (Path.Clean path ∈ (mounts w).*1), record (OpIsVstorage path) w).

(** Modelled from the spec: [Vstorage.Mountpoint], "an existing system-wide
    mount of the cluster is discoverable": the mount point of the newest
    mount of the cluster, the empty string when there is none.  The caller
    drops its error. *)
Definition Mountpoint (clusterName : string) : St string := λ w,
  (default "" ((λ im : nat * (string * string), im.2.1) <$>
                 list_find (λ m, m.2 = clusterName) (mounts w)),
   record (OpMountpoint clusterName) w).

(** Modelled from the spec: [Vstorage.Auth], "authenticate to the cluster
    using the supplied credential". *)
Definition Auth (env : Env) (clusterName password : string) : St (option error) :=
  call env (OpAuth clusterName password) id.

(** Modelled from the spec: [Vstorage.Mount], "then mount": on success the
    target is a live mount of the cluster. *)
Definition Mount (env : Env) (clusterName target : string) : St (option error) :=
  call env (OpMount clusterName target)
    (set_mounts (λ tbl, (Path.Clean target, clusterName) :: tbl)).

(** [exec.Command("vstorage", "set-attr", "-R", path, attr=value).Run()] *)
Definition set_attr (env : Env) (path attr value : string) : St (option error) :=
  call env (OpSetAttr path attr value) id.

End vstorage.

Module ploop.

(** Modelled from the spec: [ploop.PloopVolumeCreate(path, size, image)],
    "creates ... an individual thin-provisioned volume file/descriptor inside
    a mounted cluster": the descriptor directory at [path], the backing
    image at [image], the size in kilobytes. *)
Definition PloopVolumeCreate (env : Env) (path : string) (size : Z) (image : string)
  : St (option error) :=
  call env (OpPloopVolumeCreate path size image)
    (λ w, set_volumes (insert (Path.parse path) (mkVolume size (Path.parse image)))
            (set_files (λ fs, fs ∪ {[Path.parse path; Path.parse image]}) w)).

(** Modelled from the spec: [ploop.Create(&CreateParam{Size, File})] of the
    older ploop library: the image file [File] is created in its directory,
    which from then on holds the volume. *)
Definition Create (env : Env) (size : Z) (file : string) : St (option error) :=
  call env (OpPloopCreate size file)
    (λ w, set_volumes (insert (Path.parse (file +:+ "/..")) (mkVolume size (Path.parse file)))
            (set_files (λ fs, fs ∪ {[Path.parse file]}) w)).

(** Modelled from the spec: [ploop.PloopVolumeOpen], "deletion opens the
    volume by its descriptor"; a path that holds no volume is an error. *)
Definition PloopVolumeOpen (env : Env) (path : string) : St (option error) := λ w,
  let w := record (OpPloopVolumeOpen path) w in
  match fails env (OpPloopVolumeOpen path) with
  | Some msg => (Some (Errorf msg), w)
  | None =>
      match volumes w !! Path.parse path with
      | Some _ => (None, w)
      | None => (Some (Errorf ("no ploop volume at " +:+ path)), w)
      end
  end.

(** Modelled from the spec: [PloopVolume.Delete], "issues a logical
    delete": the descriptor directory and the backing image go. *)
Definition delete_volume (path : string) (w : World) : World :=
  match volumes w !! Path.parse path with
  | Some v => os.remove_tree (vol_image v) (os.remove_tree (Path.parse path) w)
  | None => os.remove_tree (Path.parse path) w
  end.

Definition Delete (env : Env) (vol : string) : St (option error) :=
  call env (OpPloopVolumeDelete vol) (delete_volume vol).

End ploop.

Module fmt.

(** [fmt.Sprintf("%d", n)] *)
Definition d (n : Z) : string := NilZero.string_of_int (Z.to_int n).

End fmt.

Module humanize.

(** The [float64] format. *)
Definition prec : Z := 53.
Definition emax : Z := 1024.

Definition is_digit (c : ascii) : bool :=
  (48 <=? nat_of_ascii c)%nat && (nat_of_ascii c <=? 57)%nat.

Definition bytes (l : list nat) : string :=
  string_of_list_ascii (ascii_of_nat <$> l).

Definition quote : string := bytes [34%nat].

(** The first loop of [ParseBytes]: it runs over the digits, points and
    commas the string starts with.  A digit outside ASCII, which
    [unicode.IsDigit] also lets through, ends the prefix here: Go hands it
    to [strconv.ParseFloat], which refuses it, and here it is refused as
    the start of a unit, so the call is an error with the value 0 either
    way. *)
Fixpoint split_num (s : string) : string * string :=
  match s with
  | String c s' =>
      if is_digit c || bool_decide (c = "."%char) || bool_decide (c = ","%char)
      then let '(num, rest) := split_num s' in (String c num, rest)
      else (EmptyString, s)
  | EmptyString => (EmptyString, EmptyString)
  end.

(** [strings.Replace(num, ",", "", -1)] *)
Fixpoint drop_commas (s : string) : string :=
  match s with
  | String c s' => if bool_decide (c = ","%char) then drop_commas s'
                   else String c (drop_commas s')
  | EmptyString => EmptyString
  end.

(** The digits of a number with at most one point: the integer they spell
    without the point and how many of them stand behind it; [None] for a
    second point, another character or no digit at all. *)
Fixpoint scan_decimal (s : string) (m k : Z) (point digit : bool) : option (Z * Z) :=
  match s with
  | String c s' =>
      if is_digit c
      then scan_decimal s' (10 * m + Z.of_nat (nat_of_ascii c - 48))
             (if point then k + 1 else k) point true
      else if bool_decide (c = "."%char) && negb point
      then scan_decimal s' m k true digit
      else None
  | EmptyString => if digit then Some (m, k) else None
  end.

(** The [float64] nearest to [m / 10^k], ties to even. *)
Definition nearest_float (m k : Z) : spec_float :=
  if m =? 0 then S754_zero false
  else let '(q, e, l) := SFdiv_core_binary prec emax m 0 (10 ^ k) 0 in
       binary_round_aux prec emax false q e l.

(** [strconv.ParseFloat(num, 64)] on what [ParseBytes] passes to it, a
    string of digits and points: the nearest [float64], a syntax error
    without a digit or with two points, a range error when the value rounds
    to infinity. *)
Definition ParseFloat (num : string) : spec_float + error :=
  let parsing := "strconv.ParseFloat: parsing " +:+ quote +:+ num +:+ quote in
  match scan_decimal num 0 0 false false with
  | None => inr (Errorf (parsing +:+ ": invalid syntax"))
  | Some (m, k) =>
      match nearest_float m k with
      | S754_infinity _ | S754_nan => inr (Errorf (parsing +:+ ": value out of range"))
      | f => inl f
      end
  end.

(** The runes of [unicode.IsSpace] outside ASCII, in UTF-8. *)
Definition is_space1 (c : ascii) : bool :=
  bool_decide (nat_of_ascii c ∈ [9; 10; 11; 12; 13; 32]%nat).

Definition is_space2 (c1 c2 : ascii) : bool :=
  bool_decide ((nat_of_ascii c1, nat_of_ascii c2) ∈ [(194, 133); (194, 160)]%nat).

Definition is_space3 (c1 c2 c3 : ascii) : bool :=
  let n1 := nat_of_ascii c1 in
  let n2 := nat_of_ascii c2 in
  let n3 := nat_of_ascii c3 in
  bool_decide ((n1, n2, n3) ∈ [(225, 154, 128); (226, 128, 168); (226, 128, 169);
                                (226, 128, 175); (226, 129, 159); (227, 128, 128)]%nat)
  || (bool_decide ((n1, n2) = (226, 128)%nat) && (128 <=? n3)%nat && (n3 <=? 138)%nat).

(** [strings.TrimLeftFunc(s, unicode.IsSpace)] *)
Fixpoint trim_left (s : string) : string :=
  match s with
  | String c1 s1 =>
      if is_space1 c1 then trim_left s1
      else match s1 with
           | String c2 s2 =>
               if is_space2 c1 c2 then trim_left s2
               else match s2 with
                    | String c3 s3 => if is_space3 c1 c2 c3 then trim_left s3 else s
                    | EmptyString => s
                    end
           | EmptyString => s
           end
  | EmptyString => s
  end.

(** The same from the end, on the reversed list of bytes. *)
Fixpoint trim_right_rev (l : list ascii) : list ascii :=
  match l with
  | c1 :: l1 =>
      if is_space1 c1 then trim_right_rev l1
      else match l1 with
           | c2 :: l2 =>
               if is_space2 c2 c1 then trim_right_rev l2
               else match l2 with
                    | c3 :: l3 => if is_space3 c3 c2 c1 then trim_right_rev l3 else l
                    | [] => l
                    end
           | [] => l
           end
  | [] => l
  end.

(** [strings.TrimSpace] *)
Definition TrimSpace (s : string) : string :=
  string_of_list_ascii
    (rev (trim_right_rev (rev (list_ascii_of_string (trim_left s))))).

(** [strings.ToLower] as far as the table of units can see it: the letters
    of ASCII, and the two runes outside ASCII whose lower case is a letter
    of ASCII, the Kelvin sign (k) and the dotted capital I (i).  What else
    lies outside ASCII stays outside and is left as it is. *)
Fixpoint ToLower (s : string) : string :=
  match s with
  | String c1 s1 =>
      let n1 := nat_of_ascii c1 in
      if (65 <=? n1)%nat && (n1 <=? 90)%nat then String (ascii_of_nat (n1 + 32)) (ToLower s1)
      else match s1 with
           | String c2 s2 =>
               if bool_decide ((n1, nat_of_ascii c2) = (196, 176)%nat)
               then String "i"%char (ToLower s2)
               else match s2 with
                    | String c3 s3 =>
                        if bool_decide ((n1, nat_of_ascii c2, nat_of_ascii c3)
                                        = (226, 132, 170)%nat)
                        then String "k"%char (ToLower s3)
                        else String c1 (ToLower s1)
                    | EmptyString => String c1 (ToLower s1)
                    end
           | EmptyString => String c1 EmptyString
           end
  | EmptyString => EmptyString
  end.

(** [bytesSizeTable]: the units with [i] are powers of 1024, the others
    powers of 1000. *)
Definition bytesSizeTable (unit : string) : option Z :=
  if decide (unit ∈ [""; "b"]) then Some 1
  else if decide (unit ∈ ["k"; "kb"]) then Some (10 ^ 3)
  else if decide (unit ∈ ["ki"; "kib"]) then Some (2 ^ 10)
  else if decide (unit ∈ ["m"; "mb"]) then Some (10 ^ 6)
  else if decide (unit ∈ ["mi"; "mib"]) then Some (2 ^ 20)
  else if decide (unit ∈ ["g"; "gb"]) then Some (10 ^ 9)
  else if decide (unit ∈ ["gi"; "gib"]) then Some (2 ^ 30)
  else if decide (unit ∈ ["t"; "tb"]) then Some (10 ^ 12)
  else if decide (unit ∈ ["ti"; "tib"]) then Some (2 ^ 40)
  else if decide (unit ∈ ["p"; "pb"]) then Some (10 ^ 15)
  else if decide (unit ∈ ["pi"; "pib"]) then Some (2 ^ 50)
  else if decide (unit ∈ ["e"; "eb"]) then Some (10 ^ 18)
  else if decide (unit ∈ ["ei"; "eib"]) then Some (2 ^ 60)
  else None.

(** [uint64(f)] behind the test [f >= math.MaxUint64]: the float cut to an
    integer, [None] from 2^64 on. *)
Definition to_uint64 (f : spec_float) : option Z :=
  match f with
  | S754_zero _ => Some 0
  | S754_finite false m e =>
      let n := if 0 <=? e then Z.pos m * 2 ^ e else Z.pos m / 2 ^ (- e) in
      if n <? 2 ^ 64 then Some n else None
  | _ => None
  end.

(** [humanize.ParseBytes] of go-humanize, which is not part of this
    repository: the number is read as a [float64], multiplied by the unit
    and cut to a [uint64]; every error comes with the value 0. *)
Definition ParseBytes (s : string) : Z * option error :=
  let '(num, rest) := split_num s in
  match ParseFloat (drop_commas num) with
  | inr err => (0, Some err)
  | inl f =>
      let extra := ToLower (TrimSpace rest) in
      match bytesSizeTable extra with
      | Some m =>
          match to_uint64 (SFmul prec emax f (binary_normalize prec emax m 0 false)) with
          | Some n => (n, None)
          | None => (0, Some (Errorf ("too large: " +:+ s)))
          end
      | None => (0, Some (Errorf ("unhandled size name: " +:+ extra)))
      end
  end.

End humanize.

Module strategicpatch.

(** [sortScalars]: the entries in the order of their strings. *)
Fixpoint insert_scalar (x : string) (l : list string) : list string :=
  match l with
  | [] => [x]
  | y :: l' => if String.ltb x y then x :: l else y :: insert_scalar x l'
  end.

Definition sortScalars (l : list string) : list string :=
  foldl (λ sorted x, insert_scalar x sorted) [] l.

(** [diffListsOfScalars]: the two sorted lists are walked together, entry
    by entry; an entry that only the modified list has at its place is an
    addition, one that only the original has is a deletion. *)
Fixpoint diffListsOfScalars (original modified : list string) {struct original}
  : list string * list string :=
  match original with
  | [] => (modified, [])
  | o :: original' =>
      (fix walk (modified : list string) : list string * list string :=
         match modified with
         | [] => ([], original)
         | m :: modified' =>
             match String.compare o m with
             | Eq => diffListsOfScalars original' modified'
             | Lt => let '(adds, dels) := diffListsOfScalars original' modified in
                     (adds, o :: dels)
             | Gt => let '(adds, dels) := walk modified' in (m :: adds, dels)
             end
         end) modified
  end.

(** [strategicpatch.CreateTwoWayMergePatch] of the Kubernetes client
    library, which is not part of this repository, on two copies of a
    secret that differ in the finalizer list only, a list of scalars with
    the merge strategy: the additions, and the deletions without
    duplicates, of [diffListsOfScalars] on the two sorted lists. *)
Definition CreateTwoWayMergePatch (old new : Secret) : Patch :=
  let '(adds, dels) := diffListsOfScalars (sortScalars (Finalizers old))
                         (sortScalars (Finalizers new)) in
  mkPatch adds (remove_dups dels).

(** The server's side of the patch: deletions leave the current list,
    additions that it lacks are appended. *)
Definition apply (p : Patch) (cur : list string) : list string :=
  let kept := list_difference cur (patch_del p) in
  kept ++ list_difference (remove_dups (patch_add p)) kept.

End strategicpatch.

Module client.

(** Modelled from the spec: [client.Core().Secrets(ns).Get(name)], the
    credential store's "Get(ref)". *)
Definition Get (env : Env) (namespace name : string) : St (Secret + error) := λ w,
  let w := record (OpSecretGet namespace name) w in
  match fails env (OpSecretGet namespace name) with
  | Some msg => (inr (Errorf msg), w)
  | None =>
      match secrets w !! (namespace, name) with
      | Some s => (inl (mkSecret name namespace (Data s) (Finalizers s)), w)
      | None => (inr (Errorf ("secrets " +:+ name +:+ " not found")), w)
      end
  end.

(** Modelled from the spec: [client.Core().Secrets(ns).Patch(name, ...)],
    the credential store's "Patch(ref, diff)". *)
Definition Patch_ (env : Env) (namespace name : string) (p : Patch)
  : St (option error) := λ w,
  let w := record (OpSecretPatch namespace name p) w in
  match fails env (OpSecretPatch namespace name p) with
  | Some msg => (Some (Errorf msg), w)
  | None =>
      match secrets w !! (namespace, name) with
      | Some s =>
          (None, set_secrets
                   (insert (namespace, name)
                      (mkSecret (Name s) (Namespace s) (Data s)
                         (strategicpatch.apply p (Finalizers s)))) w)
      | None => (Some (Errorf ("secrets " +:+ name +:+ " not found")), w)
      end
  end.

End client.

Module glog.

Definition Infof (msg : string) : St () := logf INFO msg.
Definition Warningf (msg : string) : St () := logf WARNING msg.
Definition Errorf_ (msg : string) : St () := logf ERROR msg.

End glog.

(** ** Kubernetes objects, as far as the provisioner looks at them *)

Inductive PersistentVolumeAccessMode : Type :=
| ReadWriteOnce
| ReadOnlyMany
| ReadWriteMany.

Global Instance access_mode_eq_dec : EqDecision PersistentVolumeAccessMode.
Proof. solve_decision. Defined.

(** [metav1.LabelSelector]: both fields may be [nil]. *)
Record LabelSelector : Type := mkLabelSelector {
  MatchLabels : option (gmap string string);
  MatchExpressions : option (list string);
}.

(** [v1.PersistentVolumeClaim]; [storage] is
    [Spec.Resources.Requests[v1.ResourceStorage].Value()], an [int64]. *)
Record PersistentVolumeClaim : Type := mkPVC {
  UID : string;
  claim_Namespace : string;
  AccessModes : list PersistentVolumeAccessMode;
  Selector : option LabelSelector;
  storage : Z;
}.

(** [controller.VolumeOptions] *)
Record VolumeOptions : Type := mkVolumeOptions {
  PersistentVolumeReclaimPolicy : string;
  PVName : string;
  PVC : PersistentVolumeClaim;
  Parameters : gmap string string;
}.

(** [v1.FlexVolumeSource]; [SecretRef] is the name the reference holds. *)
Record FlexVolumeSource : Type := mkFlexVolume {
  Driver : string;
  SecretRef : string;
  Options : gmap string string;
}.

(** [v1.PersistentVolume], the volume handle.  [ClaimRef] is the namespace
    of the claim the volume is bound to; [Provision] leaves it [nil]. *)
Record PersistentVolume : Type := mkPV {
  pv_Name : string;
  Annotations : gmap string string;
  Labels : option (gmap string string);
  pv_ReclaimPolicy : string;
  pv_AccessModes : list PersistentVolumeAccessMode;
  Capacity : Z;
  FlexVolume : FlexVolumeSource;
  ClaimRef : option string;
}.

(** The controller binds the volume to its claim before it stores it. *)
Definition bound (namespace : string) (pv : PersistentVolume) : PersistentVolume :=
  mkPV (pv_Name pv) (Annotations pv) (Labels pv) (pv_ReclaimPolicy pv)
       (pv_AccessModes pv) (Capacity pv) (FlexVolume pv) (Some namespace).

(** How a call of [Delete] ends: it returns an error value, or it
    dereferences a [nil] claim reference. *)
Inductive result : Type :=
| Returned (err : option error)
| Panicked.

(** ** Go values *)

(** [m[k]] on a [map[string]string]: the empty string for a missing key. *)
Definition get (m : gmap string string) (k : string) : string := default "" (m !! k).

Definition uint64 (z : Z) : Z := z mod 2 ^ 64.

(** The loop [for i, f := range l { if f == x { idx = i; break } }] started
    with [idx := -1]. *)
Fixpoint index_from (i : Z) (x : string) (l : list string) : Z :=
  match l with
  | [] => -1
  | f :: l' => if decide (f = x) then i else index_from (i + 1) x l'
  end.

Definition index_of (x : string) (l : list string) : Z := index_from 0 x l.

(** [append(s[:i], s[i+1:]...)]: the slice [s[:i]] has the capacity of [s],
    so the elements are written into the array of [s] itself.  The elements
    after place [i] move one place down and the last place keeps what it
    held.  The first component is what [s] (same array, same length) reads
    afterwards, the second the slice that [append] returns. *)
Definition append_cut (s : list string) (i : nat) : list string * list string :=
  let moved := take i s ++ drop (S i) s in
  (moved ++ drop (length moved) s, moved).

(** ** The provisioner with finalizers (source file [unnamed/part_001]) *)

Module Part001.

Definition parentProvisionerAnn : string := "vzFSParentProvisioner".
Definition vzShareAnn : string := "vzShare".

Definition provisionerDir : string := "/export/virtuozzo-provisioner/".
Definition mountDir : string := provisionerDir +:+ "mnt/".

Definition prepareVstorage (env : Env) (options : gmap string string)
    (clusterName clusterPassword : string) : St (option error) :=
  let mount := mountDir +:+ clusterName in
  mounted ← vstorage.IsVstorage mount;
  if (mounted : bool) then mret None
  else
    check os.MkdirAll env mount;
    p ← vstorage.Mountpoint clusterName;
    if decide (p ≠ "") then syscall.Mount env p mount
    else
      check vstorage.Auth env clusterName clusterPassword;
      check vstorage.Mount env clusterName mount;
      mret None.

(** The variables that the first loop of [createPloop] fills. *)
Record vars : Type := mkVars {
  volumePath : string;
  deltasPath : string;
  volumeID : string;
  size : string;
}.

(** The body of [for k, v := range options { switch k { ... } }]. *)
Definition scan (k v : string) (a : vars) : vars :=
  if decide (k = "volumePath") then mkVars v (deltasPath a) (volumeID a) (size a)
  else if decide (k = "deltasPath") then mkVars (volumePath a) v (volumeID a) (size a)
  else if decide (k = "volumeID") then mkVars (volumePath a) (deltasPath a) v (size a)
  else if decide (k = "size") then mkVars (volumePath a) (deltasPath a) (volumeID a) v
  else a.

(** The [switch] of the second loop: the storage attribute a key stands for. *)
Definition attr_of (k : string) : string :=
  if decide (k = "vzsReplicas") then "replicas"
  else if decide (k = "vzsTier") then "tier"
  else if decide (k = "vzsEncoding") then "encoding"
  else if decide (k = "vzsFailureDomain") then "failure-domain"
  else "".

(** The second loop of [createPloop], over the entries in the order the
    runtime yields them. *)
Fixpoint set_attrs (env : Env) (ploopPath : string) (kvs : list (string * string))
  : St (option error) :=
  match kvs with
  | [] => mret None
  | (k, v) :: rest =>
      let attr := attr_of k in
      err ← (if decide (attr ≠ "") then vstorage.set_attr env ploopPath attr v
             else mret None);
      match err with
      | Some e =>
          _ ← os.RemoveAll env ploopPath;
          mret (Some (Errorf ("Unable to set " +:+ attr +:+ " to " +:+ v +:+ ": "
                              +:+ Error_ e)))
      | None => set_attrs env ploopPath rest
      end
  end.

Section WithParser.

(** [humanize.ParseBytes]: the value and the error it returns. *)
Variable ParseBytes : string → Z * option error.

Definition createPloop (env : Env) (mount : string) (options : gmap string string)
  : St (option error) :=
  let a := map_fold scan (mkVars "" "" "" "") options in
  if decide (volumePath a = "") then mret (Some (Errorf "volumePath isn't specified"))
  else
    let deltasPath := if decide (deltasPath a = "") then volumePath a else deltasPath a in
    if decide (volumeID a = "") then mret (Some (Errorf "volumeID isn't specified"))
    else if decide (size a = "") then mret (Some (Errorf "size isn't specified"))
    else
      (* bytes, _ := humanize.ParseBytes(size) *)
      let bytes := uint64 (ParseBytes (size a)).1 in
      let volumeSize := bytes / 1024 in
      check os.MkdirAll env (Path.Join [mount; deltasPath]);
      let ploopPath := Path.Join [mount; volumePath a; get options "volumeID"] in
      let deltaPath := Path.Join [mount; deltasPath; get options "volumeID" +:+ ".image"] in
      check ploop.PloopVolumeCreate env ploopPath volumeSize deltaPath;
      set_attrs env ploopPath (map_to_list options).

End WithParser.

Definition patchSecret (env : Env) (oldSecret newSecret : Secret) : St (option error) :=
  let patchBytes := strategicpatch.CreateTwoWayMergePatch oldSecret newSecret in
  _ ← glog.Infof ("Secret " +:+ Name newSecret +:+ " patch");
  client.Patch_ env (Namespace newSecret) (Name newSecret) patchBytes.

Definition removePloop (env : Env) (mount : string) (options : gmap string string)
  : St (option error) :=
  let ploopPath := Path.Join [mount; get options "volumePath"; get options "volumeID"] in
  check ploop.PloopVolumeOpen env ploopPath;
  _ ← glog.Infof ("Delete: " +:+ ploopPath);
  ploop.Delete env ploopPath.

(** The access modes [Provision] goes on with: [ReadWriteOnce] when the
    claim names none, the claim's own when that is [ReadWriteOnce] alone,
    and no result when the request is refused. *)
Definition allowed_modes (modes : list PersistentVolumeAccessMode)
  : option (list PersistentVolumeAccessMode) :=
  if decide (length modes = 0%nat) then Some (modes ++ [ReadWriteOnce])
  else if decide (length modes ≠ 1%nat ∨ modes !! 0%nat ≠ Some ReadWriteOnce) then None
  else Some modes.

Section WithParser.

Variable ParseBytes : string → Z * option error.

(** [*provisionerID], the [-id] flag. *)
Variable provisionerID : string.

Definition Provision (env : Env) (options : VolumeOptions)
  : St (option PersistentVolume * option error) :=
  match allowed_modes (AccessModes (PVC options)) with
  | None =>
      mret (None, Some (Errorf
        "Virtuozzo flexvolume provisioner supports only ReadWriteOnce access mode"))
  | Some modes =>
  let bytes := storage (PVC options) in
  if decide (Selector (PVC options) ≠ None)
  then mret (None, Some (Errorf "claim Selector is not supported"))
  else
  let share := "kubernetes-dynamic-pvc-" +:+ UID (PVC options) in
  _ ← glog.Infof ("Add " +:+ share +:+ " " +:+ fmt.d (uint64 bytes));
  let storageClassOptions := Parameters options in
  let storageClassOptions := <["volumeID" := share]> storageClassOptions in
  let storageClassOptions := <["size" := fmt.d bytes]> storageClassOptions in
  let secretName := get storageClassOptions "secretName" in
  let storageClassOptions := delete "secretName" storageClassOptions in
  r ← client.Get env (claim_Namespace (PVC options)) secretName;
  match r with
  | inr err => mret (None, Some err)
  | inl secret =>
  let name := get (Data secret) "clusterName" in
  let password := get (Data secret) "clusterPassword" in
  err ← prepareVstorage env storageClassOptions name password;
  match err with Some err => mret (None, Some err) | None =>
  err ← createPloop ParseBytes env (mountDir +:+ name) storageClassOptions;
  match err with Some err => mret (None, Some err) | None =>
  let finalizer := "virtuozzo.com/" +:+ NewUUID env +:+ "-pv" in
  let storageClassOptions := <["clusterName" := name]> storageClassOptions in
  let storageClassOptions := <["finalizer" := finalizer]> storageClassOptions in
  let pv :=
    mkPV (PVName options)
         {[ parentProvisionerAnn := provisionerID; vzShareAnn := share ]}
         None
         (PersistentVolumeReclaimPolicy options)
         modes
         (storage (PVC options))
         (mkFlexVolume "virtuozzo/ploop" secretName storageClassOptions)
         None in
  let idx := index_of finalizer (Finalizers secret) in
  if decide (idx = -1) then
    let newSecret :=
      mkSecret (Name secret) (Namespace secret) (Data secret)
               (Finalizers secret ++ [finalizer]) in
    err ← patchSecret env secret newSecret;
    match err with
    | Some err =>
        _ ← glog.Errorf_ ("Failed to update finalizers in secret: " +:+ secretName);
        e ← removePloop env (mountDir +:+ name) storageClassOptions;
        match e with
        | Some e =>
            mret (None, Some (Errorf ("Add finalizer error: " +:+ Error_ err +:+
                                      "; cleanup ploop-volume error: " +:+ Error_ e)))
        | None => mret (None, Some err)
        end
    | None =>
        _ ← glog.Infof ("successfully created virtuozzo storage share: " +:+ share);
        mret (Some pv, None)
    end
  else
    _ ← glog.Infof ("successfully created virtuozzo storage share: " +:+ share);
    mret (Some pv, None)
  end end end
  end.

Definition Delete (env : Env) (volume : PersistentVolume) : St result :=
  match Annotations volume !! parentProvisionerAnn with
  | None =>
      mret (Returned (Some (Errorf "Parent provisioner name annotation not found on PV")))
  | Some ann =>
  if decide (ann ≠ provisionerID)
  then mret (Returned (Some (IgnoredError
         "parent provisioner name annotation on PV does not match ours")))
  else
  match Annotations volume !! vzShareAnn with
  | None => mret (Returned (Some (Errorf "vz share annotation not found on PV")))
  | Some share =>
  let secretName := SecretRef (FlexVolume volume) in
  let options := Options (FlexVolume volume) in
  match ClaimRef volume with
  | None => mret Panicked
  | Some namespace =>
  r ← client.Get env namespace secretName;
  match r with
  | inr err => mret (Returned (Some err))
  | inl secret =>
  let name := get (Data secret) "clusterName" in
  let password := get (Data secret) "clusterPassword" in
  let mount := mountDir +:+ name in
  err ← prepareVstorage env options name password;
  match err with Some err => mret (Returned (Some err)) | None =>
  err ← removePloop env mount options;
  match err with Some err => mret (Returned (Some err)) | None =>
  (* defer glog.Infof(...): runs when the function returns *)
  let deferred := glog.Infof ("successfully delete virtuozzo storage share: " +:+ share) in
  (* newSecret := *secret: the two Finalizers slices share one array *)
  match options !! "finalizer" with
  | None =>
      _ ← glog.Warningf ("Unable to find finalizer in flexvolume " +:+ pv_Name volume
                         +:+ " options");
      _ ← deferred; mret (Returned None)
  | Some finalizer =>
  let idx := index_of finalizer (Finalizers secret) in
  if decide (idx = -1) then
    _ ← glog.Warningf ("Cannot find finalizer " +:+ finalizer +:+ " in secret "
                       +:+ secretName);
    _ ← deferred; mret (Returned None)
  else
    let '(shared, cut) := append_cut (Finalizers secret) (Z.to_nat idx) in
    let secret := mkSecret (Name secret) (Namespace secret) (Data secret) shared in
    let newSecret := mkSecret (Name secret) (Namespace secret) (Data secret) cut in
    err ← patchSecret env secret newSecret;
    _ ← match err with
        | Some err =>
            glog.Warningf ("Failed to update finalizers in secret " +:+ secretName
                           +:+ ": " +:+ Error_ err)
        | None => mret ()
        end;
    _ ← deferred; mret (Returned None)
  end end end
  end end end
  end.

End WithParser.

End Part001.

(** ** The provisioner that detaches the mount (source file [unnamed/part_000]) *)

Module Part000.

Definition parentProvisionerAnn : string := "vzFSParentProvisioner".
Definition vzShareAnn : string := "vzShare".

Definition ProvisionerDir : string := "/export/virtuozzo-provisioner/".
Definition MountDir : string := ProvisionerDir +:+ "mnt/".

Definition prepareVstorage (env : Env) (options : gmap string string)
    (clusterName clusterPassword : string) : St (option error) :=
  let mount := MountDir +:+ clusterName in
  mounted ← vstorage.IsVstorage mount;
  if (mounted : bool) then mret None
  else
    check os.MkdirAll env mount;
    p ← vstorage.Mountpoint clusterName;
    if decide (p ≠ "") then syscall.Mount env p mount
    else
      check vstorage.Auth env clusterName clusterPassword;
      check vstorage.Mount env clusterName mount;
      mret None.

Record vars : Type := mkVars {
  volumePath : string;
  volumeId : string;
  size : string;
}.

Definition scan (k v : string) (a : vars) : vars :=
  if decide (k = "volumePath") then mkVars v (volumeId a) (size a)
  else if decide (k = "volumeId") then mkVars (volumePath a) v (size a)
  else if decide (k = "size") then mkVars (volumePath a) (volumeId a) v
  else a.

Definition attr_of (k : string) : string :=
  if decide (k = "vzsReplicas") then "replicas"
  else if decide (k = "vzsTier") then "tier"
  else if decide (k = "vzsEncoding") then "encoding"
  else if decide (k = "vzsFailureDomain") then "failure-domain"
  else "".

Fixpoint set_attrs (env : Env) (ploop_path : string) (kvs : list (string * string))
  : St (option error) :=
  match kvs with
  | [] => mret None
  | (k, v) :: rest =>
      let attr := attr_of k in
      err ← (if decide (attr ≠ "") then vstorage.set_attr env ploop_path attr v
             else mret None);
      match err with
      | Some e =>
          _ ← os.RemoveAll env ploop_path;
          mret (Some (Errorf ("Unable to set " +:+ attr +:+ " to " +:+ v +:+ ": "
                              +:+ Error_ e)))
      | None => set_attrs env ploop_path rest
      end
  end.

Section WithParser.

Variable ParseBytes : string → Z * option error.

(** [*provisionerId], the [-name] flag. *)
Variable provisionerId : string.

Definition createPloop (env : Env) (mount : string) (options : gmap string string)
  : St (option error) :=
  let a := map_fold scan (mkVars "" "" "") options in
  if decide (volumePath a = "") then mret (Some (Errorf "volumePath isn't specified"))
  else if decide (volumeId a = "") then mret (Some (Errorf "volumeId isn't specified"))
  else if decide (size a = "") then mret (Some (Errorf "size isn't specified"))
  else
    let bytes := uint64 (ParseBytes (size a)).1 in
    let volume_size := bytes / 1024 in
    let ploop_path :=
      mount +:+ "/" +:+ get options "volumePath" +:+ "/" +:+ get options "volumeId" in
    check os.MkdirAll env ploop_path;
    check set_attrs env ploop_path (map_to_list options);
    check ploop.Create env volume_size (ploop_path +:+ "/" +:+ get options "volumeId");
    mret None.

Definition Provision (env : Env) (options : VolumeOptions)
  : St (option PersistentVolume * option error) :=
  let bytes := storage (PVC options) in
  if decide (Selector (PVC options) ≠ None)
  then mret (None, Some (Errorf "claim Selector is not supported"))
  else
  let share := "kubernetes-dynamic-pvc-" +:+ NewUUID env in
  _ ← glog.Infof ("Add " +:+ share +:+ " " +:+ fmt.d (uint64 bytes));
  let storage_class_options := Parameters options in
  let storage_class_options := <["volumeId" := share]> storage_class_options in
  let storage_class_options := <["size" := fmt.d bytes]> storage_class_options in
  let secretName := get storage_class_options "secretName" in
  let storage_class_options := delete "secretName" storage_class_options in
  r ← client.Get env (claim_Namespace (PVC options)) secretName;
  match r with
  | inr err => mret (None, Some err)
  | inl secret =>
  let name := get (Data secret) "clusterName" in
  let password := get (Data secret) "clusterPassword" in
  err ← prepareVstorage env storage_class_options name password;
  match err with Some err => mret (None, Some err) | None =>
  (* defer syscall.Unmount(MountDir+name, syscall.MNT_DETACH) *)
  let deferred := syscall.Unmount env (MountDir +:+ name) in
  err ← createPloop env (MountDir +:+ name) storage_class_options;
  match err with
  | Some err => _ ← deferred; mret (None, Some err)
  | None =>
  let pv :=
    mkPV (PVName options)
         {[ parentProvisionerAnn := provisionerId; vzShareAnn := share ]}
         None
         (PersistentVolumeReclaimPolicy options)
         (AccessModes (PVC options))
         (storage (PVC options))
         (mkFlexVolume "virtuozzo/ploop" secretName storage_class_options)
         None in
  _ ← glog.Infof ("successfully created virtuozzo storage share: " +:+ share);
  _ ← deferred; mret (Some pv, None)
  end end end.

Definition Delete (env : Env) (volume : PersistentVolume) : St result :=
  match Annotations volume !! parentProvisionerAnn with
  | None =>
      mret (Returned (Some (Errorf "Parent provisioner name annotation not found on PV")))
  | Some ann =>
  if decide (ann ≠ provisionerId)
  then mret (Returned (Some (IgnoredError
         "parent provisioner name annotation on PV does not match ours")))
  else
  match Annotations volume !! vzShareAnn with
  | None => mret (Returned (Some (Errorf "vz share annotation not found on PV")))
  | Some share =>
  let secretName := SecretRef (FlexVolume volume) in
  let options := Options (FlexVolume volume) in
  match ClaimRef volume with
  | None => mret Panicked
  | Some namespace =>
  r ← client.Get env namespace secretName;
  match r with
  | inr err => mret (Returned (Some err))
  | inl secret =>
  let name := get (Data secret) "clusterName" in
  let password := get (Data secret) "clusterPassword" in
  let mount := MountDir +:+ name in
  err ← prepareVstorage env options name password;
  match err with Some err => mret (Returned (Some err)) | None =>
  (* defer syscall.Unmount(mount, syscall.MNT_DETACH) *)
  let deferred := syscall.Unmount env mount in
  let path := mount +:+ "/" +:+ get options "volumePath" +:+ "/" +:+ get options "volumeId" in
  _ ← glog.Infof ("Delete: " +:+ path);
  err ← os.RemoveAll env path;
  match err with
  | Some err => _ ← deferred; mret (Returned (Some err))
  | None =>
  _ ← glog.Infof ("successfully delete virtuozzo storage share: " +:+ share);
  _ ← deferred; mret (Returned None)
  end end end end end
  end.

End WithParser.

End Part000.

(** ** Package [volume] of the flexvolume driver (source file [unnamed/part_005]) *)

Module Volume.

Record vars : Type := mkVars {
  volumePath : string;
  volumeId : string;
  size : string;
}.

(** The first loop of [Create]: a key outside the known ones ends the call. *)
Fixpoint scan (kvs : list (string * string)) (a : vars) : vars + error :=
  match kvs with
  | [] => inl a
  | (k, v) :: rest =>
      if decide (k = "volumePath") then scan rest (mkVars v (volumeId a) (size a))
      else if decide (k = "volumeId") then scan rest (mkVars (volumePath a) v (size a))
      else if decide (k = "size") then scan rest (mkVars (volumePath a) (volumeId a) v)
      else if decide (k ∈ ["vzsReplicas"; "vzsTier"; "kubernetes.io/readwrite";
                           "kubernetes.io/fsType"]) then scan rest a
      else inr (Errorf ("Unknown option: " +:+ k +:+ " (" +:+ v +:+ ")"))
  end.

Fixpoint set_attrs (env : Env) (ploop_path : string) (kvs : list (string * string))
  : St (option error) :=
  match kvs with
  | [] => mret None
  | (k, v) :: rest =>
      err ← (if decide (k = "vzsReplicas")
             then vstorage.set_attr env ploop_path "replicas" v
             else if decide (k = "vzsTier")
             then vstorage.set_attr env ploop_path "tier" v
             else mret None);
      match err with
      | Some e => _ ← os.RemoveAll env ploop_path; mret (Some e)
      | None => set_attrs env ploop_path rest
      end
  end.

Section WithParser.

Variable ParseBytes : string → Z * option error.

Definition Create (env : Env) (options : gmap string string) : St (option error) :=
  match scan (map_to_list options) (mkVars "" "" "") with
  | inr err => mret (Some err)
  | inl a =>
  if decide (volumePath a = "") then mret (Some (Errorf "volumePath isn't specified"))
  else if decide (volumeId a = "") then mret (Some (Errorf "volumeId isn't specified"))
  else if decide (size a = "") then mret (Some (Errorf "size isn't specified"))
  else
    let bytes := uint64 (ParseBytes (size a)).1 in
    let volume_size := bytes / 1024 in
    let ploop_path := get options "volumePath" +:+ "/" +:+ get options "volumeId" in
    check os.MkdirAll env ploop_path;
    check set_attrs env ploop_path (map_to_list options);
    check ploop.Create env volume_size (ploop_path +:+ "/" +:+ get options "volumeId");
    mret None
  end.

End WithParser.

End Volume.

(** ** The first provisioner (source file
    [virtuozzo-storage/virtuozzo-provisioner.go]) *)

Module VirtuozzoStorage.

Definition provisionerIDAnn : string := "vzFSProvisionerIdentity".
Definition vzShareAnn : string := "vzShare".

(** The loop of [parseParameters]. *)
Fixpoint parse_loop (kvs : list (string * string)) (volumePath : string)
  : string + error :=
  match kvs with
  | [] => inl volumePath
  | (k, v) :: rest =>
      if decide (k = "volumePath") then parse_loop rest v
      else inr (Errorf ("invalid option " +:+ k))
  end.

Definition parseParameters (parameters : gmap string string) : string + error :=
  match parse_loop (map_to_list parameters) "" with
  | inr err => inr err
  | inl volumePath =>
      if decide (volumePath = "") then inr (Errorf "missing volumePath")
      else inl volumePath
  end.

(** The loop over the selector's labels: the two placement keys go into the
    options, the others are logged and skipped. *)
Fixpoint take_labels (kvs : list (string * string)) (ploop_options : gmap string string)
  : St (gmap string string) :=
  match kvs with
  | [] => mret ploop_options
  | (k, v) :: rest =>
      if decide (k = "vzsReplicas" ∨ k = "vzsTier")
      then take_labels rest (<[k := v]> ploop_options)
      else _ ← glog.Infof ("Skip " +:+ k +:+ " = " +:+ v);
           take_labels rest ploop_options
  end.

Section WithParser.

Variable ParseBytes : string → Z * option error.

(** [p.identity], drawn once when the provisioner is made. *)
Variable identity : string.

Definition Provision (env : Env) (options : VolumeOptions)
  : St (option PersistentVolume * option error) :=
  match parseParameters (Parameters options) with
  | inr err => mret (None, Some err)
  | inl volumePath =>
  let bytes := storage (PVC options) in
  if match Selector (PVC options) with
     | Some sel => bool_decide (MatchExpressions sel ≠ None)
     | None => false
     end
  then mret (None, Some (Errorf "claim Selector.matchExpressions is not supported"))
  else
  let share := "kubernetes-dynamic-pvc-" +:+ NewUUID env in
  _ ← glog.Infof ("Add " +:+ volumePath +:+ " " +:+ share +:+ " " +:+ fmt.d bytes);
  let labels := sel ← Selector (PVC options); MatchLabels sel in
  let ploop_options : gmap string string :=
    {[ "volumePath" := volumePath; "volumeId" := share; "size" := fmt.d bytes ]} in
  ploop_options ← match labels with
                  | Some labels => take_labels (map_to_list labels) ploop_options
                  | None => mret ploop_options
                  end;
  err ← Volume.Create ParseBytes env ploop_options;
  match err with
  | Some err => mret (None, Some err)
  | None =>
  let pv :=
    mkPV (PVName options)
         {[ provisionerIDAnn := identity; vzShareAnn := share ]}
         labels
         (PersistentVolumeReclaimPolicy options)
         (AccessModes (PVC options))
         (storage (PVC options))
         (mkFlexVolume "jaxxstorm/ploop" "" ploop_options)
         None in
  _ ← glog.Infof ("successfully created virtuozzo storage share: " +:+ share);
  mret (Some pv, None)
  end end.

Definition Delete (env : Env) (volume : PersistentVolume) : St (option error) :=
  match Annotations volume !! provisionerIDAnn with
  | None => mret (Some (Errorf "identity annotation not found on PV"))
  | Some ann =>
  if decide (ann ≠ identity)
  then mret (Some (IgnoredError "identity annotation on PV does not match ours"))
  else
  match Annotations volume !! vzShareAnn with
  | None => mret (Some (Errorf "vz share annotation not found on PV"))
  | Some share =>
  let options := Options (FlexVolume volume) in
  let path := get options "volumePath" +:+ "/" +:+ get options "volumeId" in
  _ ← glog.Infof ("Delete: " +:+ path);
  check os.RemoveAll env path;
  _ ← glog.Infof ("successfully delete virtuozzo storage share: " +:+ share);
  mret None
  end end.

End WithParser.

End VirtuozzoStorage.

(** ** The flexvolume driver (source file [unnamed/part_004]) *)

Module FlexVol.

(** [flexvolume.Response] *)
Record Response : Type := mkResponse {
  Status : string;
  Message : string;
  VolumeName : string;
}.

Definition StatusSuccess : string := "Success".

Definition WorkingDir : string := "/var/run/ploop-flexvol/".

(** [Ploop.path] *)
Definition path (options : gmap string string) : string :=
  let path := "/" in
  let path := if decide (get options "volumePath" ≠ "")
              then path +:+ (get options "volumePath" +:+ "/") else path in
  path +:+ get options "volumeId".

(** [Ploop.GetVolumeName] *)
Definition GetVolumeName (options : gmap string string) : option Response * option error :=
  if decide (get options "volumeId" = "")
  then (None, Some (Errorf "Must specify a volume id"))
  else (Some (mkResponse StatusSuccess "" (get options "volumeId")), None).

(** [prepareVstorage] of the driver: the mount path is an argument, and an
    empty password is refused before authentication. *)
Definition prepareVstorage (env : Env) (clusterName clusterPasswd mount : string)
  : St (option error) :=
  mounted ← vstorage.IsVstorage mount;
  if (mounted : bool) then mret None
  else
    check os.MkdirAll env mount;
    p ← vstorage.Mountpoint clusterName;
    if decide (p ≠ "") then syscall.Mount env p mount
    else if decide (clusterPasswd = "")
    then mret (Some (Errorf "Please provide vstorage credentials"))
    else
      check vstorage.Auth env clusterName clusterPasswd;
      check vstorage.Mount env clusterName mount;
      mret None.

End FlexVol.

(** ** What the properties speak of *)

Definition returned_plain (r : result) : bool :=
  match r with Returned e => is_plain e | Panicked => false end.

(** [Provision] returned a volume and no error. *)
Definition returned_volume (r : option PersistentVolume * option error) : bool :=
  match r with (Some _, None) => true | _ => false end.

Definition is_mount_call (op : Op) : bool :=
  match op with OpMount _ _ | OpBindMount _ _ => true | _ => false end.

Definition is_unmount_call (op : Op) : bool :=
  match op with OpUnmount _ => true | _ => false end.

(** How often the trace mounts or bind-mounts, and how often it unmounts. *)
Definition mount_calls (t : list Op) : nat :=
  length (filter (λ op, is_mount_call op = true) t).

Definition unmount_calls (t : list Op) : nat :=
  length (filter (λ op, is_unmount_call op = true) t).

Definition is_mounted (w : World) (point : string) : bool :=
  bool_decide (Path.Clean point ∈ (mounts w).*1).

(** The finalizer list of a stored secret, empty when there is no secret. *)
Definition finalizers_of (w : World) (namespace name : string) : list string :=
  default [] (Finalizers <$> secrets w !! (namespace, name)).


(** A step relation holds along a computation. *)
Definition along (R : relation World) {A} (m : St A) : Prop := ∀ w, R w (m w).2.

(** Steps that touch neither the mount table nor the secrets and never
    unmount. *)
Definition files_only (w w' : World) : Prop :=
  mounts w' = mounts w ∧ secrets w' = secrets w ∧
  unmount_calls (trace w') = unmount_calls (trace w).

Definition no_unmount (w w' : World) : Prop :=
  unmount_calls (trace w') = unmount_calls (trace w).

Definition same_secrets (w w' : World) : Prop := secrets w' = secrets w.

Definition same_mounts (w w' : World) : Prop := mounts w' = mounts w.

(** The record of calls only grows. *)
Definition trace_extends (w w' : World) : Prop := ∃ rest, trace w' = trace w ++ rest.

(** Steps that leave files and volumes alone. *)
Definition same_files (w w' : World) : Prop :=
  files w' = files w ∧ volumes w' = volumes w.

(** Names for the values that [Part001.Provision] computes from its
    request: the share, the options it hands to [createPloop], the name of
    the secret, the finalizer token, the volume it returns. *)
Definition prov_share (o : VolumeOptions) : string :=
  "kubernetes-dynamic-pvc-" +:+ UID (PVC o).

Definition prov_options0 (o : VolumeOptions) : gmap string string :=
  <["size" := fmt.d (storage (PVC o))]> (<["volumeID" := prov_share o]> (Parameters o)).

Definition prov_secretName (o : VolumeOptions) : string := get (prov_options0 o) "secretName".

Definition prov_options (o : VolumeOptions) : gmap string string :=
  delete "secretName" (prov_options0 o).

Definition prov_finalizer (env : Env) : string := "virtuozzo.com/" +:+ NewUUID env +:+ "-pv".

Definition prov_pv (id : string) (env : Env) (o : VolumeOptions)
    (modes : list PersistentVolumeAccessMode) (name : string) : PersistentVolume :=
  mkPV (PVName o)
       {[ Part001.parentProvisionerAnn := id; Part001.vzShareAnn := prov_share o ]}
       None (PersistentVolumeReclaimPolicy o) modes (storage (PVC o))
       (mkFlexVolume "virtuozzo/ploop" (prov_secretName o)
          (<["finalizer" := prov_finalizer env]> (<["clusterName" := name]> (prov_options o))))
       None.

(** The options as the handle has them, and the place of the volume. *)
Definition prov_handle_options (env : Env) (o : VolumeOptions) (name : string)
  : gmap string string :=
  <["finalizer" := prov_finalizer env]> (<["clusterName" := name]> (prov_options o)).

Definition prov_ploopPath (o : VolumeOptions) (name : string) : string :=
  Path.Join [Part001.mountDir +:+ name; get (prov_options o) "volumePath";
             get (prov_options o) "volumeID"].

Definition with_finalizer (s : Secret) (f : string) : Secret :=
  mkSecret (Name s) (Namespace s) (Data s) (Finalizers s ++ [f]).

(** The world after the first log line of [Part001.Provision], and the
    clean-up it runs when the patch has failed in the world [w4]. *)
Definition prov_start (o : VolumeOptions) (w : World) : World :=
  (glog.Infof ("Add " +:+ prov_share o +:+ " " +:+ fmt.d (uint64 (storage (PVC o)))) w).2.

Definition prov_cleanup (env : Env) (o : VolumeOptions) (name : string) (w4 : World)
  : option error * World :=
  Part001.removePloop env (Part001.mountDir +:+ name) (prov_handle_options env o name)
    (glog.Errorf_ ("Failed to update finalizers in secret: " +:+ prov_secretName o) w4).2.

(** A relation between worlds that no step on files, volumes or the log
    and no record of a call other than an unmount can break. *)
Class Framed (R : relation World) : Prop := {
  framed_pre :: PreOrder R;
  framed_log lvl msg w : R w (logf lvl msg w).2;
  framed_record op w : is_unmount_call op = false → R w (record op w);
  framed_files f w : R w (set_files f w);
  framed_volumes f w : R w (set_volumes f w);
}.

(** ** Sample worlds and requests *)

Module Sample.

Definition calm : Env := mkEnv (λ _, None) "6f1a".

Definition vz : Secret :=
  mkSecret "vz" "default" {[ "clusterName" := "c1"; "clusterPassword" := "pw" ]} [].

Definition fresh : World := mkWorld [] ∅ ∅ {[ ("default", "vz") := vz ]} [] [].

Definition claim : PersistentVolumeClaim := mkPVC "uid-1" "default" [] None (2 ^ 30).

Definition request : VolumeOptions :=
  mkVolumeOptions "Delete" "pv1" claim
    {[ "volumePath" := "pool/k8s"; "secretName" := "vz"; "vzsTier" := "0" ]}.

(** A handle that names another provisioner and has no share annotation. *)
Definition foreign : PersistentVolume :=
  mkPV "pv0"
       {[ "vzFSParentProvisioner" := "other"; "vzFSProvisionerIdentity" := "other" ]}
       None "Delete" [ReadWriteOnce] (2 ^ 30)
       (mkFlexVolume "virtuozzo/ploop" "vz" ∅) (Some "default").

(** A handle without any annotation. *)
Definition bare : PersistentVolume :=
  mkPV "pv0" ∅ None "Delete" [ReadWriteOnce] (2 ^ 30)
       (mkFlexVolume "virtuozzo/ploop" "vz" ∅) (Some "default").

(** A first [Provision] on the fresh world, the handle it returns (bound to
    its claim), and the [Delete] of that handle. *)
Definition provisioned : (option PersistentVolume * option error) * World :=
  Part001.Provision humanize.ParseBytes "me" calm request fresh.

Definition handle : PersistentVolume := bound "default" (default bare provisioned.1.1).

Definition deleted : result * World := Part001.Delete "me" calm handle provisioned.2.

(** The same request to the older provisioner. *)
Definition provisioned0 : (option PersistentVolume * option error) * World :=
  Part000.Provision humanize.ParseBytes "me" calm request fresh.

(** The world after the first [Provision], with the finalizer gone from the
    secret already, and the stages of a [Delete] of the handle there. *)
Definition cleared : World := set_secrets (λ _, {[ ("default", "vz") := vz ]}) provisioned.2.

Definition cleared_read : World := (client.Get calm "default" "vz" cleared).2.

Definition cleared_prepared : World :=
  (Part001.prepareVstorage calm (Options (FlexVolume handle)) "c1" "pw" cleared_read).2.

Definition cleared_removed : World :=
  (Part001.removePloop calm (Part001.mountDir +:+ "c1") (Options (FlexVolume handle))
     cleared_prepared).2.

(** An environment in which every patch of a secret fails. *)
Definition unpatchable : Env :=
  mkEnv (λ op, match op with OpSecretPatch _ _ _ => Some "etcdserver: request timed out"
               | _ => None end) "6f1a".


(** A second request on the same secret, and the [Delete] of the first
    handle after it. *)
Definition request2 : VolumeOptions :=
  mkVolumeOptions "Delete" "pv2" (mkPVC "uid-2" "default" [] None (2 ^ 30))
    {[ "volumePath" := "pool/k8s"; "secretName" := "vz" ]}.

Definition provisioned2 : (option PersistentVolume * option error) * World :=
  Part001.Provision humanize.ParseBytes "me" (mkEnv (λ _, None) "9c2e") request2
    provisioned.2.

Definition deleted_first : result * World :=
  Part001.Delete "me" calm handle provisioned2.2.

(** An environment in which the patch of the secret fails and the ploop
    library cannot delete a volume either. *)
Definition stuck : Env :=
  mkEnv (λ op, match op with
               | OpSecretPatch _ _ _ => Some "etcdserver: request timed out"
               | OpPloopVolumeDelete _ => Some "ploop: device is busy"
               | _ => None
               end) "6f1a".

Definition provisioned_stuck : (option PersistentVolume * option error) * World :=
  Part001.Provision humanize.ParseBytes "me" stuck request fresh.

Definition provisioned_unpatched : (option PersistentVolume * option error) * World :=
  Part001.Provision humanize.ParseBytes "me" unpatchable request fresh.

(** The stages of that call. *)
Definition unpatched_read : World :=
  (client.Get unpatchable "default" "vz" (prov_start request fresh)).2.

Definition unpatched_prepared : World :=
  (Part001.prepareVstorage unpatchable (prov_options request) "c1" "pw" unpatched_read).2.

Definition unpatched_created : World :=
  (Part001.createPloop humanize.ParseBytes unpatchable (Part001.mountDir +:+ "c1")
     (prov_options request) unpatched_prepared).2.

Definition unpatched_refused : World :=
  (Part001.patchSecret unpatchable vz (with_finalizer vz (prov_finalizer unpatchable))
     unpatched_created).2.

(** Options with a size that is no size, and options with a tier, for a
    call of [createPloop] on its own; an environment in which the storage
    refuses to set attributes. *)
Definition options_abc : gmap string string :=
  {[ "volumePath" := "pool"; "volumeID" := "v1"; "size" := "abc" ]}.

Definition options_10G : gmap string string :=
  {[ "volumePath" := "pool"; "volumeID" := "v1"; "size" := "10G" ]}.

Definition options_tier : gmap string string :=
  {[ "volumePath" := "pool"; "volumeID" := "v1"; "size" := "10G"; "vzsTier" := "0" ]}.

Definition no_attrs : Env :=
  mkEnv (λ op, match op with OpSetAttr _ _ _ => Some "exit status 1" | _ => None end) "6f1a".

Definition created_abc : option error * World :=
  Part001.createPloop humanize.ParseBytes calm "/mnt/c1" options_abc fresh.

Definition created_10G : option error * World :=
  Part001.createPloop humanize.ParseBytes calm "/mnt/c1" options_10G fresh.

Definition created_tier : option error * World :=
  Part001.createPloop humanize.ParseBytes no_attrs "/mnt/c1" options_tier fresh.

(** The same call of the older provisioner (its key is [volumeId]). *)
Definition options_tier0 : gmap string string :=
  {[ "volumePath" := "pool"; "volumeId" := "v1"; "size" := "10G"; "vzsTier" := "0" ]}.

Definition created_tier0 : option error * World :=
  Part000.createPloop humanize.ParseBytes no_attrs "/mnt/c1" options_tier0 fresh.

(** A claim for many writers, put to the first provisioner. *)
Definition request_many : VolumeOptions :=
  mkVolumeOptions "Delete" "pv2" (mkPVC "uid-2" "default" [ReadWriteMany] None (2 ^ 30))
    {[ "volumePath" := "/mnt/vstorage/kube" ]}.

Definition provisioned_many : (option PersistentVolume * option error) * World :=
  VirtuozzoStorage.Provision humanize.ParseBytes "me" calm request_many fresh.

(** A claim with a selector that has match expressions. *)
Definition request_selecting : VolumeOptions :=
  mkVolumeOptions "Delete" "pv3"
    (mkPVC "uid-3" "default" [ReadWriteOnce]
       (Some (mkLabelSelector None (Some ["tier in (0)"]))) (2 ^ 30))
    {[ "volumePath" := "/mnt/vstorage/kube" ]}.

End Sample.

(** ** More of what the properties speak of *)


Definition is_patch_call (op : Op) : bool :=
  match op with OpSecretPatch _ _ _ => true | _ => false end.

Definition is_auth_call (op : Op) : bool :=
  match op with OpAuth _ _ | OpMount _ _ => true | _ => false end.

(** The world after the first log line of [Part000.Provision]. *)
Definition prov0_start (env : Env) (o : VolumeOptions) (w : World) : World :=
  (glog.Infof ("Add " +:+ ("kubernetes-dynamic-pvc-" +:+ NewUUID env) +:+ " "
               +:+ fmt.d (uint64 (storage (PVC o)))) w).2.

(** The options that [Part000.Provision] hands to [createPloop]. *)
Definition prov0_options (env : Env) (o : VolumeOptions) : gmap string string :=
  delete "secretName"
    (<["size" := fmt.d (storage (PVC o))]>
       (<["volumeId" := "kubernetes-dynamic-pvc-" +:+ NewUUID env]> (Parameters o))).

Module SampleX.

(** A world in which an agent has mounted the cluster at [/mnt/vstorage]. *)
Definition premounted : World :=
  mkWorld [("/mnt/vstorage", "c1")] ∅ ∅ {[ ("default", "vz") := Sample.vz ]} [] [].

(** An environment in which the cluster refuses the password. *)
Definition locked : Env :=
  mkEnv (λ op, match op with OpAuth _ _ => Some "authentication failed" | _ => None end)
        "6f1a".

(** A request whose storage class names the secret but no volume path,
    and the stages of its [Provision]. *)
Definition request_nopath : VolumeOptions :=
  mkVolumeOptions "Delete" "pv4" (mkPVC "uid-4" "default" [ReadWriteOnce] None (2 ^ 30))
    {[ "secretName" := "vz" ]}.

Definition nopath_read : World :=
  (client.Get Sample.calm "default" "vz" (prov_start request_nopath Sample.fresh)).2.

Definition nopath_prepared : World :=
  (Part001.prepareVstorage Sample.calm (prov_options request_nopath) "c1" "pw" nopath_read).2.

(** An environment in which the ploop library cannot open a volume. *)
Definition unopenable : Env :=
  mkEnv (λ op, match op with OpPloopVolumeOpen _ => Some "ploop: cannot open" | _ => None end)
        "6f1a".

(** An environment in which nothing can be removed. *)
Definition undeletable : Env :=
  mkEnv (λ op, match op with OpRemoveAll _ => Some "permission denied" | _ => None end)
        "6f1a".

(** The handle of the older provisioner for the sample request, bound. *)
Definition handle0 : PersistentVolume :=
  bound "default" (default Sample.bare Sample.provisioned0.1.1).

Definition handle0_read : World :=
  (client.Get undeletable "default" "vz" Sample.provisioned0.2).2.

Definition handle0_prepared : World :=
  (Part000.prepareVstorage undeletable (Options (FlexVolume handle0)) "c1" "pw"
     handle0_read).2.

End SampleX.

(** * Properties *)

Ltac st := unfold mbind, St_bind, mret, St_ret in *.

(** Membership in a list that is written out. *)
Ltac in_list := repeat first [apply list_elem_of_here | apply list_elem_of_further].

Ltac not_in_list :=
  let H := fresh in
  intros H; repeat (apply elem_of_cons in H as [H|H]; [discriminate H|]);
  by apply elem_of_nil in H.

(** A run is known by its result and the world it leaves. *)
Lemma run_eta {A} (r : A * World) (a : A) : r.1 = a → r = (a, r.2).
Proof. destruct r. simpl. by intros ->. Qed.

Lemma returned_volume_eta (r : (option PersistentVolume * option error) * World)
    (d : PersistentVolume) :
  returned_volume r.1 = true → r = ((Some (default d r.1.1), None), r.2).
Proof. destruct r as [[[pv|] [e|]] w]; simpl; by intros. Qed.

(** ** Ownership gating in [Delete] *)

Lemma Part001_Delete_foreign id env volume ann w :
  Annotations volume !! Part001.parentProvisionerAnn = Some ann →
  ann ≠ id →
  Part001.Delete id env volume w =
    (Returned (Some (IgnoredError
       "parent provisioner name annotation on PV does not match ours")), w).
Proof.
  intros Hann Hne. unfold Part001.Delete. rewrite Hann.
  destruct (decide (ann ≠ id)) as [_|Heq]; [reflexivity | contradiction].
Qed.

Lemma Part000_Delete_foreign id env volume ann w :
  Annotations volume !! Part000.parentProvisionerAnn = Some ann →
  ann ≠ id →
  Part000.Delete id env volume w =
    (Returned (Some (IgnoredError
       "parent provisioner name annotation on PV does not match ours")), w).
Proof.
  intros Hann Hne. unfold Part000.Delete. rewrite Hann.
  destruct (decide (ann ≠ id)) as [_|Heq]; [reflexivity | contradiction].
Qed.

Lemma VirtuozzoStorage_Delete_foreign id env volume ann w :
  Annotations volume !! VirtuozzoStorage.provisionerIDAnn = Some ann →
  ann ≠ id →
  VirtuozzoStorage.Delete id env volume w =
    (Some (IgnoredError "identity annotation on PV does not match ours"), w).
Proof.
  intros Hann Hne. unfold VirtuozzoStorage.Delete. rewrite Hann.
  destruct (decide (ann ≠ id)) as [_|Heq]; [reflexivity | contradiction].
Qed.

(** C4. A handle whose owner annotation is there and names another
    provisioner: [Delete] returns the [IgnoredError] and leaves the world as
    it found it, the record of external calls and the log included; so no
    file, mount or secret was touched or read.  This holds for the
    provisioner with finalizers and for the first provisioner (whose
    annotation is the identity annotation). *)
Theorem C4_ownership_gating (id : string) (env : Env) (volume : PersistentVolume)
    (ann : string) (w : World) :
  ann ≠ id →
  (Annotations volume !! Part001.parentProvisionerAnn = Some ann →
   ∃ msg, Part001.Delete id env volume w = (Returned (Some (IgnoredError msg)), w))
  ∧
  (Annotations volume !! VirtuozzoStorage.provisionerIDAnn = Some ann →
   ∃ msg, VirtuozzoStorage.Delete id env volume w = (Some (IgnoredError msg), w)).
Proof.
  intros Hne. split; intros Hann; eexists.
  - by apply Part001_Delete_foreign with (ann := ann).
  - by apply VirtuozzoStorage_Delete_foreign with (ann := ann).
Qed.

Lemma C4_ownership_gating_witness :
  (∃ msg, Part001.Delete "me" Sample.calm Sample.foreign Sample.fresh =
            (Returned (Some (IgnoredError msg)), Sample.fresh)) ∧
  (∃ msg, VirtuozzoStorage.Delete "me" Sample.calm Sample.foreign Sample.fresh =
            (Some (IgnoredError msg), Sample.fresh)).
Proof.
  assert (Hne : "other" ≠ "me") by discriminate.
  destruct (C4_ownership_gating "me" Sample.calm Sample.foreign "other" Sample.fresh Hne)
    as [H1 H2].
  split; [apply H1 | apply H2]; reflexivity.
Defined.

(** ** Handles that lack their annotations *)

Lemma Part001_Delete_no_owner id env volume w :
  Annotations volume !! Part001.parentProvisionerAnn = None →
  Part001.Delete id env volume w =
    (Returned (Some (Errorf "Parent provisioner name annotation not found on PV")), w).
Proof. intros Hann. unfold Part001.Delete. by rewrite Hann. Qed.

Lemma Part001_Delete_no_share id env volume w :
  Annotations volume !! Part001.parentProvisionerAnn = Some id →
  Annotations volume !! Part001.vzShareAnn = None →
  Part001.Delete id env volume w =
    (Returned (Some (Errorf "vz share annotation not found on PV")), w).
Proof.
  intros Hann Hshare. unfold Part001.Delete. rewrite Hann, Hshare.
  destruct (decide (id ≠ id)) as [Hne|_]; [contradiction | reflexivity].
Qed.

Lemma Part000_Delete_no_owner id env volume w :
  Annotations volume !! Part000.parentProvisionerAnn = None →
  Part000.Delete id env volume w =
    (Returned (Some (Errorf "Parent provisioner name annotation not found on PV")), w).
Proof. intros Hann. unfold Part000.Delete. by rewrite Hann. Qed.

Lemma Part000_Delete_no_share id env volume w :
  Annotations volume !! Part000.parentProvisionerAnn = Some id →
  Annotations volume !! Part000.vzShareAnn = None →
  Part000.Delete id env volume w =
    (Returned (Some (Errorf "vz share annotation not found on PV")), w).
Proof.
  intros Hann Hshare. unfold Part000.Delete. rewrite Hann, Hshare.
  destruct (decide (id ≠ id)) as [Hne|_]; [contradiction | reflexivity].
Qed.

(** C10, amended.  [Delete] looks at the owner annotation first.  A handle
    without it, and a handle that carries this provisioner's identity but
    no share annotation, get an ordinary error, and the world is left as it
    was.  (A handle of another provisioner is ignored whether it has a share
    annotation or not.)  Both provisioners that read a secret behave so. *)
Theorem C10_missing_annotations (id : string) (env : Env) (volume : PersistentVolume)
    (w : World) :
  Annotations volume !! "vzFSParentProvisioner" = None ∨
  (Annotations volume !! "vzFSParentProvisioner" = Some id ∧
   Annotations volume !! "vzShare" = None) →
  (∃ msg, Part001.Delete id env volume w = (Returned (Some (Errorf msg)), w)) ∧
  (∃ msg, Part000.Delete id env volume w = (Returned (Some (Errorf msg)), w)).
Proof.
  intros [Hnone | [Hown Hshare]]; split; eexists.
  - by apply Part001_Delete_no_owner.
  - by apply Part000_Delete_no_owner.
  - by apply Part001_Delete_no_share.
  - by apply Part000_Delete_no_share.
Qed.

Lemma C10_missing_annotations_witness :
  (∃ msg, Part001.Delete "me" Sample.calm Sample.bare Sample.fresh =
            (Returned (Some (Errorf msg)), Sample.fresh)) ∧
  (∃ msg, Part000.Delete "me" Sample.calm Sample.bare Sample.fresh =
            (Returned (Some (Errorf msg)), Sample.fresh)).
Proof.
  apply (C10_missing_annotations "me" Sample.calm Sample.bare Sample.fresh).
  left. reflexivity.
Defined.

(** C10 as the claim has it fails on a handle of another provisioner that
    lacks the share annotation: [Delete] ignores it. *)
Lemma C10_foreign_without_share_is_ignored :
  ¬ (Annotations Sample.foreign !! "vzShare" = None →
     returned_plain (Part001.Delete "me" Sample.calm Sample.foreign Sample.fresh).1 = true).
Proof. intros H. specialize (H eq_refl). vm_compute in H. discriminate. Qed.

(** ** Mounting *)

Lemma mount_calls_app t1 t2 : mount_calls (t1 ++ t2) = (mount_calls t1 + mount_calls t2)%nat.
Proof. unfold mount_calls. by rewrite filter_app, length_app. Qed.

Lemma unmount_calls_app t1 t2 :
  unmount_calls (t1 ++ t2) = (unmount_calls t1 + unmount_calls t2)%nat.
Proof. unfold unmount_calls. by rewrite filter_app, length_app. Qed.

Lemma mount_calls_snoc t op :
  mount_calls (t ++ [op]) = (mount_calls t + if is_mount_call op then 1 else 0)%nat.
Proof.
  rewrite mount_calls_app. f_equal. unfold mount_calls.
  destruct (is_mount_call op) eqn:Hop.
  - by rewrite filter_cons_True.
  - rewrite filter_cons_False; [done|]. rewrite Hop. discriminate.
Qed.

Lemma unmount_calls_snoc t op :
  is_unmount_call op = false → unmount_calls (t ++ [op]) = unmount_calls t.
Proof.
  intros Hop. rewrite unmount_calls_app. unfold unmount_calls at 2.
  rewrite filter_cons_False by (rewrite Hop; discriminate). simpl. lia.
Qed.

(** The mount point that [Mountpoint] reports is one the table knows. *)
Lemma cluster_at_found (tbl : list (string * string)) (c : string) :
  let p := default "" ((λ im : nat * (string * string), im.2.1) <$>
                         list_find (λ m, m.2 = c) tbl) in
  p ≠ "" → is_Some (syscall.cluster_at tbl p).
Proof.
  destruct (list_find _ tbl) as [[i m]|] eqn:Hfind; simpl; [|done].
  intros _. apply list_find_Some in Hfind as (Hi & _ & _).
  unfold syscall.cluster_at.
  destruct (list_find (λ m0, m0.1 = m.1) tbl) as [[j m']|] eqn:Hf2; [by eexists|].
  exfalso. eapply list_find_None in Hf2. rewrite Forall_forall in Hf2.
  apply (Hf2 m); [|done]. by eapply list_elem_of_lookup_2.
Qed.

(** A call of [prepareVstorage] that returns [nil] leaves the cluster
    mounted at its path, and mounts once unless the mount was there. *)
Lemma prepareVstorage_ok env options c pw w w1 :
  Part001.prepareVstorage env options c pw w = (None, w1) →
  is_mounted w1 (Part001.mountDir +:+ c) = true ∧
  mount_calls (trace w1) =
    (mount_calls (trace w) + if is_mounted w (Part001.mountDir +:+ c) then 0 else 1)%nat.
Proof.
  unfold Part001.prepareVstorage, vstorage.IsVstorage, os.MkdirAll, vstorage.Mountpoint,
    syscall.Mount, vstorage.Auth, vstorage.Mount, call, is_mounted. st. simpl.
  set (mount := Part001.mountDir +:+ c).
  destruct (bool_decide (Path.Clean mount ∈ (mounts w).*1)) eqn:Hm.
  - intros [= <-]. simpl. rewrite Hm, mount_calls_snoc.
    split; [done|]. simpl. lia.
  - destruct (fails env (OpMkdirAll mount)); [done|]. simpl.
    set (p := default "" _).
    destruct (decide (p ≠ "")) as [Hp|Hp].
    + destruct (fails env (OpBindMount p mount)); [done|].
      intros [= <-]. simpl. split.
      * pose proof (cluster_at_found (mounts w) c Hp) as [cl Hcl]. fold p in Hcl.
        unfold syscall.bind_mount. rewrite Hcl. apply bool_decide_eq_true. set_solver.
      * rewrite !mount_calls_snoc. simpl. lia.
    + destruct (fails env (OpAuth c pw)); [done|]. simpl.
      destruct (fails env (OpMount c mount)); [done|]. simpl.
      intros [= <-]. simpl. split.
      * apply bool_decide_eq_true. set_solver.
      * rewrite !mount_calls_snoc. simpl. lia.
Qed.

(** On a mounted cluster [prepareVstorage] only looks. *)
Lemma prepareVstorage_mounted env options c pw w :
  is_mounted w (Part001.mountDir +:+ c) = true →
  Part001.prepareVstorage env options c pw w =
    (None, record (OpIsVstorage (Part001.mountDir +:+ c)) w).
Proof.
  unfold is_mounted, Part001.prepareVstorage, vstorage.IsVstorage. st.
  intros Hm. by rewrite Hm.
Qed.

(** C7. After a call of [prepareVstorage] that returned [nil], a second
    call for the same cluster and password, whatever the environment would
    do, returns [nil] after its one look at the mount table: it makes no
    directory, does not authenticate, and does not mount or bind-mount.
    The cluster is mounted at [mountDir] plus its name after either call,
    and the two calls together mount once, or not at all when the mount
    was there before the first. *)
Theorem C7_idempotent_mount (env1 env2 : Env) (options options' : gmap string string)
    (clusterName clusterPassword : string) (w w1 : World) :
  Part001.prepareVstorage env1 options clusterName clusterPassword w = (None, w1) →
  let mount := Part001.mountDir +:+ clusterName in
  let second := Part001.prepareVstorage env2 options' clusterName clusterPassword w1 in
  second = (None, record (OpIsVstorage mount) w1) ∧
  is_mounted w1 mount = true ∧
  is_mounted second.2 mount = true ∧
  mount_calls (trace second.2) =
    (mount_calls (trace w) + if is_mounted w mount then 0 else 1)%nat.
Proof.
  intros Hfirst mount second.
  destruct (prepareVstorage_ok _ _ _ _ _ _ Hfirst) as [Hm Hcalls].
  assert (Hsecond : second = (None, record (OpIsVstorage mount) w1))
    by (by apply prepareVstorage_mounted).
  rewrite Hsecond. simpl. repeat split; try done.
  rewrite mount_calls_snoc, Hcalls. subst mount. simpl. lia.
Qed.

Lemma C7_idempotent_mount_witness :
  let first := Part001.prepareVstorage Sample.calm ∅ "c1" "pw" Sample.fresh in
  let second := Part001.prepareVstorage Sample.calm ∅ "c1" "pw" first.2 in
  second = (None, record (OpIsVstorage "/export/virtuozzo-provisioner/mnt/c1") first.2) ∧
  mount_calls (trace second.2) = 1%nat.
Proof.
  intros first second.
  destruct (C7_idempotent_mount Sample.calm Sample.calm ∅ ∅ "c1" "pw" Sample.fresh first.2
              eq_refl) as (H1 & _ & _ & H4).
  split; [exact H1 | exact H4].
Defined.

(** ** Frames: what the steps of the engine leave alone *)

Global Instance files_only_framed : Framed files_only.
Proof.
  split.
  - split.
    + by intros w.
    + intros w1 w2 w3 (?&?&?) (?&?&?). unfold files_only. split_and!; congruence.
  - by intros.
  - intros op w Hop. unfold files_only. simpl. by rewrite unmount_calls_snoc.
  - by intros.
  - by intros.
Qed.

Global Instance no_unmount_framed : Framed no_unmount.
Proof.
  split.
  - split; [by intros w | intros w1 w2 w3; unfold no_unmount; congruence].
  - by intros.
  - intros op w Hop. unfold no_unmount. simpl. by rewrite unmount_calls_snoc.
  - by intros.
  - by intros.
Qed.

Global Instance same_secrets_framed : Framed same_secrets.
Proof.
  split; try by intros.
  split; [by intros w | intros w1 w2 w3; unfold same_secrets; congruence].
Qed.

Global Instance same_mounts_framed : Framed same_mounts.
Proof.
  split; try by intros.
  split; [by intros w | intros w1 w2 w3; unfold same_mounts; congruence].
Qed.

Lemma along_run (R : relation World) {A} (m : St A) (w : World) (a : A) (w' : World) :
  along R m → m w = (a, w') → R w w'.
Proof. intros Hm Hrun. specialize (Hm w). by rewrite Hrun in Hm. Qed.

Section Along.

Context (R : relation World) `{!Framed R}.

Lemma along_ret {A} (a : A) : along R (mret a).
Proof. intros w. reflexivity. Qed.

Lemma along_bind {A B} (m : St A) (k : A → St B) :
  along R m → (∀ a, along R (k a)) → along R (m ≫= k).
Proof.
  intros Hm Hk w. unfold mbind, St_bind. specialize (Hm w).
  destruct (m w) as [a w'] eqn:Hmw. simpl in Hm.
  etransitivity; [exact Hm | apply Hk].
Qed.

Lemma along_logf lvl msg : along R (logf lvl msg).
Proof. intros w. apply framed_log. Qed.

Lemma along_call env op (effect : World → World) :
  is_unmount_call op = false → (∀ w, R w (effect w)) → along R (call env op effect).
Proof.
  intros Hop Heff w. unfold call. destruct (fails env op); simpl.
  - by apply framed_record.
  - etransitivity; [by apply framed_record | apply Heff].
Qed.

Lemma remove_tree_framed p w : R w (os.remove_tree p w).
Proof.
  unfold os.remove_tree. etransitivity; [apply framed_files | apply framed_volumes].
Qed.

Lemma along_MkdirAll env path : along R (os.MkdirAll env path).
Proof. apply along_call; [done | intros; apply framed_files]. Qed.

Lemma along_RemoveAll env path : along R (os.RemoveAll env path).
Proof. apply along_call; [done | intros; apply remove_tree_framed]. Qed.

Lemma along_set_attr env path attr value : along R (vstorage.set_attr env path attr value).
Proof. apply along_call; [done | by intros]. Qed.

Lemma along_PloopVolumeCreate env path size image :
  along R (ploop.PloopVolumeCreate env path size image).
Proof.
  apply along_call; [done|]. intros w.
  etransitivity; [apply framed_files | apply framed_volumes].
Qed.

Lemma along_ploop_Create env size file : along R (ploop.Create env size file).
Proof.
  apply along_call; [done|]. intros w.
  etransitivity; [apply framed_files | apply framed_volumes].
Qed.

Lemma along_PloopVolumeOpen env path : along R (ploop.PloopVolumeOpen env path).
Proof.
  intros w. unfold ploop.PloopVolumeOpen.
  destruct (fails env _); [by apply framed_record|].
  simpl. destruct (_ !! _); by apply framed_record.
Qed.

Lemma along_ploop_Delete env vol : along R (ploop.Delete env vol).
Proof.
  apply along_call; [done|]. intros w. unfold ploop.delete_volume.
  destruct (_ !! _).
  - etransitivity; apply remove_tree_framed.
  - apply remove_tree_framed.
Qed.

Lemma along_Get env namespace name : along R (client.Get env namespace name).
Proof.
  intros w. unfold client.Get.
  destruct (fails env _); [by apply framed_record|].
  simpl. destruct (_ !! _); by apply framed_record.
Qed.

Lemma along_IsVstorage path : along R (vstorage.IsVstorage path).
Proof. intros w. by apply framed_record. Qed.

Lemma along_Mountpoint c : along R (vstorage.Mountpoint c).
Proof. intros w. by apply framed_record. Qed.

Lemma along_Auth env c pw : along R (vstorage.Auth env c pw).
Proof. apply along_call; [done | by intros]. Qed.

Lemma along_set_attrs env ploopPath kvs : along R (Part001.set_attrs env ploopPath kvs).
Proof.
  induction kvs as [|[k v] kvs IH]; simpl; [apply along_ret|].
  apply along_bind.
  - destruct (decide _); [apply along_set_attr | apply along_ret].
  - intros [?|]; [|exact IH].
    apply along_bind; [apply along_RemoveAll | intros; apply along_ret].
Qed.

Lemma along_createPloop parse env mount options :
  along R (Part001.createPloop parse env mount options).
Proof.
  unfold Part001.createPloop. repeat (destruct (decide _); try apply along_ret).
  all: apply along_bind; [apply along_MkdirAll|]; intros [?|]; [apply along_ret|].
  all: apply along_bind; [apply along_PloopVolumeCreate|]; intros [?|]; [apply along_ret|].
  all: apply along_set_attrs.
Qed.

Lemma along_removePloop env mount options : along R (Part001.removePloop env mount options).
Proof.
  unfold Part001.removePloop.
  apply along_bind; [apply along_PloopVolumeOpen|]; intros [?|]; [apply along_ret|].
  apply along_bind; [apply along_logf | intros; apply along_ploop_Delete].
Qed.

Lemma along_prepareVstorage env options c pw :
  (∀ f w, R w (set_mounts f w)) →
  along R (Part001.prepareVstorage env options c pw).
Proof.
  intros Hmounts. unfold Part001.prepareVstorage.
  apply along_bind; [apply along_IsVstorage|]. intros [|]; [apply along_ret|].
  apply along_bind; [apply along_MkdirAll|]; intros [?|]; [apply along_ret|].
  apply along_bind; [apply along_Mountpoint|]. intros p.
  destruct (decide _).
  - apply along_call; [done | intros; apply Hmounts].
  - apply along_bind; [apply along_Auth|]; intros [?|]; [apply along_ret|].
    apply along_bind; [|intros [?|]; apply along_ret].
    apply along_call; [done | intros; apply Hmounts].
Qed.

Lemma along_patchSecret env old new :
  (∀ f w, R w (set_secrets f w)) →
  along R (Part001.patchSecret env old new).
Proof.
  intros Hsecrets. unfold Part001.patchSecret.
  apply along_bind; [apply along_logf|]. intros _ w. unfold client.Patch_.
  destruct (fails env _); [by apply framed_record|]. simpl.
  destruct (_ !! _); simpl; [|by apply framed_record].
  etransitivity; [|apply Hsecrets]. by apply framed_record.
Qed.

End Along.

(** ** The course of a [Provision] call that returns a volume *)

Lemma Provision_ok_inv parse id env o w pv w' :
  Part001.Provision parse id env o w = ((Some pv, None), w') →
  ∃ modes msg secret w1 w2 w3,
    Part001.allowed_modes (AccessModes (PVC o)) = Some modes ∧
    Selector (PVC o) = None ∧
    client.Get env (claim_Namespace (PVC o)) (prov_secretName o) (logf INFO msg w).2
      = (inl secret, w1) ∧
    Part001.prepareVstorage env (prov_options o) (get (Data secret) "clusterName")
      (get (Data secret) "clusterPassword") w1 = (None, w2) ∧
    Part001.createPloop parse env (Part001.mountDir +:+ get (Data secret) "clusterName")
      (prov_options o) w2 = (None, w3) ∧
    pv = prov_pv id env o modes (get (Data secret) "clusterName") ∧
    ∃ msg',
      if decide (index_of (prov_finalizer env) (Finalizers secret) = -1) then
        ∃ w4, Part001.patchSecret env secret (with_finalizer secret (prov_finalizer env)) w3
                = (None, w4) ∧ w' = (logf INFO msg' w4).2
      else w' = (logf INFO msg' w3).2.
Proof.
  unfold Part001.Provision.
  destruct (Part001.allowed_modes _) as [modes|] eqn:Hmodes; [|done].
  destruct (decide (Selector (PVC o) ≠ None)) as [|Hsel]; [done|].
  apply dec_stable in Hsel.
  st. simpl. fold (prov_share o). fold (prov_options0 o). fold (prov_secretName o).
  fold (prov_options o).
  match goal with |- context [client.Get _ _ _ ?w0] => set (w0' := w0) end.
  destruct (client.Get _ _ _ w0') as [[secret|err] w1] eqn:Hget; [|done].
  destruct (Part001.prepareVstorage _ _ _ _ w1) as [[err|] w2] eqn:Hprep; [done|].
  destruct (Part001.createPloop _ _ _ _ w2) as [[err|] w3] eqn:Hcreate; [done|].
  fold (prov_finalizer env). fold (with_finalizer secret (prov_finalizer env)).
  intros H. exists modes, ("Add " +:+ prov_share o +:+ " " +:+ fmt.d (uint64 (storage (PVC o)))),
    secret, w1, w2, w3.
  split_and!; try done.
  - destruct (decide _); [|by inversion H].
    destruct (Part001.patchSecret _ _ _ w3) as [[err|] w4] eqn:Hpatch.
    + destruct (Part001.removePloop _ _ _ _) as [[?|] ?]; done.
    + by inversion H.
  - eexists. destruct (decide _); [|by inversion H].
    destruct (Part001.patchSecret _ _ _ w3) as [[err|] w4] eqn:Hpatch.
    + destruct (Part001.removePloop _ _ _ _) as [[?|] ?]; done.
    + eexists. split; [done|]. by inversion H.
Qed.

(** ** The course of a [Delete] call that returns [nil] *)

Local Arguments append_cut : simpl never.

Lemma Delete_ok_inv id env volume w w' :
  Part001.Delete id env volume w = (Returned None, w') →
  let options := Options (FlexVolume volume) in
  ∃ share namespace secret w1 w2 w3,
    Annotations volume !! Part001.parentProvisionerAnn = Some id ∧
    Annotations volume !! Part001.vzShareAnn = Some share ∧
    ClaimRef volume = Some namespace ∧
    client.Get env namespace (SecretRef (FlexVolume volume)) w = (inl secret, w1) ∧
    Part001.prepareVstorage env options (get (Data secret) "clusterName")
      (get (Data secret) "clusterPassword") w1 = (None, w2) ∧
    Part001.removePloop env (Part001.mountDir +:+ get (Data secret) "clusterName")
      options w2 = (None, w3) ∧
    ∃ done_msg,
      match options !! "finalizer" with
      | None => ∃ warn, w' = (logf INFO done_msg (logf WARNING warn w3).2).2
      | Some finalizer =>
          let idx := index_of finalizer (Finalizers secret) in
          if decide (idx = -1)
          then ∃ warn, w' = (logf INFO done_msg (logf WARNING warn w3).2).2
          else
            let cut := append_cut (Finalizers secret) (Z.to_nat idx) in
            ∃ r w4,
              Part001.patchSecret env
                (mkSecret (Name secret) (Namespace secret) (Data secret) cut.1)
                (mkSecret (Name secret) (Namespace secret) (Data secret) cut.2) w3
                = (r, w4) ∧
              match r with
              | Some err => ∃ warn, w' = (logf INFO done_msg (logf WARNING warn w4).2).2
              | None => w' = (logf INFO done_msg w4).2
              end
      end.
Proof.
  unfold Part001.Delete.
  destruct (Annotations volume !! Part001.parentProvisionerAnn) as [ann|] eqn:Hann; [|done].
  destruct (decide (ann ≠ id)) as [|Heq]; [done|]. apply dec_stable in Heq. subst ann.
  destruct (Annotations volume !! Part001.vzShareAnn) as [share|] eqn:Hshare; [|done].
  destruct (ClaimRef volume) as [namespace|] eqn:Hclaim; [|done].
  st. cbv beta iota zeta.
  destruct (client.Get _ _ _ w) as [[secret|err] w1] eqn:Hget; [|done].
  cbv beta iota zeta.
  destruct (Part001.prepareVstorage _ _ _ _ w1) as [[err|] w2] eqn:Hprep; [done|].
  cbv beta iota zeta.
  destruct (Part001.removePloop _ _ _ w2) as [[err|] w3] eqn:Hrm; [done|].
  cbv beta iota zeta.
  intros H. exists share, namespace, secret, w1, w2, w3. split_and!; try done.
  eexists.
  destruct (Options (FlexVolume volume) !! "finalizer") as [finalizer|]; cbv beta iota zeta.
  - destruct (decide _).
    + eexists. by inversion H.
    + destruct (append_cut _ _) as [shared cut] eqn:Hcut. cbn [fst snd].
      destruct (Part001.patchSecret _ _ _ w3) as [[err|] w4] eqn:Hpatch;
        do 2 eexists; (split; [done|]); cbv beta iota.
      * eexists. by inversion H.
      * by inversion H.
  - eexists. by inversion H.
Qed.

(** ** The mount outlives the call *)

Lemma no_unmount_set_mounts f w : no_unmount w (set_mounts f w).
Proof. done. Qed.

Lemma no_unmount_set_secrets f w : no_unmount w (set_secrets f w).
Proof. done. Qed.

Lemma same_mounts_set_secrets f w : same_mounts w (set_secrets f w).
Proof. done. Qed.

Lemma same_secrets_set_mounts f w : same_secrets w (set_secrets id (set_mounts f w)).
Proof. done. Qed.

Lemma Part001_Provision_no_unmount parse id env o :
  along no_unmount (Part001.Provision parse id env o).
Proof.
  unfold Part001.Provision.
  destruct (Part001.allowed_modes _); [|apply along_ret; apply _].
  destruct (decide _); [apply along_ret; apply _|].
  apply along_bind; [apply _ | apply along_logf; apply _ | intros _].
  apply along_bind; [apply _ | apply along_Get; apply _ | intros [secret|err]];
    [|apply along_ret; apply _].
  apply along_bind; [apply _ | | intros [err|]]; [|apply along_ret; apply _|].
  { apply along_prepareVstorage; [apply _ | apply no_unmount_set_mounts]. }
  apply along_bind; [apply _ | apply along_createPloop; apply _ | intros [err|]];
    [apply along_ret; apply _|].
  destruct (decide _).
  - apply along_bind; [apply _ | | intros [err|]].
    + apply along_patchSecret; [apply _ | apply no_unmount_set_secrets].
    + apply along_bind; [apply _ | apply along_logf; apply _ | intros _].
      apply along_bind; [apply _ | apply along_removePloop; apply _ | intros [?|]];
        apply along_ret; apply _.
    + apply along_bind; [apply _ | apply along_logf; apply _ | intros _].
      apply along_ret; apply _.
  - apply along_bind; [apply _ | apply along_logf; apply _ | intros _].
    apply along_ret; apply _.
Qed.

Lemma Part001_Delete_no_unmount id env volume :
  along no_unmount (Part001.Delete id env volume).
Proof.
  unfold Part001.Delete.
  destruct (_ !! _); [|apply along_ret; apply _].
  destruct (decide _); [apply along_ret; apply _|].
  destruct (_ !! _); [|apply along_ret; apply _].
  destruct (ClaimRef volume); [|apply along_ret; apply _].
  apply along_bind; [apply _ | apply along_Get; apply _ | intros [secret|err]];
    [|apply along_ret; apply _].
  apply along_bind; [apply _ | | intros [err|]]; [|apply along_ret; apply _|].
  { apply along_prepareVstorage; [apply _ | apply no_unmount_set_mounts]. }
  apply along_bind; [apply _ | apply along_removePloop; apply _ | intros [err|]];
    [apply along_ret; apply _|].
  destruct (_ !! _).
  - destruct (decide _).
    + repeat (apply along_bind; [apply _ | apply along_logf; apply _ | intros _]).
      apply along_ret; apply _.
    + destruct (append_cut _ _).
      apply along_bind; [apply _ | | intros r].
      * apply along_patchSecret; [apply _ | apply no_unmount_set_secrets].
      * apply along_bind; [apply _ | | intros _].
        { destruct r; [apply along_logf | apply along_ret]; apply _. }
        apply along_bind; [apply _ | apply along_logf; apply _ | intros _].
        apply along_ret; apply _.
  - repeat (apply along_bind; [apply _ | apply along_logf; apply _ | intros _]).
    apply along_ret; apply _.
Qed.

Lemma Get_inl env namespace name w secret w1 :
  client.Get env namespace name w = (inl secret, w1) →
  ∃ s, secrets w !! (namespace, name) = Some s ∧
       secret = mkSecret name namespace (Data s) (Finalizers s) ∧
       w1 = record (OpSecretGet namespace name) w.
Proof.
  unfold client.Get. destruct (fails env _); [done|]. simpl.
  destruct (secrets w !! (namespace, name)) as [s|]; [|done].
  intros [= <- <-]. by exists s.
Qed.

Lemma is_mounted_same w w' point :
  same_mounts w w' → is_mounted w point = true → is_mounted w' point = true.
Proof. unfold same_mounts, is_mounted. by intros ->. Qed.

Lemma Part001_Provision_mounted parse id env o w pv w' :
  Part001.Provision parse id env o w = ((Some pv, None), w') →
  is_mounted w' (Part001.mountDir +:+ get (Options (FlexVolume pv)) "clusterName") = true.
Proof.
  intros H.
  apply Provision_ok_inv in H
    as (modes & msg & secret & w1 & w2 & w3 & _ & _ & _ & Hprep & Hcreate & -> & msg' & Htail).
  set (name := get (Data secret) "clusterName") in *.
  assert (Hname : get (Options (FlexVolume (prov_pv id env o modes name))) "clusterName" = name).
  { unfold get. simpl. rewrite lookup_insert_ne by done. by rewrite lookup_insert_eq. }
  rewrite Hname.
  apply prepareVstorage_ok in Hprep as [Hm _].
  pose proof (along_createPloop same_mounts parse env (Part001.mountDir +:+ name)
                (prov_options o) w2) as H23.
  rewrite Hcreate in H23. simpl in H23.
  apply (is_mounted_same _ _ _ H23) in Hm.
  destruct (decide _).
  - destruct Htail as (w4 & Hpatch & ->).
    pose proof (along_patchSecret same_mounts env secret
                  (with_finalizer secret (prov_finalizer env))
                  same_mounts_set_secrets w3) as H34.
    rewrite Hpatch in H34. simpl in H34.
    by apply (is_mounted_same _ _ _ H34) in Hm.
  - by subst w'.
Qed.

Lemma Part001_Delete_mounted id env volume w w' namespace s :
  Part001.Delete id env volume w = (Returned None, w') →
  ClaimRef volume = Some namespace →
  secrets w !! (namespace, SecretRef (FlexVolume volume)) = Some s →
  is_mounted w' (Part001.mountDir +:+ get (Data s) "clusterName") = true.
Proof.
  intros H Hclaim Hs.
  apply Delete_ok_inv in H
    as (share & ns & secret & w1 & w2 & w3 & _ & _ & Hns & Hget & Hprep & Hrm & m & Htail).
  rewrite Hclaim in Hns. injection Hns as <-.
  apply Get_inl in Hget as (s' & Hs' & -> & ->). rewrite Hs in Hs'. injection Hs' as <-.
  simpl in *.
  apply prepareVstorage_ok in Hprep as [Hm _].
  pose proof (along_removePloop same_mounts env
                (Part001.mountDir +:+ get (Data s) "clusterName")
                (Options (FlexVolume volume)) w2) as H23.
  rewrite Hrm in H23. simpl in H23.
  apply (is_mounted_same _ _ _ H23) in Hm.
  destruct (Options (FlexVolume volume) !! "finalizer") as [finalizer|].
  - destruct (decide _).
    + destruct Htail as [warn ->]. done.
    + destruct Htail as (r & w4 & Hpatch & Hw').
      match type of Hpatch with Part001.patchSecret _ ?old ?new _ = _ =>
        pose proof (along_patchSecret same_mounts env old new same_mounts_set_secrets w3)
          as H34 end.
      rewrite Hpatch in H34. simpl in H34.
      apply (is_mounted_same _ _ _ H34) in Hm.
      destruct r; [destruct Hw' as [warn ->] | subst w']; done.
  - destruct Htail as [warn ->]. done.
Qed.

(** The older provisioner ends every call that got past [prepareVstorage]
    with the deferred unmount. *)
Lemma Part000_Provision_unmounts parse id env o w pv w' :
  Part000.Provision parse id env o w = ((Some pv, None), w') →
  ∃ name, last (trace w') = Some (OpUnmount (Part000.MountDir +:+ name)).
Proof.
  unfold Part000.Provision.
  destruct (decide _); [done|]. st. cbv beta iota zeta.
  destruct (glog.Infof _ w) as [[] w0].
  destruct (client.Get _ _ _ w0) as [[secret|err] w1]; [|done]. cbv beta iota zeta.
  destruct (Part000.prepareVstorage _ _ _ _ w1) as [[err|] w2]; [done|].
  cbv beta iota zeta.
  destruct (Part000.createPloop _ _ _ _ w2) as [[err|] w3]; cbv beta iota zeta.
  - by destruct (syscall.Unmount _ _ w3).
  - destruct (glog.Infof _ w3) as [[] w4].
    unfold syscall.Unmount, call.
    destruct (fails env _); simpl; intros [= _ <-];
      exists (get (Data secret) "clusterName"); simpl; by rewrite last_snoc.
Qed.

Lemma Part000_Delete_unmounts id env volume w w' :
  Part000.Delete id env volume w = (Returned None, w') →
  ∃ name, last (trace w') = Some (OpUnmount (Part000.MountDir +:+ name)).
Proof.
  unfold Part000.Delete.
  destruct (_ !! _); [|done]. destruct (decide _); [done|].
  destruct (_ !! _); [|done]. destruct (ClaimRef volume); [|done].
  st. cbv beta iota zeta.
  destruct (client.Get _ _ _ w) as [[secret|err] w1]; [|done]. cbv beta iota zeta.
  destruct (Part000.prepareVstorage _ _ _ _ w1) as [[err|] w2]; [done|].
  cbv beta iota zeta.
  destruct (glog.Infof _ w2) as [[] w3].
  destruct (os.RemoveAll _ _ w3) as [[err|] w4]; cbv beta iota zeta.
  - by destruct (syscall.Unmount _ _ w4).
  - destruct (glog.Infof _ w4) as [[] w5].
    unfold syscall.Unmount, call.
    destruct (fails env _); simpl; intros [= <-];
      exists (get (Data secret) "clusterName"); simpl; by rewrite last_snoc.
Qed.

(** C6, amended.  The provisioner with finalizers never calls
    [syscall.Unmount], however a call of [Provision] or [Delete] ends; when
    [Provision] returns a volume the cluster is mounted at [mountDir] plus
    the cluster name, and so it is when [Delete] returns [nil].  The older
    provisioner differs: each of its [Provision] and [Delete] calls that
    runs to the end has the deferred [syscall.Unmount] of the mount path as
    its last external call. *)
Theorem C6_mount_persistence (parse : string → Z * option error) (id : string)
    (env : Env) (o : VolumeOptions) (volume : PersistentVolume) (w : World) :
  unmount_calls (trace (Part001.Provision parse id env o w).2) = unmount_calls (trace w) ∧
  unmount_calls (trace (Part001.Delete id env volume w).2) = unmount_calls (trace w) ∧
  (∀ pv w', Part001.Provision parse id env o w = ((Some pv, None), w') →
     is_mounted w' (Part001.mountDir +:+ get (Options (FlexVolume pv)) "clusterName")
       = true) ∧
  (∀ w' namespace s,
     Part001.Delete id env volume w = (Returned None, w') →
     ClaimRef volume = Some namespace →
     secrets w !! (namespace, SecretRef (FlexVolume volume)) = Some s →
     is_mounted w' (Part001.mountDir +:+ get (Data s) "clusterName") = true) ∧
  (∀ pv w', Part000.Provision parse id env o w = ((Some pv, None), w') →
     ∃ name, last (trace w') = Some (OpUnmount (Part000.MountDir +:+ name))) ∧
  (∀ w', Part000.Delete id env volume w = (Returned None, w') →
     ∃ name, last (trace w') = Some (OpUnmount (Part000.MountDir +:+ name))).
Proof.
  split_and!.
  - apply (Part001_Provision_no_unmount parse id env o w).
  - apply (Part001_Delete_no_unmount id env volume w).
  - intros pv w'. apply Part001_Provision_mounted.
  - intros w' namespace s. apply Part001_Delete_mounted.
  - intros pv w'. apply Part000_Provision_unmounts.
  - intros w'. apply Part000_Delete_unmounts.
Qed.

Lemma C6_mount_persistence_witness :
  is_mounted Sample.provisioned.2
    (Part001.mountDir +:+
       get (Options (FlexVolume (default Sample.bare Sample.provisioned.1.1))) "clusterName")
    = true ∧
  is_mounted Sample.deleted.2
    (Part001.mountDir +:+
       get (Data (default Sample.vz (secrets Sample.provisioned.2 !! ("default", "vz"))))
         "clusterName")
    = true.
Proof.
  split.
  - destruct (C6_mount_persistence humanize.ParseBytes "me" Sample.calm Sample.request
                Sample.bare Sample.fresh) as (_ & _ & Hp & _).
    apply Hp. apply (returned_volume_eta Sample.provisioned). vm_compute. reflexivity.
  - destruct (C6_mount_persistence humanize.ParseBytes "me" Sample.calm Sample.request
                Sample.handle Sample.provisioned.2) as (_ & _ & _ & Hd & _).
    apply (Hd Sample.deleted.2 "default"
             (default Sample.vz (secrets Sample.provisioned.2 !! ("default", "vz")))).
    + apply (run_eta Sample.deleted). vm_compute. reflexivity.
    + reflexivity.
    + destruct (secrets Sample.provisioned.2 !! ("default", "vz")) eqn:Hs; [done|].
      exfalso. vm_compute in Hs. discriminate.
Defined.

(** C6 as the claim has it fails on the older provisioner: its [Provision]
    returns the volume and leaves the cluster unmounted. *)
Lemma C6_older_provisioner_detaches :
  ¬ (∀ pv, Sample.provisioned0.1 = (Some pv, None) →
       is_mounted Sample.provisioned0.2 "/export/virtuozzo-provisioner/mnt/c1" = true
       ∧ unmount_calls (trace Sample.provisioned0.2) = 0%nat).
Proof.
  intros H.
  destruct (H (default Sample.bare Sample.provisioned0.1.1)) as [Hm _].
  - vm_compute. reflexivity.
  - vm_compute in Hm. discriminate.
Qed.

(** ** Admission of requests *)

Lemma allowed_modes_None modes :
  modes ≠ [] → modes ≠ [ReadWriteOnce] → Part001.allowed_modes modes = None.
Proof.
  intros Hne Hrwo. unfold Part001.allowed_modes.
  destruct (decide (length modes = 0%nat)) as [Hlen|Hlen].
  { by destruct modes. }
  destruct (decide _) as [|Hok]; [done|]. exfalso. apply Hrwo.
  destruct modes as [|m [|m' modes]]; [done| |].
  - destruct (decide (m = ReadWriteOnce)) as [->|Hm]; [done|].
    exfalso. apply Hok. right. simpl. congruence.
  - exfalso. apply Hok. left. simpl. lia.
Qed.

Lemma Part001_Provision_modes parse id env o w :
  AccessModes (PVC o) ≠ [] → AccessModes (PVC o) ≠ [ReadWriteOnce] →
  Part001.Provision parse id env o w =
    ((None, Some (Errorf
        "Virtuozzo flexvolume provisioner supports only ReadWriteOnce access mode")), w).
Proof.
  intros Hne Hrwo. unfold Part001.Provision.
  by rewrite allowed_modes_None.
Qed.

Lemma Part001_Provision_selector parse id env o w :
  Selector (PVC o) ≠ None →
  ∃ msg, Part001.Provision parse id env o w = ((None, Some (Errorf msg)), w).
Proof.
  intros Hsel. unfold Part001.Provision.
  destruct (Part001.allowed_modes _); [|by eexists].
  destruct (decide _); [by eexists | done].
Qed.

Lemma VirtuozzoStorage_Provision_expressions parse id env o w sel :
  Selector (PVC o) = Some sel → MatchExpressions sel ≠ None →
  ∃ msg, VirtuozzoStorage.Provision parse id env o w = ((None, Some (Errorf msg)), w).
Proof.
  intros Hsel Hexpr. unfold VirtuozzoStorage.Provision, VirtuozzoStorage.parseParameters.
  destruct (VirtuozzoStorage.parse_loop _ _) as [volumePath|err] eqn:Hloop.
  - destruct (decide (volumePath = "")); [by eexists|].
    rewrite Hsel. rewrite bool_decide_eq_true_2 by done. by eexists.
  - assert (∃ msg, err = Errorf msg) as [msg ->]; [|by eexists].
    clear -Hloop. revert Hloop. generalize "". 
    induction (map_to_list (Parameters o)) as [|[k v] kvs IH]; intros vp; simpl; [done|].
    destruct (decide _); [apply IH|]. intros [= <-]. by eexists.
Qed.

(** C9, amended.  The provisioner with finalizers refuses, before it
    touches anything, every request whose access modes are neither empty
    nor [ReadWriteOnce] alone, and every request whose claim has a selector
    at all; no access mode stands for [ReadWriteOnce].  The first
    provisioner refuses, before it touches anything, the requests whose
    selector has match expressions.  (It does not look at the access modes,
    and it takes a selector that has only labels.) *)
Theorem C9_request_admission (parse : string → Z * option error) (id : string)
    (env : Env) (o : VolumeOptions) (w : World) :
  Part001.allowed_modes [] = Some [ReadWriteOnce] ∧
  (AccessModes (PVC o) ≠ [] → AccessModes (PVC o) ≠ [ReadWriteOnce] →
   ∃ msg, Part001.Provision parse id env o w = ((None, Some (Errorf msg)), w)) ∧
  (Selector (PVC o) ≠ None →
   ∃ msg, Part001.Provision parse id env o w = ((None, Some (Errorf msg)), w)) ∧
  (∀ sel, Selector (PVC o) = Some sel → MatchExpressions sel ≠ None →
   ∃ msg, VirtuozzoStorage.Provision parse id env o w = ((None, Some (Errorf msg)), w)).
Proof.
  split_and!.
  - reflexivity.
  - intros Hne Hrwo. eexists. by apply Part001_Provision_modes.
  - apply Part001_Provision_selector.
  - intros sel. apply VirtuozzoStorage_Provision_expressions.
Qed.

Lemma C9_request_admission_witness :
  (∃ msg, Part001.Provision humanize.ParseBytes "me" Sample.calm Sample.request_many
            Sample.fresh = ((None, Some (Errorf msg)), Sample.fresh)) ∧
  (∃ msg, Part001.Provision humanize.ParseBytes "me" Sample.calm Sample.request_selecting
            Sample.fresh = ((None, Some (Errorf msg)), Sample.fresh)) ∧
  (∃ msg, VirtuozzoStorage.Provision humanize.ParseBytes "me" Sample.calm
            Sample.request_selecting Sample.fresh = ((None, Some (Errorf msg)), Sample.fresh)).
Proof.
  split_and!.
  - destruct (C9_request_admission humanize.ParseBytes "me" Sample.calm Sample.request_many
                Sample.fresh) as (_ & H & _).
    apply H; discriminate.
  - destruct (C9_request_admission humanize.ParseBytes "me" Sample.calm
                Sample.request_selecting Sample.fresh) as (_ & _ & H & _).
    apply H; discriminate.
  - destruct (C9_request_admission humanize.ParseBytes "me" Sample.calm
                Sample.request_selecting Sample.fresh) as (_ & _ & _ & H).
    apply (H (mkLabelSelector None (Some ["tier in (0)"]))); [reflexivity | discriminate].
Defined.

(** C9 as the claim has it fails on the first provisioner: a claim for
    many writers gets its volume. *)
Lemma C9_first_provisioner_accepts_many_writers :
  ¬ (AccessModes (PVC Sample.request_many) ≠ [] →
     AccessModes (PVC Sample.request_many) ≠ [ReadWriteOnce] →
     is_plain Sample.provisioned_many.1.2 = true ∧ Sample.provisioned_many.2 = Sample.fresh).
Proof.
  intros H. destruct H as [H _]; [discriminate | discriminate |].
  vm_compute in H. discriminate.
Qed.

Example first_provisioner_creates_for_many_writers :
  is_Some Sample.provisioned_many.1.1 ∧
  size (volumes Sample.provisioned_many.2) = 1%nat.
Proof. split; [vm_compute; by eexists | vm_compute; reflexivity]. Qed.

(** ** Looking up the finalizer *)

Lemma index_from_absent i x l : 0 ≤ i → x ∉ l → index_from i x l = -1.
Proof.
  revert i. induction l as [|f l IH]; intros i Hi Hx; simpl; [done|].
  destruct (decide (f = x)) as [->|Hne]; [set_solver|].
  apply IH; [lia | set_solver].
Qed.

Lemma index_from_present i x l : 0 ≤ i → x ∈ l → i ≤ index_from i x l.
Proof.
  revert i. induction l as [|f l IH]; intros i Hi Hx; simpl; [set_solver|].
  destruct (decide (f = x)) as [->|Hne]; [lia|].
  apply elem_of_cons in Hx as [->|Hl]; [done|].
  specialize (IH (i + 1) ltac:(lia) Hl). lia.
Qed.

Lemma index_of_absent x l : index_of x l = -1 ↔ x ∉ l.
Proof.
  split.
  - intros Hidx Hx. pose proof (index_from_present 0 x l). unfold index_of in Hidx.
    specialize (H ltac:(lia) Hx). lia.
  - by apply index_from_absent.
Qed.


(** ** Clearing an obligation that is not there *)

(** C8. [Delete] on a handle of this provisioner, once the volume is
    removed: when the options of the handle hold no finalizer, or hold one
    that the secret's list lacks, the call logs a warning and returns
    [nil].  Nothing else happens after the removal: no patch is sent and
    the secret stays as it is. *)
Theorem C8_benign_clearing (id : string) (env : Env) (volume : PersistentVolume)
    (share namespace : string) (secret : Secret) (w w1 w2 w3 : World) :
  let options := Options (FlexVolume volume) in
  Annotations volume !! Part001.parentProvisionerAnn = Some id →
  Annotations volume !! Part001.vzShareAnn = Some share →
  ClaimRef volume = Some namespace →
  client.Get env namespace (SecretRef (FlexVolume volume)) w = (inl secret, w1) →
  Part001.prepareVstorage env options (get (Data secret) "clusterName")
    (get (Data secret) "clusterPassword") w1 = (None, w2) →
  Part001.removePloop env (Part001.mountDir +:+ get (Data secret) "clusterName")
    options w2 = (None, w3) →
  (options !! "finalizer" = None ∨
   ∃ finalizer, options !! "finalizer" = Some finalizer ∧ finalizer ∉ Finalizers secret) →
  ∃ warn msg,
    Part001.Delete id env volume w =
      (Returned None, (logf INFO msg (logf WARNING warn w3).2).2) ∧
    trace (logf INFO msg (logf WARNING warn w3).2).2 = trace w3 ∧
    secrets (logf INFO msg (logf WARNING warn w3).2).2 = secrets w3.
Proof.
  intros options Hann Hshare Hclaim Hget Hprep Hrm Habsent. subst options.
  unfold Part001.Delete. rewrite Hann, Hshare, Hclaim.
  destruct (decide (id ≠ id)) as [|_]; [done|].
  st. cbv beta iota zeta. rewrite Hget. cbv beta iota zeta.
  rewrite Hprep. cbv beta iota zeta. rewrite Hrm. cbv beta iota zeta.
  destruct Habsent as [Hnone | (finalizer & Hsome & Hnotin)].
  - rewrite Hnone. by do 2 eexists.
  - rewrite Hsome. apply index_of_absent in Hnotin.
    destruct (decide _); [|done]. by do 2 eexists.
Qed.

Lemma C8_benign_clearing_witness :
  ∃ warn msg,
    Part001.Delete "me" Sample.calm Sample.handle Sample.cleared =
      (Returned None, (logf INFO msg (logf WARNING warn Sample.cleared_removed).2).2) ∧
    trace (logf INFO msg (logf WARNING warn Sample.cleared_removed).2).2 =
      trace Sample.cleared_removed ∧
    secrets (logf INFO msg (logf WARNING warn Sample.cleared_removed).2).2 =
      secrets Sample.cleared_removed.
Proof.
  apply (C8_benign_clearing "me" Sample.calm Sample.handle
           "kubernetes-dynamic-pvc-uid-1" "default" Sample.vz
           Sample.cleared Sample.cleared_read Sample.cleared_prepared).
  - vm_compute. reflexivity.
  - vm_compute. reflexivity.
  - reflexivity.
  - apply (run_eta (client.Get Sample.calm "default" "vz" Sample.cleared)).
    vm_compute. reflexivity.
  - apply (run_eta (Part001.prepareVstorage Sample.calm (Options (FlexVolume Sample.handle))
                      "c1" "pw" Sample.cleared_read)).
    vm_compute. reflexivity.
  - apply (run_eta (Part001.removePloop Sample.calm (Part001.mountDir +:+ "c1")
                      (Options (FlexVolume Sample.handle)) Sample.cleared_prepared)).
    vm_compute. reflexivity.
  - right. exists "virtuozzo.com/6f1a-pv". split; [vm_compute; reflexivity|].
    simpl. apply not_elem_of_nil.
Defined.

(** ** Recording and clearing the obligation *)

Lemma list_difference_filter (a k : list string) :
  list_difference a k = filter (λ z, z ∉ k) a.
Proof.
  induction a as [|z a IH]; simpl; [done|].
  destruct (decide_rel _ _ _) as [Hz|Hz].
  - rewrite filter_cons_False by (by intros ?). done.
  - rewrite filter_cons_True by done. by rewrite IH.
Qed.

Lemma filter_none (P : string → Prop) `{!∀ x, Decision (P x)} (l : list string) :
  (∀ x, x ∈ l → ¬ P x) → filter P l = [].
Proof.
  induction l as [|y l IH]; intros Hall; [done|].
  rewrite filter_cons_False by (apply Hall; by left).
  apply IH. intros x Hx. apply Hall. by right.
Qed.

Lemma filter_all (P : string → Prop) `{!∀ x, Decision (P x)} (l : list string) :
  (∀ x, x ∈ l → P x) → filter P l = l.
Proof.
  induction l as [|y l IH]; intros Hall; [done|].
  rewrite filter_cons_True by (apply Hall; by left).
  f_equal. apply IH. intros x Hx. apply Hall. by right.
Qed.

Lemma list_difference_self (l k : list string) : list_difference l (l ++ k) = [].
Proof.
  rewrite list_difference_filter. apply filter_none.
  intros x Hx Hn. apply Hn, elem_of_app. by left.
Qed.


Lemma list_difference_disjoint (l : list string) (x : string) :
  x ∉ l → list_difference l [x] = l.
Proof.
  intros Hx. rewrite list_difference_filter. apply filter_all.
  intros y Hy Hyx. apply list_elem_of_singleton in Hyx as ->. done.
Qed.

Lemma list_difference_snoc (l : list string) (x : string) :
  x ∉ l → list_difference (l ++ [x]) l = [x].
Proof.
  intros Hx. rewrite list_difference_filter, filter_app.
  rewrite (filter_none _ l) by (by intros y Hy Hn).
  simpl. by rewrite filter_cons_True, filter_nil.
Qed.

(** The diff of two lists of which one has one entry more. *)
Lemma string_compare_refl (x : string) : String.compare x x = Eq.
Proof.
  pose proof (String.compare_antisym x x) as H.
  by destruct (String.compare x x).
Qed.

Lemma diff_same (s : list string) : strategicpatch.diffListsOfScalars s s = ([], []).
Proof. induction s as [|o s IH]; simpl; [done|]. by rewrite string_compare_refl. Qed.


Lemma diff_inserted_l (x : string) (s : list string) :
  strategicpatch.diffListsOfScalars (strategicpatch.insert_scalar x s) s = ([], [x]).
Proof.
  induction s as [|o s IH]; simpl; [done|].
  unfold String.ltb. destruct (String.compare x o) eqn:Hc.
  - simpl. by rewrite string_compare_refl.
  - simpl. rewrite Hc. by rewrite string_compare_refl, diff_same.
  - simpl. by rewrite string_compare_refl.
Qed.

Lemma sortScalars_snoc (l : list string) (x : string) :
  strategicpatch.sortScalars (l ++ [x])
    = strategicpatch.insert_scalar x (strategicpatch.sortScalars l).
Proof. unfold strategicpatch.sortScalars. by rewrite foldl_app. Qed.


Lemma patch_of_removed (old new : Secret) (x : string) :
  Finalizers old = Finalizers new ++ [x] →
  strategicpatch.CreateTwoWayMergePatch old new = mkPatch [] [x].
Proof.
  intros Hold. unfold strategicpatch.CreateTwoWayMergePatch.
  by rewrite Hold, sortScalars_snoc, diff_inserted_l.
Qed.









Lemma same_secrets_finalizers w w' namespace name :
  same_secrets w w' → finalizers_of w' namespace name = finalizers_of w namespace name.
Proof. unfold same_secrets, finalizers_of. by intros ->. Qed.

Lemma same_secrets_of_set_mounts f w : same_secrets w (set_mounts f w).
Proof. done. Qed.






(** The slices of [Delete] share their array.  With a second token behind
    the first one in the secret, the cut writes into the list that the
    patch is computed from: that list then ends in the second token twice,
    the patch deletes the second token, and the token of the deleted volume
    stays, although every call succeeded. *)
Example Delete_removes_the_token_behind :
  finalizers_of Sample.provisioned2.2 "default" "vz"
    = ["virtuozzo.com/6f1a-pv"; "virtuozzo.com/9c2e-pv"] ∧
  Sample.deleted_first.1 = Returned None ∧
  last (trace Sample.deleted_first.2)
    = Some (OpSecretPatch "default" "vz" (mkPatch [] ["virtuozzo.com/9c2e-pv"])) ∧
  finalizers_of Sample.deleted_first.2 "default" "vz" = ["virtuozzo.com/6f1a-pv"].
Proof. split_and!; vm_compute; reflexivity. Qed.

Example append_cut_first :
  append_cut ["a"; "b"] 0 = (["b"; "b"], ["b"]).
Proof. reflexivity. Qed.

(** ** Rolling the volume back when the obligation cannot be recorded *)

Lemma under_refl p : Path.under p p = true.
Proof. apply bool_decide_eq_true. split; [done | reflexivity]. Qed.

Lemma remove_tree_gone p w :
  volumes (os.remove_tree p w) !! p = None ∧ p ∉ files (os.remove_tree p w).
Proof.
  unfold os.remove_tree. simpl. split.
  - apply map_lookup_filter_None. right. intros v _. simpl. by rewrite under_refl.
  - intros Hp. apply elem_of_filter in Hp as [Hp _]. by rewrite under_refl in Hp.
Qed.

Lemma remove_tree_shrinks p w :
  (∀ q, volumes w !! q = None → volumes (os.remove_tree p w) !! q = None) ∧
  (∀ q, q ∉ files w → q ∉ files (os.remove_tree p w)).
Proof.
  unfold os.remove_tree. simpl. split.
  - intros q Hq. apply map_lookup_filter_None. by left.
  - intros q Hq Hin. apply elem_of_filter in Hin as [_ Hin]. done.
Qed.

(** A [removePloop] that returns [nil] leaves neither the descriptor
    directory nor the volume nor its image. *)
Lemma removePloop_ok env mount options w w' :
  Part001.removePloop env mount options w = (None, w') →
  let p := Path.parse (Path.Join [mount; get options "volumePath"; get options "volumeID"]) in
  ∃ v, volumes w !! p = Some v ∧
       volumes w' !! p = None ∧ (p ∉ files w') ∧ (vol_image v ∉ files w').
Proof.
  intros H p. revert H. subst p.
  unfold Part001.removePloop, ploop.PloopVolumeOpen, ploop.Delete, call, glog.Infof, logf.
  st. cbn [fst snd].
  set (path := Path.Join _) in *.
  destruct (fails env (OpPloopVolumeOpen path)); [done|]. cbn [volumes record].
  destruct (volumes w !! Path.parse path) as [v|] eqn:Hv; [|done].
  destruct (fails env (OpPloopVolumeDelete path)); [done|].
  intros [= <-]. exists v. split; [done|].
  unfold ploop.delete_volume. cbn [volumes record]. rewrite Hv.
  set (w0 := os.remove_tree (Path.parse path) _).
  destruct (remove_tree_gone (Path.parse path)
              (record (OpPloopVolumeDelete path)
                 (mkWorld (mounts (record (OpPloopVolumeOpen path) w))
                    (files (record (OpPloopVolumeOpen path) w))
                    (volumes (record (OpPloopVolumeOpen path) w))
                    (secrets (record (OpPloopVolumeOpen path) w))
                    (glog (record (OpPloopVolumeOpen path) w) ++ [(INFO, "Delete: " +:+ path)])
                    (trace (record (OpPloopVolumeOpen path) w))))) as [Hvol Hfile].
  fold w0 in Hvol, Hfile.
  destruct (remove_tree_shrinks (vol_image v) w0) as [Hvols Hfiles].
  destruct (remove_tree_gone (vol_image v) w0) as [_ Himg].
  split_and!; [by apply Hvols | by apply Hfiles | done].
Qed.

Lemma prov_handle_options_get env o name k :
  k ≠ "finalizer" → k ≠ "clusterName" →
  get (prov_handle_options env o name) k = get (prov_options o) k.
Proof.
  intros H1 H2. unfold get, prov_handle_options.
  by rewrite !lookup_insert_ne by done.
Qed.

(** C5, amended.  A [Provision] call that has created the volume and whose
    patch of the secret fails (the token was not in the list, so the patch
    is sent) logs the failure, runs [removePloop] on the volume and returns
    an error and no handle, whatever [removePloop] returns.  When
    [removePloop] returns [nil], the error is the one of the patch, and the
    volume and its descriptor directory are gone.  When [removePloop]
    fails, the error names both failures (and the volume may stay). *)
Theorem C5_compensating_rollback (parse : string → Z * option error) (id : string)
    (env : Env) (o : VolumeOptions) (modes : list PersistentVolumeAccessMode)
    (secret : Secret) (e : error) (w w1 w2 w3 w4 : World) :
  let name := get (Data secret) "clusterName" in
  Part001.allowed_modes (AccessModes (PVC o)) = Some modes →
  Selector (PVC o) = None →
  client.Get env (claim_Namespace (PVC o)) (prov_secretName o) (prov_start o w)
    = (inl secret, w1) →
  Part001.prepareVstorage env (prov_options o) name (get (Data secret) "clusterPassword") w1
    = (None, w2) →
  Part001.createPloop parse env (Part001.mountDir +:+ name) (prov_options o) w2
    = (None, w3) →
  prov_finalizer env ∉ Finalizers secret →
  Part001.patchSecret env secret (with_finalizer secret (prov_finalizer env)) w3
    = (Some e, w4) →
  let cleanup := prov_cleanup env o name w4 in
  ∃ err,
    Part001.Provision parse id env o w = ((None, Some err), cleanup.2) ∧
    (cleanup.1 = None →
       err = e ∧
       volumes cleanup.2 !! Path.parse (prov_ploopPath o name) = None ∧
       exists_path cleanup.2 (prov_ploopPath o name) = false) ∧
    (∀ e', cleanup.1 = Some e' →
       err = Errorf ("Add finalizer error: " +:+ Error_ e +:+
                     "; cleanup ploop-volume error: " +:+ Error_ e')).
Proof.
  intros name Hmodes Hsel Hget Hprep Hcreate Hfresh Hpatch cleanup.
  unfold Part001.Provision. rewrite Hmodes.
  destruct (decide (Selector (PVC o) ≠ None)) as [Hn|_]; [by rewrite Hsel in Hn|].
  st. cbv beta iota zeta.
  fold (prov_share o). fold (prov_options0 o). fold (prov_secretName o).
  fold (prov_options o).
  change (glog.Infof _ w) with ((), prov_start o w). cbv beta iota zeta.
  rewrite Hget. cbv beta iota zeta. fold name. rewrite Hprep. cbv beta iota zeta.
  rewrite Hcreate. cbv beta iota zeta.
  fold (prov_finalizer env).
  apply index_of_absent in Hfresh.
  destruct (decide _) as [_|Hn]; [|done].
  fold (with_finalizer secret (prov_finalizer env)). rewrite Hpatch. cbv beta iota zeta.
  fold (prov_handle_options env o name).
  change (glog.Errorf_ _ w4) with
    ((), (glog.Errorf_ ("Failed to update finalizers in secret: " +:+ prov_secretName o) w4).2).
  cbv beta iota zeta.
  fold (prov_cleanup env o name w4). fold cleanup.
  destruct cleanup as [[e'|] w5] eqn:Hcleanup; cbn [fst snd].
  - eexists. split; [done|]. split; [done|]. by intros e'' [= <-].
  - eexists. split; [done|]. split; [|done]. intros _. split; [done|].
    unfold prov_cleanup in Hcleanup.
    apply removePloop_ok in Hcleanup as (v & _ & Hvol & Hfile & _).
    rewrite !prov_handle_options_get in Hvol, Hfile by done.
    split; [done|]. unfold exists_path. by apply bool_decide_eq_false.
Qed.

Lemma C5_compensating_rollback_witness :
  let cleanup := prov_cleanup Sample.unpatchable Sample.request "c1" Sample.unpatched_refused in
  ∃ err,
    Part001.Provision humanize.ParseBytes "me" Sample.unpatchable Sample.request Sample.fresh
      = ((None, Some err), cleanup.2) ∧
    volumes cleanup.2 !! Path.parse (prov_ploopPath Sample.request "c1") = None.
Proof.
  intros cleanup.
  destruct (C5_compensating_rollback humanize.ParseBytes "me" Sample.unpatchable
              Sample.request [ReadWriteOnce] Sample.vz
              (Errorf "etcdserver: request timed out")
              Sample.fresh Sample.unpatched_read Sample.unpatched_prepared
              Sample.unpatched_created Sample.unpatched_refused)
    as (err & Hrun & Hclean & _).
  - reflexivity.
  - reflexivity.
  - apply (run_eta (client.Get Sample.unpatchable "default" "vz"
                      (prov_start Sample.request Sample.fresh))).
    vm_compute. reflexivity.
  - apply (run_eta (Part001.prepareVstorage Sample.unpatchable (prov_options Sample.request)
                      "c1" "pw" Sample.unpatched_read)).
    vm_compute. reflexivity.
  - apply (run_eta (Part001.createPloop humanize.ParseBytes Sample.unpatchable
                      (Part001.mountDir +:+ "c1") (prov_options Sample.request)
                      Sample.unpatched_prepared)).
    vm_compute. reflexivity.
  - apply not_elem_of_nil.
  - apply (run_eta (Part001.patchSecret Sample.unpatchable Sample.vz
                      (with_finalizer Sample.vz (prov_finalizer Sample.unpatchable))
                      Sample.unpatched_created)).
    vm_compute. reflexivity.
  - exists err. split; [exact Hrun|]. apply Hclean. vm_compute. reflexivity.
Defined.

(** C5 as the claim has it fails when the clean-up fails too: [Provision]
    returns its error and the volume it created is still there. *)
Lemma C5_volume_stays_when_cleanup_fails :
  ¬ (Sample.provisioned_stuck.1.1 = None →
     volumes Sample.provisioned_stuck.2 !! Path.parse (prov_ploopPath Sample.request "c1")
       = None).
Proof.
  intros H. specialize (H ltac:(vm_compute; reflexivity)).
  vm_compute in H. discriminate.
Qed.

(** ** Reading the options and the size *)

Global Instance trace_extends_framed : Framed trace_extends.
Proof.
  split.
  - split.
    + intros w. exists []. by rewrite app_nil_r.
    + intros w1 w2 w3 [r1 H1] [r2 H2]. exists (r1 ++ r2). by rewrite H2, H1, app_assoc.
  - intros lvl msg w. exists []. simpl. by rewrite app_nil_r.
  - intros op w _. by exists [op].
  - intros f w. exists []. simpl. by rewrite app_nil_r.
  - intros f w. exists []. simpl. by rewrite app_nil_r.
Qed.

Lemma get_insert_eq (m : gmap string string) k v : get (<[k := v]> m) k = v.
Proof. unfold get. by rewrite lookup_insert_eq. Qed.

Lemma get_insert_ne (m : gmap string string) k k' v :
  k ≠ k' → get (<[k := v]> m) k' = get m k'.
Proof. intros. unfold get. by rewrite lookup_insert_ne. Qed.

(** The first loop of [createPloop] leaves in its variables what the map
    holds under the four keys, in whatever order the entries come. *)
Lemma Part001_scan_get (options : gmap string string) :
  let a := map_fold Part001.scan (Part001.mkVars "" "" "" "") options in
  Part001.volumePath a = get options "volumePath" ∧
  Part001.deltasPath a = get options "deltasPath" ∧
  Part001.volumeID a = get options "volumeID" ∧
  Part001.size a = get options "size".
Proof.
  apply (map_fold_weak_ind
    (λ a m, Part001.volumePath a = get m "volumePath" ∧
            Part001.deltasPath a = get m "deltasPath" ∧
            Part001.volumeID a = get m "volumeID" ∧
            Part001.size a = get m "size")); [done|].
  intros k v m a Hk (H1 & H2 & H3 & H4). unfold Part001.scan.
  repeat (destruct (decide _) as [->|?]); simpl;
    rewrite ?get_insert_eq, ?get_insert_ne by done; done.
Qed.

Lemma Part000_scan_get (options : gmap string string) :
  let a := map_fold Part000.scan (Part000.mkVars "" "" "") options in
  Part000.volumePath a = get options "volumePath" ∧
  Part000.volumeId a = get options "volumeId" ∧
  Part000.size a = get options "size".
Proof.
  apply (map_fold_weak_ind
    (λ a m, Part000.volumePath a = get m "volumePath" ∧
            Part000.volumeId a = get m "volumeId" ∧
            Part000.size a = get m "size")); [done|].
  intros k v m a Hk (H1 & H2 & H3). unfold Part000.scan.
  repeat (destruct (decide _) as [->|?]); simpl;
    rewrite ?get_insert_eq, ?get_insert_ne by done; done.
Qed.

(** A run of the attribute loop that returns [nil] has set attributes only. *)
Lemma Part001_set_attrs_ok env ploopPath kvs w w' :
  Part001.set_attrs env ploopPath kvs w = (None, w') → same_files w w'.
Proof.
  revert w. induction kvs as [|[k v] kvs IH]; intros w; simpl.
  - by intros [= <-].
  - st. destruct (decide _).
    + unfold vstorage.set_attr, call. destruct (fails env _).
      * by destruct (os.RemoveAll _ _ _).
      * intros H. by apply IH in H.
    + apply IH.
Qed.

Lemma Part000_set_attrs_ok env ploop_path kvs w w' :
  Part000.set_attrs env ploop_path kvs w = (None, w') → same_files w w'.
Proof.
  revert w. induction kvs as [|[k v] kvs IH]; intros w; simpl.
  - by intros [= <-].
  - st. destruct (decide _).
    + unfold vstorage.set_attr, call. destruct (fails env _).
      * by destruct (os.RemoveAll _ _ _).
      * intros H. by apply IH in H.
    + apply IH.
Qed.

Lemma along_Part000_set_attrs (R : relation World) `{!Framed R} env ploop_path kvs :
  along R (Part000.set_attrs env ploop_path kvs).
Proof.
  induction kvs as [|[k v] kvs IH]; simpl; [by apply along_ret|].
  apply along_bind; [done | |].
  - destruct (decide _); [by apply along_set_attr | by apply along_ret].
  - intros [e|]; [|exact IH].
    apply along_bind; [done | by apply along_RemoveAll | intros; by apply along_ret].
Qed.

(** [createPloop] with its three required options: the parse error is
    dropped, the directory is made first, and the volume gets the parsed
    value over 1024. *)
Lemma Part001_createPloop_size parse env mount options w :
  get options "volumePath" ≠ "" → get options "volumeID" ≠ "" → get options "size" ≠ "" →
  let deltasPath := if decide (get options "deltasPath" = "")
                    then get options "volumePath" else get options "deltasPath" in
  let ploopPath := Path.Join [mount; get options "volumePath"; get options "volumeID"] in
  let run := Part001.createPloop parse env mount options w in
  (∃ rest, trace run.2 = trace w ++ OpMkdirAll (Path.Join [mount; deltasPath]) :: rest) ∧
  (∀ w', run = (None, w') →
     ∃ v, volumes w' !! Path.parse ploopPath = Some v ∧
          vol_size v = uint64 (parse (get options "size")).1 / 1024).
Proof.
  intros Hvp Hid Hsz deltasPath ploopPath run. subst run.
  unfold Part001.createPloop.
  destruct (Part001_scan_get options) as (H1 & H2 & H3 & H4).
  rewrite H1, H2, H3, H4. fold deltasPath. fold ploopPath.
  destruct (decide (get options "volumePath" = "")); [done|].
  destruct (decide (get options "volumeID" = "")); [done|].
  destruct (decide (get options "size" = "")); [done|].
  st. unfold os.MkdirAll, call.
  destruct (fails env (OpMkdirAll _)) as [m|] eqn:Hmk.
  { split; [by exists [] | done]. }
  match goal with |- context [ploop.PloopVolumeCreate env ?p ?s ?i ?w0] =>
    set (w1 := w0); set (image := i); set (sz := s) end.
  destruct (ploop.PloopVolumeCreate env ploopPath sz image w1) as [[e|] w2] eqn:Hpc.
  { pose proof (along_run trace_extends _ _ _ _
                  (along_PloopVolumeCreate trace_extends env _ _ _) Hpc) as [r Hr].
    split; [|done]. exists r. simpl. rewrite Hr. subst w1. simpl.
    by rewrite <- app_assoc. }
  split.
  - pose proof (along_run trace_extends _ _ _ _
                  (along_PloopVolumeCreate trace_extends env _ _ _) Hpc) as [r Hr].
    pose proof (along_set_attrs trace_extends env ploopPath (map_to_list options) w2)
      as [r' Hr'].
    exists (r ++ r'). rewrite Hr', Hr. subst w1. simpl. by rewrite <- !app_assoc.
  - intros w' Hrun. apply Part001_set_attrs_ok in Hrun as [_ Hvol].
    unfold ploop.PloopVolumeCreate, call in Hpc.
    destruct (fails env (OpPloopVolumeCreate _ _ _)); [done|]. injection Hpc as <-.
    rewrite Hvol. simpl. rewrite lookup_insert_eq. by eexists.
Qed.

Lemma Part000_createPloop_size parse env mount options w :
  get options "volumePath" ≠ "" → get options "volumeId" ≠ "" → get options "size" ≠ "" →
  let ploop_path :=
    mount +:+ "/" +:+ get options "volumePath" +:+ "/" +:+ get options "volumeId" in
  let run := Part000.createPloop parse env mount options w in
  (∃ rest, trace run.2 = trace w ++ OpMkdirAll ploop_path :: rest) ∧
  (∀ w', run = (None, w') →
     ∃ v, volumes w' !! Path.parse ((ploop_path +:+ "/" +:+ get options "volumeId") +:+ "/..")
            = Some v ∧
          vol_size v = uint64 (parse (get options "size")).1 / 1024).
Proof.
  intros Hvp Hid Hsz ploop_path run. subst run.
  unfold Part000.createPloop.
  destruct (Part000_scan_get options) as (H1 & H2 & H3).
  rewrite H1, H2, H3. fold ploop_path.
  destruct (decide (get options "volumePath" = "")); [done|].
  destruct (decide (get options "volumeId" = "")); [done|].
  destruct (decide (get options "size" = "")); [done|].
  st. unfold os.MkdirAll, call.
  destruct (fails env (OpMkdirAll _)) as [m|] eqn:Hmk.
  { split; [by exists [] | done]. }
  match goal with |- context [Part000.set_attrs env _ _ ?w0] => set (w1 := w0) end.
  pose proof (along_Part000_set_attrs trace_extends env ploop_path (map_to_list options) w1)
    as [r Hr].
  destruct (Part000.set_attrs env ploop_path (map_to_list options) w1) as [[e|] w2] eqn:Hsa.
  { split; [|done]. exists r. simpl in *. rewrite Hr. subst w1. simpl.
    by rewrite <- app_assoc. }
  match goal with |- context [ploop.Create env ?s ?f w2] => set (file := f); set (sz := s) end.
  pose proof (along_ploop_Create trace_extends env sz file w2) as [r' Hr'].
  destruct (ploop.Create env sz file w2) as [[e|] w3] eqn:Hc.
  - split; [|done]. exists (r ++ r'). simpl in *. rewrite Hr', Hr. subst w1. simpl.
    by rewrite <- !app_assoc.
  - split.
    + exists (r ++ r'). simpl in *. rewrite Hr', Hr. subst w1. simpl.
      by rewrite <- !app_assoc.
    + intros w' [= <-]. unfold ploop.Create, call in Hc.
      destruct (fails env (OpPloopCreate _ _)); [done|]. injection Hc as <-.
      simpl. rewrite lookup_insert_eq. by eexists.
Qed.

(** C1, amended.  [createPloop], given a volume path, a volume ID and a
    size that are not empty, takes the value that [humanize.ParseBytes]
    returns for the size and drops its error: whatever the size string is,
    the first thing the call does is [os.MkdirAll], and when it returns
    [nil] the volume it created has that value (as a [uint64]) over 1024 as
    its size in kilobytes.  With the parser of go-humanize, which reads [G]
    as 10^9, that is 9,765,625 for ["10G"].  (A size that does not parse is
    not refused; with the value 0 that comes with the error the volume has
    size 0.)  The older provisioner does the same with its key
    [volumeId]. *)
Theorem C1_size_normalization (parse : string → Z * option error) (env : Env)
    (mount : string) (options : gmap string string) (w : World) :
  get options "volumePath" ≠ "" → get options "size" ≠ "" →
  (get options "volumeID" ≠ "" →
   let deltasPath := if decide (get options "deltasPath" = "")
                     then get options "volumePath" else get options "deltasPath" in
   let ploopPath := Path.Join [mount; get options "volumePath"; get options "volumeID"] in
   let run := Part001.createPloop parse env mount options w in
   (∃ rest, trace run.2 = trace w ++ OpMkdirAll (Path.Join [mount; deltasPath]) :: rest) ∧
   (∀ w', run = (None, w') →
      ∃ v, volumes w' !! Path.parse ploopPath = Some v ∧
           vol_size v = uint64 (parse (get options "size")).1 / 1024) ∧
   (get options "size" = "10G" →
    ∀ w', Part001.createPloop humanize.ParseBytes env mount options w = (None, w') →
      ∃ v, volumes w' !! Path.parse ploopPath = Some v ∧ vol_size v = 9765625)) ∧
  (get options "volumeId" ≠ "" →
   let ploop_path :=
     mount +:+ "/" +:+ get options "volumePath" +:+ "/" +:+ get options "volumeId" in
   let run := Part000.createPloop parse env mount options w in
   (∃ rest, trace run.2 = trace w ++ OpMkdirAll ploop_path :: rest) ∧
   (∀ w', run = (None, w') →
      ∃ v, volumes w' !! Path.parse ((ploop_path +:+ "/" +:+ get options "volumeId") +:+ "/..")
             = Some v ∧
           vol_size v = uint64 (parse (get options "size")).1 / 1024) ∧
   (get options "size" = "10G" →
    ∀ w', Part000.createPloop humanize.ParseBytes env mount options w = (None, w') →
      ∃ v, volumes w' !! Path.parse ((ploop_path +:+ "/" +:+ get options "volumeId") +:+ "/..")
             = Some v ∧
           vol_size v = 9765625)).
Proof.
  intros Hvp Hsz. split.
  - intros Hid deltasPath ploopPath run.
    destruct (Part001_createPloop_size parse env mount options w Hvp Hid Hsz)
      as [Htrace Hsize].
    split_and!; [exact Htrace | exact Hsize |].
    intros H10 w' Hrun.
    destruct (Part001_createPloop_size humanize.ParseBytes env mount options w Hvp Hid Hsz)
      as [_ Hreal].
    destruct (Hreal w' Hrun) as (v & Hv & Hs).
    exists v. split; [done|]. rewrite Hs, H10. vm_compute. reflexivity.
  - intros Hid ploop_path run.
    destruct (Part000_createPloop_size parse env mount options w Hvp Hid Hsz)
      as [Htrace Hsize].
    split_and!; [exact Htrace | exact Hsize |].
    intros H10 w' Hrun.
    destruct (Part000_createPloop_size humanize.ParseBytes env mount options w Hvp Hid Hsz)
      as [_ Hreal].
    destruct (Hreal w' Hrun) as (v & Hv & Hs).
    exists v. split; [done|]. rewrite Hs, H10. vm_compute. reflexivity.
Qed.

Lemma C1_size_normalization_witness :
  ∃ v, volumes Sample.created_10G.2 !! Path.parse "/mnt/c1/pool/v1" = Some v ∧
       vol_size v = 9765625.
Proof.
  destruct (C1_size_normalization humanize.ParseBytes Sample.calm "/mnt/c1"
              Sample.options_10G Sample.fresh) as [H _]; [discriminate | discriminate |].
  destruct H as (_ & _ & H); [discriminate|].
  apply H; [reflexivity|].
  apply (run_eta Sample.created_10G). vm_compute. reflexivity.
Defined.

(** C1 as the claim has it fails twice.  The volume made for ["10G"] has
    9,765,625 KB, not 10,485,760: the parser reads [G] as 10^9.  And a size
    that does not parse is not refused: the call returns [nil] and has made
    its files. *)
Lemma C1_size_is_decimal_and_unparseable_is_not_refused :
  ¬ (vol_size <$> volumes Sample.created_10G.2 !! Path.parse "/mnt/c1/pool/v1"
       = Some 10485760) ∧
  ¬ ((humanize.ParseBytes "abc").2 ≠ None →
     is_plain Sample.created_abc.1 = true ∧ files Sample.created_abc.2 = files Sample.fresh).
Proof.
  split.
  - intros H. vm_compute in H. discriminate.
  - intros H. destruct H as [H _]; [discriminate|].
    vm_compute in H. discriminate.
Qed.

Example sizes_of_created_volumes :
  Sample.created_10G.1 = None ∧
  vol_size <$> volumes Sample.created_10G.2 !! Path.parse "/mnt/c1/pool/v1" = Some 9765625 ∧
  Sample.created_abc.1 = None ∧
  vol_size <$> volumes Sample.created_abc.2 !! Path.parse "/mnt/c1/pool/v1" = Some 0.
Proof. split_and!; vm_compute; reflexivity. Qed.

(** What [humanize.ParseBytes] reads: units without [i] are decimal, units
    with [i] binary, the number may have a fraction and commas, and it goes
    through a [float64]. *)
Example ParseBytes_readings :
  humanize.ParseBytes "10G" = (10 ^ 10, None) ∧
  humanize.ParseBytes "10Gi" = (10 * 2 ^ 30, None) ∧
  humanize.ParseBytes "1.5 GB" = (1500000000, None) ∧
  humanize.ParseBytes "1,024 KiB" = (2 ^ 20, None) ∧
  humanize.ParseBytes "9007199254740993" = (9007199254740992, None) ∧
  (humanize.ParseBytes "18446744073709551615").1 = 0 ∧
  (humanize.ParseBytes "abc").1 = 0 ∧
  (humanize.ParseBytes "-5").1 = 0.
Proof. split_and!; vm_compute; reflexivity. Qed.

(** ** Rolling back when an attribute cannot be set *)

(** A run of the attribute loop that fails has called [os.RemoveAll] on
    the volume path; when that call went through, nothing is left at the
    path or below it. *)
Lemma Part001_set_attrs_rollback env ploopPath kvs w e w' :
  Part001.set_attrs env ploopPath kvs w = (Some e, w') →
  fails env (OpRemoveAll ploopPath) = None →
  last (trace w') = Some (OpRemoveAll ploopPath) ∧
  (∀ q, Path.under (Path.parse ploopPath) q = true →
        (q ∉ files w') ∧ volumes w' !! q = None).
Proof.
  intros Hrun Hrm. revert w Hrun.
  induction kvs as [|[k v] kvs IH]; intros w; simpl; [done|].
  st. destruct (decide _); [|apply IH].
  unfold vstorage.set_attr, call. destruct (fails env (OpSetAttr _ _ _)); [|apply IH].
  unfold os.RemoveAll, call. rewrite Hrm. intros [= <- <-]. simpl.
  split; [by rewrite last_snoc|]. intros q Hq. split.
  - intros Hin. apply elem_of_filter in Hin as [Hn _]. by rewrite Hq in Hn.
  - apply map_lookup_filter_None. right. intros x _. simpl. by rewrite Hq.
Qed.

(** C2 at the failing input.  [createPloop] of the provisioner with
    finalizers, with a tier to set and a storage that refuses attributes:
    the call returns the error after [os.RemoveAll] of the volume path,
    the descriptor directory is gone, and the backing image that
    [PloopVolumeCreate] made beside it is still there.  The older
    provisioner, which sets the attributes before it creates the image,
    leaves neither. *)
Theorem C2_rollback_leaves_image :
  Sample.created_tier.1 = Some (Errorf "Unable to set tier to 0: exit status 1") ∧
  last (trace Sample.created_tier.2) = Some (OpRemoveAll "/mnt/c1/pool/v1") ∧
  exists_path Sample.created_tier.2 "/mnt/c1/pool/v1" = false ∧
  exists_path Sample.created_tier.2 "/mnt/c1/pool/v1.image" = true ∧
  Sample.created_tier0.1 = Some (Errorf "Unable to set tier to 0: exit status 1") ∧
  exists_path Sample.created_tier0.2 "/mnt/c1/pool/v1" = false ∧
  exists_path Sample.created_tier0.2 "/mnt/c1/pool/v1/v1" = false.
Proof. split_and!; vm_compute; reflexivity. Qed.

(** * Further properties of the code *)

(** ** [createPloop] and its loops *)

Lemma createPloop_no_volumePath parse env mount options w :
  get options "volumePath" = "" →
  Part001.createPloop parse env mount options w
    = (Some (Errorf "volumePath isn't specified"), w).
Proof.
  unfold Part001.createPloop.
  destruct (Part001_scan_get options) as (H1 & _).
  rewrite H1. intros ->. by destruct (decide _).
Qed.

(** X1. [createPloop] asks for the volume path first, then for the volume
    ID, then for the size; an option that is missing or empty ends the
    call with its own message before anything outside is called. *)
Theorem X1_createPloop_required_options (parse : string → Z * option error) (env : Env)
    (mount : string) (options : gmap string string) (w : World) :
  (get options "volumePath" = "" →
   Part001.createPloop parse env mount options w
     = (Some (Errorf "volumePath isn't specified"), w)) ∧
  (get options "volumePath" ≠ "" → get options "volumeID" = "" →
   Part001.createPloop parse env mount options w
     = (Some (Errorf "volumeID isn't specified"), w)) ∧
  (get options "volumePath" ≠ "" → get options "volumeID" ≠ "" → get options "size" = "" →
   Part001.createPloop parse env mount options w
     = (Some (Errorf "size isn't specified"), w)).
Proof.
  unfold Part001.createPloop.
  destruct (Part001_scan_get options) as (H1 & H2 & H3 & H4).
  rewrite H1, H3, H4.
  split_and!.
  - intros ->. by destruct (decide _).
  - intros Hvp ->. destruct (decide (_ = "")); [done|]. by destruct (decide _).
  - intros Hvp Hid ->. repeat (destruct (decide (_ = "")); try done).
Qed.

Lemma X1_createPloop_required_options_witness :
  Part001.createPloop humanize.ParseBytes Sample.calm "/mnt/c1"
    {[ "volumePath" := "pool"; "size" := "10G" ]} Sample.fresh
    = (Some (Errorf "volumeID isn't specified"), Sample.fresh).
Proof.
  destruct (X1_createPloop_required_options humanize.ParseBytes Sample.calm "/mnt/c1"
              {[ "volumePath" := "pool"; "size" := "10G" ]} Sample.fresh) as (_ & H & _).
  apply H; [discriminate | reflexivity].
Defined.

(** X2. With its required options [createPloop] first makes the directory
    for the deltas, which is the volume path unless [deltasPath] is given.
    If that fails it returns the error and calls nothing else.  Otherwise
    its next call creates the volume at mount, volume path and volume ID
    with the image at mount, deltas path and the volume ID with [.image]. *)
Theorem X2_createPloop_places (parse : string → Z * option error) (env : Env)
    (mount : string) (options : gmap string string) (w : World) :
  get options "volumePath" ≠ "" → get options "volumeID" ≠ "" → get options "size" ≠ "" →
  let deltasPath := if decide (get options "deltasPath" = "")
                    then get options "volumePath" else get options "deltasPath" in
  let dir := Path.Join [mount; deltasPath] in
  let ploopPath := Path.Join [mount; get options "volumePath"; get options "volumeID"] in
  let deltaPath := Path.Join [mount; deltasPath; get options "volumeID" +:+ ".image"] in
  let size := uint64 (parse (get options "size")).1 / 1024 in
  let run := Part001.createPloop parse env mount options w in
  (∀ msg, fails env (OpMkdirAll dir) = Some msg →
     run = (Some (Errorf msg), record (OpMkdirAll dir) w)) ∧
  (fails env (OpMkdirAll dir) = None →
     ∃ rest, trace run.2
             = trace w ++ OpMkdirAll dir :: OpPloopVolumeCreate ploopPath size deltaPath :: rest).
Proof.
  intros Hvp Hid Hsz deltasPath dir ploopPath deltaPath size run. subst run.
  unfold Part001.createPloop.
  destruct (Part001_scan_get options) as (H1 & H2 & H3 & H4).
  rewrite H1, H2, H3, H4. fold deltasPath. fold dir. fold ploopPath. fold deltaPath.
  fold size.
  destruct (decide (get options "volumePath" = "")); [done|].
  destruct (decide (get options "volumeID" = "")); [done|].
  destruct (decide (get options "size" = "")); [done|].
  st. unfold os.MkdirAll, call. split.
  - intros msg ->. done.
  - intros ->.
    match goal with |- context [ploop.PloopVolumeCreate env _ _ _ ?w0] => set (w1 := w0) end.
    assert (Hpc : ∃ w2 r, ploop.PloopVolumeCreate env ploopPath size deltaPath w1 = (r, w2)
                  ∧ trace w2 = trace w ++ [OpMkdirAll dir;
                                           OpPloopVolumeCreate ploopPath size deltaPath]).
    { unfold ploop.PloopVolumeCreate, call.
      destruct (fails env (OpPloopVolumeCreate _ _ _)); do 2 eexists; (split; [done|]);
        subst w1; simpl; by rewrite <- app_assoc. }
    destruct Hpc as (w2 & r & Hrun & Htr). rewrite Hrun.
    destruct r as [e|].
    + exists []. simpl. by rewrite Htr.
    + pose proof (along_set_attrs trace_extends env ploopPath (map_to_list options) w2)
        as [rest Hrest].
      exists rest. rewrite Hrest, Htr. by rewrite <- app_assoc.
Qed.

Lemma X2_createPloop_places_witness :
  ∃ rest, trace Sample.created_10G.2
          = trace Sample.fresh ++ OpMkdirAll "/mnt/c1/pool"
              :: OpPloopVolumeCreate "/mnt/c1/pool/v1" 9765625 "/mnt/c1/pool/v1.image" :: rest.
Proof.
  destruct (X2_createPloop_places humanize.ParseBytes Sample.calm "/mnt/c1"
              Sample.options_10G Sample.fresh) as [_ H]; [discriminate..|].
  apply H. reflexivity.
Defined.




(** X4. An attribute loop that fails: some entry with an attribute key had
    its [set-attr] refused, the error names that attribute, its value and
    the cause, and the last call of the loop is the [os.RemoveAll] of the
    volume path.  When that removal went through, nothing is left at the
    path or below it. *)
Theorem X4_set_attrs_failure (env : Env) (ploopPath : string)
    (kvs : list (string * string)) (w : World) (e : error) (w' : World) :
  Part001.set_attrs env ploopPath kvs w = (Some e, w') →
  (∃ k v cause,
     (k, v) ∈ kvs ∧ Part001.attr_of k ≠ "" ∧
     fails env (OpSetAttr ploopPath (Part001.attr_of k) v) = Some cause ∧
     e = Errorf ("Unable to set " +:+ Part001.attr_of k +:+ " to " +:+ v +:+ ": " +:+ cause)) ∧
  last (trace w') = Some (OpRemoveAll ploopPath) ∧
  (fails env (OpRemoveAll ploopPath) = None →
   ∀ q, Path.under (Path.parse ploopPath) q = true →
        (q ∉ files w') ∧ volumes w' !! q = None).
Proof.
  intros Hrun. split_and!.
  - revert w Hrun. induction kvs as [|[k v] kvs IH]; intros w; simpl; [done|].
    st. destruct (decide (Part001.attr_of k ≠ "")) as [Hattr|Hattr].
    + unfold vstorage.set_attr, call.
      destruct (fails env (OpSetAttr _ _ _)) as [cause|] eqn:Hfail.
      * destruct (os.RemoveAll _ _ _) as [r w1]. intros [= <- <-].
        exists k, v, cause. split_and!; try done. apply list_elem_of_here.
      * intros H. apply IH in H as (k' & v' & c & Hin & ?).
        exists k', v', c. split; [by apply list_elem_of_further | done].
    + intros H. apply IH in H as (k' & v' & c & Hin & ?).
      exists k', v', c. split; [by apply list_elem_of_further | done].
  - revert w Hrun. induction kvs as [|[k v] kvs IH]; intros w; simpl; [done|].
    st. destruct (decide _); [|apply IH].
    unfold vstorage.set_attr, call. destruct (fails env (OpSetAttr _ _ _)); [|apply IH].
    unfold os.RemoveAll, call.
    destruct (fails env (OpRemoveAll _)); intros [= <- <-]; simpl; by rewrite last_snoc.
  - intros Hrm. by apply (Part001_set_attrs_rollback env ploopPath kvs w e w').
Qed.

Lemma X4_set_attrs_failure_witness :
  last (trace (Part001.set_attrs Sample.no_attrs "/mnt/c1/pool/v1" [("vzsTier", "0")]
                 Sample.fresh).2)
    = Some (OpRemoveAll "/mnt/c1/pool/v1").
Proof.
  destruct (X4_set_attrs_failure Sample.no_attrs "/mnt/c1/pool/v1" [("vzsTier", "0")]
              Sample.fresh (Errorf "Unable to set tier to 0: exit status 1")
              (Part001.set_attrs Sample.no_attrs "/mnt/c1/pool/v1" [("vzsTier", "0")]
                 Sample.fresh).2) as (_ & H & _).
  - apply (run_eta (Part001.set_attrs Sample.no_attrs "/mnt/c1/pool/v1" [("vzsTier", "0")]
                      Sample.fresh)).
    vm_compute. reflexivity.
  - exact H.
Defined.

(** ** [removePloop] *)

(** X5. A [removePloop] that returns [nil] found a volume at mount, volume
    path and volume ID; afterwards the volume, its descriptor directory
    and its image are gone, and the mount table and the secrets are as
    they were. *)
Theorem X5_removePloop_removes (env : Env) (mount : string)
    (options : gmap string string) (w w' : World) :
  Part001.removePloop env mount options w = (None, w') →
  let p := Path.parse (Path.Join [mount; get options "volumePath"; get options "volumeID"]) in
  ∃ v, volumes w !! p = Some v ∧
       volumes w' !! p = None ∧ (p ∉ files w') ∧ (vol_image v ∉ files w') ∧
       mounts w' = mounts w ∧ secrets w' = secrets w.
Proof.
  intros Hrun p.
  destruct (removePloop_ok env mount options w w' Hrun) as (v & Hv & Hvol & Hp & Himg).
  destruct (along_run files_only _ _ _ _ (along_removePloop files_only env _ _) Hrun)
    as (Hm & Hs & _).
  exists v. split_and!; done.
Qed.

Lemma X5_removePloop_removes_witness :
  let run := Part001.removePloop Sample.calm (Part001.mountDir +:+ "c1")
               (Options (FlexVolume Sample.handle)) Sample.provisioned.2 in
  ∃ v, volumes Sample.provisioned.2 !! Path.parse (prov_ploopPath Sample.request "c1") = Some v ∧
       volumes run.2 !! Path.parse (prov_ploopPath Sample.request "c1") = None.
Proof.
  intros run.
  destruct (X5_removePloop_removes Sample.calm (Part001.mountDir +:+ "c1")
              (Options (FlexVolume Sample.handle)) Sample.provisioned.2 run.2)
    as (v & Hv & Hgone & _).
  - apply (run_eta run). vm_compute. reflexivity.
  - exists v. split; [exact Hv | exact Hgone].
Defined.

(** ** [prepareVstorage] *)

(** X6. When the cluster is not mounted at its path, the directory can be
    made and the cluster is found mounted elsewhere, [prepareVstorage]
    bind-mounts that place onto the path and returns what the bind mount
    returns: it neither authenticates nor mounts the cluster anew, and the
    password is not used. *)
Theorem X6_prepareVstorage_binds (env : Env) (options : gmap string string)
    (clusterName clusterPassword : string) (w : World) (p : string) :
  let mount := Part001.mountDir +:+ clusterName in
  is_mounted w mount = false →
  fails env (OpMkdirAll mount) = None →
  (vstorage.Mountpoint clusterName w).1 = p → p ≠ "" →
  let run := Part001.prepareVstorage env options clusterName clusterPassword w in
  trace run.2 = trace w ++ [OpIsVstorage mount; OpMkdirAll mount; OpMountpoint clusterName;
                            OpBindMount p mount] ∧
  run.1 = (λ msg, Errorf msg) <$> fails env (OpBindMount p mount).
Proof.
  intros mount Hm Hmk Hp Hne run. subst run.
  unfold Part001.prepareVstorage, vstorage.IsVstorage, os.MkdirAll, call. st.
  unfold is_mounted in Hm. fold mount. cbn [mounts record]. rewrite Hm, Hmk.
  cbv beta iota zeta.
  unfold vstorage.Mountpoint in *. cbn [fst mounts set_files record] in *. rewrite Hp.
  destruct (decide (p ≠ "")); [|done].
  unfold syscall.Mount, call.
  destruct (fails env (OpBindMount p mount)); simpl; by rewrite <- !app_assoc.
Qed.

Lemma X6_prepareVstorage_binds_witness :
  let run := Part001.prepareVstorage SampleX.locked ∅ "c1" "" SampleX.premounted in
  trace run.2 = [OpIsVstorage "/export/virtuozzo-provisioner/mnt/c1";
                 OpMkdirAll "/export/virtuozzo-provisioner/mnt/c1";
                 OpMountpoint "c1";
                 OpBindMount "/mnt/vstorage" "/export/virtuozzo-provisioner/mnt/c1"] ∧
  run.1 = None.
Proof.
  apply (X6_prepareVstorage_binds SampleX.locked ∅ "c1" "" SampleX.premounted
           "/mnt/vstorage"); [reflexivity | reflexivity | reflexivity | discriminate].
Defined.

(** X7. When the cluster is not mounted at its path and is not found
    mounted elsewhere, [prepareVstorage] authenticates with the password
    it was given and then mounts.  A refused authentication ends the call
    with that error: no mount is tried and the mount table stays as it
    was. *)
Theorem X7_prepareVstorage_authenticates (env : Env) (options : gmap string string)
    (clusterName clusterPassword : string) (w : World) :
  let mount := Part001.mountDir +:+ clusterName in
  is_mounted w mount = false →
  fails env (OpMkdirAll mount) = None →
  (vstorage.Mountpoint clusterName w).1 = "" →
  let run := Part001.prepareVstorage env options clusterName clusterPassword w in
  let probes := [OpIsVstorage mount; OpMkdirAll mount; OpMountpoint clusterName] in
  (∀ msg, fails env (OpAuth clusterName clusterPassword) = Some msg →
     run.1 = Some (Errorf msg) ∧
     trace run.2 = trace w ++ probes ++ [OpAuth clusterName clusterPassword] ∧
     mounts run.2 = mounts w) ∧
  (fails env (OpAuth clusterName clusterPassword) = None →
     run.1 = (λ msg, Errorf msg) <$> fails env (OpMount clusterName mount) ∧
     trace run.2 = trace w ++ probes ++ [OpAuth clusterName clusterPassword;
                                         OpMount clusterName mount]).
Proof.
  intros mount Hm Hmk Hp run probes. subst run probes.
  unfold Part001.prepareVstorage, vstorage.IsVstorage, os.MkdirAll, call. st.
  unfold is_mounted in Hm. fold mount. cbn [mounts record]. rewrite Hm, Hmk.
  cbv beta iota zeta.
  unfold vstorage.Mountpoint in *. cbn [fst mounts set_files record] in *. rewrite Hp.
  destruct (decide ("" ≠ "")); [done|].
  unfold vstorage.Auth, vstorage.Mount, call. split.
  - intros msg ->. simpl. by rewrite <- !app_assoc.
  - intros ->. cbv beta iota zeta.
    destruct (fails env (OpMount clusterName mount)); simpl; by rewrite <- !app_assoc.
Qed.

Lemma X7_prepareVstorage_authenticates_witness :
  let run := Part001.prepareVstorage SampleX.locked ∅ "c1" "pw" Sample.fresh in
  run.1 = Some (Errorf "authentication failed") ∧ mounts run.2 = [].
Proof.
  destruct (X7_prepareVstorage_authenticates SampleX.locked ∅ "c1" "pw" Sample.fresh)
    as [H _]; [reflexivity | reflexivity | reflexivity |].
  destruct (H "authentication failed" eq_refl) as (H1 & _ & H3).
  split; [exact H1 | exact H3].
Defined.

(** ** The flexvolume driver *)

(** X8. The driver's [prepareVstorage] wants a password only when it has
    to mount the cluster itself.  With the cluster neither mounted at the
    path nor found elsewhere, an empty password ends the call with its own
    error before any authentication; with the cluster found elsewhere the
    bind mount is made whatever the password is. *)
Theorem X8_driver_credentials (env : Env) (clusterName clusterPasswd mount : string)
    (w : World) :
  is_mounted w mount = false →
  fails env (OpMkdirAll mount) = None →
  let run := FlexVol.prepareVstorage env clusterName clusterPasswd mount w in
  let p := (vstorage.Mountpoint clusterName w).1 in
  (p = "" → clusterPasswd = "" →
     run.1 = Some (Errorf "Please provide vstorage credentials") ∧
     trace run.2 = trace w ++ [OpIsVstorage mount; OpMkdirAll mount; OpMountpoint clusterName] ∧
     mounts run.2 = mounts w) ∧
  (p ≠ "" →
     run.1 = (λ msg, Errorf msg) <$> fails env (OpBindMount p mount) ∧
     trace run.2 = trace w ++ [OpIsVstorage mount; OpMkdirAll mount; OpMountpoint clusterName;
                               OpBindMount p mount]).
Proof.
  intros Hm Hmk run p. subst run p.
  unfold FlexVol.prepareVstorage, vstorage.IsVstorage, os.MkdirAll, call. st.
  unfold is_mounted in Hm. cbn [mounts record]. rewrite Hm, Hmk.
  cbv beta iota zeta.
  unfold vstorage.Mountpoint in *. cbn [fst mounts set_files record] in *.
  set (p := default "" _). split.
  - intros Hp ->. destruct (decide (p ≠ "")); [done|].
    destruct (decide ("" = "")); [|done]. simpl. by rewrite <- !app_assoc.
  - intros Hp. destruct (decide (p ≠ "")); [|done].
    unfold syscall.Mount, call.
    destruct (fails env (OpBindMount p mount)); simpl; by rewrite <- !app_assoc.
Qed.

Lemma X8_driver_credentials_witness :
  (FlexVol.prepareVstorage Sample.calm "c1" "" "/var/run/ploop-flexvol/c1" Sample.fresh).1
    = Some (Errorf "Please provide vstorage credentials") ∧
  (FlexVol.prepareVstorage Sample.calm "c1" "" "/var/run/ploop-flexvol/c1"
     SampleX.premounted).1 = None.
Proof.
  split.
  - destruct (X8_driver_credentials Sample.calm "c1" "" "/var/run/ploop-flexvol/c1"
                Sample.fresh) as [H _]; [reflexivity | reflexivity |].
    apply H; reflexivity.
  - destruct (X8_driver_credentials Sample.calm "c1" "" "/var/run/ploop-flexvol/c1"
                SampleX.premounted) as [_ H]; [reflexivity | reflexivity |].
    apply H. discriminate.
Defined.

Lemma string_app_assoc (a b c : string) : (a +:+ b) +:+ c = a +:+ (b +:+ c).
Proof.
  induction a as [|x a IH]; [done|].
  change (String x ((a +:+ b) +:+ c) = String x (a +:+ (b +:+ c))). by rewrite IH.
Qed.

(** X9. The driver and the older provisioner agree on where a volume is.
    For options with a volume path, the directory that [createPloop] of
    the older provisioner makes under its mount is the mount followed by
    the driver's [path] of the options; and the driver names the volume by
    its [volumeId]. *)
Theorem X9_driver_path_agrees (parse : string → Z * option error) (env : Env)
    (mount : string) (options : gmap string string) (w : World) :
  get options "volumePath" ≠ "" → get options "volumeId" ≠ "" → get options "size" ≠ "" →
  (∃ rest, trace (Part000.createPloop parse env mount options w).2
           = trace w ++ OpMkdirAll (mount +:+ FlexVol.path options) :: rest) ∧
  FlexVol.GetVolumeName options
    = (Some (FlexVol.mkResponse FlexVol.StatusSuccess "" (get options "volumeId")), None).
Proof.
  intros Hvp Hid Hsz. split.
  - destruct (Part000_createPloop_size parse env mount options w Hvp Hid Hsz) as [H _].
    unfold FlexVol.path. destruct (decide _); [|done].
    rewrite !string_app_assoc. exact H.
  - unfold FlexVol.GetVolumeName. by destruct (decide _).
Qed.

Lemma X9_driver_path_agrees_witness :
  ∃ rest, trace Sample.created_tier0.2
          = trace Sample.fresh ++ OpMkdirAll ("/mnt/c1" +:+ FlexVol.path Sample.options_tier0)
              :: rest.
Proof.
  destruct (X9_driver_path_agrees humanize.ParseBytes Sample.no_attrs "/mnt/c1"
              Sample.options_tier0 Sample.fresh) as [H _]; [discriminate..|].
  exact H.
Defined.

(** ** [Provision] of the provisioner with finalizers *)

Lemma prov_secretName_parameters (o : VolumeOptions) :
  prov_secretName o = get (Parameters o) "secretName".
Proof.
  unfold prov_secretName, prov_options0. by rewrite !get_insert_ne.
Qed.

Lemma allowed_modes_Some modes ms :
  Part001.allowed_modes modes = Some ms → ms = [ReadWriteOnce].
Proof.
  unfold Part001.allowed_modes.
  destruct (decide (length modes = 0%nat)) as [Hlen|Hlen].
  { destruct modes; [|done]. by intros [= <-]. }
  destruct (decide _) as [|Hok]; [done|]. intros [= <-].
  destruct modes as [|m [|m' modes]]; [done| |].
  - destruct (decide (m = ReadWriteOnce)) as [->|Hm]; [done|].
    exfalso. apply Hok. right. simpl. congruence.
  - exfalso. apply Hok. left. simpl. lia.
Qed.

(** X10. [Provision] reads the secret named by the [secretName] parameter
    in the namespace of the claim before it touches the storage.  When the
    secret cannot be read, the call returns that error, and all it has done
    is its first log line and the read: no mount, no file, no volume. *)
Theorem X10_Provision_reads_secret_first (parse : string → Z * option error)
    (id : string) (env : Env) (o : VolumeOptions) (w : World) (e : error) (w1 : World) :
  AccessModes (PVC o) = [] ∨ AccessModes (PVC o) = [ReadWriteOnce] →
  Selector (PVC o) = None →
  client.Get env (claim_Namespace (PVC o)) (get (Parameters o) "secretName") (prov_start o w)
    = (inr e, w1) →
  Part001.Provision parse id env o w = ((None, Some e), w1) ∧
  trace w1 = trace w ++ [OpSecretGet (claim_Namespace (PVC o)) (get (Parameters o) "secretName")] ∧
  mounts w1 = mounts w ∧ files w1 = files w ∧ volumes w1 = volumes w ∧
  secrets w1 = secrets w.
Proof.
  intros Hmodes Hsel Hget. split.
  - unfold Part001.Provision.
    assert (∃ ms, Part001.allowed_modes (AccessModes (PVC o)) = Some ms) as [ms ->].
    { destruct Hmodes as [-> | ->]; by eexists. }
    destruct (decide (Selector (PVC o) ≠ None)) as [Hn|_]; [by rewrite Hsel in Hn|].
    st. cbv beta iota zeta.
    fold (prov_share o). fold (prov_options0 o). fold (prov_secretName o).
    change (glog.Infof _ w) with ((), prov_start o w). cbv beta iota zeta.
    rewrite prov_secretName_parameters, Hget. done.
  - unfold client.Get in Hget.
    destruct (fails env _); [by injection Hget as <- <-|].
    cbn [secrets record] in Hget.
    destruct (secrets _ !! _); [discriminate Hget | by injection Hget as <- <-].
Qed.

Lemma X10_Provision_reads_secret_first_witness :
  ∃ e, Part001.Provision humanize.ParseBytes "me" Sample.calm Sample.request2
         (mkWorld [] ∅ ∅ ∅ [] [])
       = ((None, Some e),
          (client.Get Sample.calm "default" "vz"
             (prov_start Sample.request2 (mkWorld [] ∅ ∅ ∅ [] []))).2).
Proof.
  exists (Errorf "secrets vz not found").
  apply (X10_Provision_reads_secret_first humanize.ParseBytes "me" Sample.calm
           Sample.request2 (mkWorld [] ∅ ∅ ∅ [] [])).
  - left. reflexivity.
  - reflexivity.
  - reflexivity.
Defined.

(** X11. The handle that [Provision] returns: it is named as the request
    asks and annotated with the provisioner's identity and with the share
    name, [kubernetes-dynamic-pvc-] followed by the UID of the claim; its
    access mode is [ReadWriteOnce]; it refers to the secret by the
    [secretName] parameter, which is taken out of the options; the options
    hold the share as [volumeID], the requested bytes in decimal as [size],
    the cluster name and the finalizer token, and otherwise the parameters
    of the request; it has no claim reference. *)
Theorem X11_Provision_handle (parse : string → Z * option error) (id : string)
    (env : Env) (o : VolumeOptions) (w : World) (pv : PersistentVolume) (w' : World) :
  Part001.Provision parse id env o w = ((Some pv, None), w') →
  let share := "kubernetes-dynamic-pvc-" +:+ UID (PVC o) in
  let options := Options (FlexVolume pv) in
  pv_Name pv = PVName o ∧
  Annotations pv = {[ "vzFSParentProvisioner" := id; "vzShare" := share ]} ∧
  pv_AccessModes pv = [ReadWriteOnce] ∧
  Capacity pv = storage (PVC o) ∧
  ClaimRef pv = None ∧
  Driver (FlexVolume pv) = "virtuozzo/ploop" ∧
  SecretRef (FlexVolume pv) = get (Parameters o) "secretName" ∧
  options !! "secretName" = None ∧
  options !! "volumeID" = Some share ∧
  options !! "size" = Some (fmt.d (storage (PVC o))) ∧
  options !! "finalizer" = Some ("virtuozzo.com/" +:+ NewUUID env +:+ "-pv") ∧
  is_Some (options !! "clusterName") ∧
  (∀ k, k ∉ ["volumeID"; "size"; "secretName"; "clusterName"; "finalizer"] →
        options !! k = Parameters o !! k).
Proof.
  intros H share options. subst options.
  apply Provision_ok_inv in H
    as (modes & msg & secret & w1 & w2 & w3 & Hmodes & _ & _ & _ & _ & -> & _).
  apply allowed_modes_Some in Hmodes as ->.
  unfold prov_pv. cbn [pv_Name Annotations pv_AccessModes Capacity ClaimRef FlexVolume
                       Driver SecretRef Options].
  unfold prov_options, prov_options0, prov_share, prov_finalizer.
  split_and!; try done.
  - apply prov_secretName_parameters.
  - rewrite !lookup_insert_ne by done. apply lookup_delete_eq.
  - rewrite !lookup_insert_ne by done. rewrite lookup_delete_ne by done.
    rewrite lookup_insert_ne by done. apply lookup_insert_eq.
  - rewrite !lookup_insert_ne by done. rewrite lookup_delete_ne by done.
    apply lookup_insert_eq.
  - apply lookup_insert_eq.
  - rewrite lookup_insert_ne by done. rewrite lookup_insert_eq. by eexists.
  - intros k Hk.
    assert (k ≠ "volumeID" ∧ k ≠ "size" ∧ k ≠ "secretName" ∧ k ≠ "clusterName"
            ∧ k ≠ "finalizer") as (?&?&?&?&?).
    { split_and!; intros ->; apply Hk; in_list. }
    rewrite !lookup_insert_ne by done. rewrite lookup_delete_ne by done.
    by rewrite !lookup_insert_ne by done.
Qed.

Lemma X11_Provision_handle_witness :
  let pv := default Sample.bare Sample.provisioned.1.1 in
  Options (FlexVolume pv) !! "volumeID" = Some "kubernetes-dynamic-pvc-uid-1" ∧
  Options (FlexVolume pv) !! "secretName" = None ∧
  SecretRef (FlexVolume pv) = "vz".
Proof.
  intros pv.
  destruct (X11_Provision_handle humanize.ParseBytes "me" Sample.calm Sample.request
              Sample.fresh pv Sample.provisioned.2)
    as (_ & _ & _ & _ & _ & _ & Href & Hsec & Hid & _).
  - apply (returned_volume_eta Sample.provisioned). vm_compute. reflexivity.
  - split_and!; [exact Hid | exact Hsec | exact Href].
Defined.

(** X12. [Provision] looks at the storage parameters only when the cluster
    is mounted: a request without a [volumePath] parameter is refused by
    [createPloop] after the secret was read and [prepareVstorage] has
    returned, and the mount that was made for it stays. *)
Theorem X12_Provision_checks_parameters_late (parse : string → Z * option error)
    (id : string) (env : Env) (o : VolumeOptions) (secret : Secret) (w w1 w2 : World) :
  AccessModes (PVC o) = [] ∨ AccessModes (PVC o) = [ReadWriteOnce] →
  Selector (PVC o) = None →
  get (Parameters o) "volumePath" = "" →
  client.Get env (claim_Namespace (PVC o)) (get (Parameters o) "secretName") (prov_start o w)
    = (inl secret, w1) →
  Part001.prepareVstorage env (prov_options o) (get (Data secret) "clusterName")
    (get (Data secret) "clusterPassword") w1 = (None, w2) →
  Part001.Provision parse id env o w
    = ((None, Some (Errorf "volumePath isn't specified")), w2) ∧
  is_mounted w2 (Part001.mountDir +:+ get (Data secret) "clusterName") = true.
Proof.
  intros Hmodes Hsel Hvp Hget Hprep. split.
  - unfold Part001.Provision.
    assert (∃ ms, Part001.allowed_modes (AccessModes (PVC o)) = Some ms) as [ms ->].
    { destruct Hmodes as [-> | ->]; by eexists. }
    destruct (decide (Selector (PVC o) ≠ None)) as [Hn|_]; [by rewrite Hsel in Hn|].
    st. cbv beta iota zeta.
    fold (prov_share o). fold (prov_options0 o). fold (prov_secretName o).
    fold (prov_options o).
    change (glog.Infof _ w) with ((), prov_start o w). cbv beta iota zeta.
    rewrite prov_secretName_parameters, Hget. cbv beta iota zeta.
    rewrite Hprep. cbv beta iota zeta.
    assert (Hopt : get (prov_options o) "volumePath" = "").
    { unfold get, prov_options, prov_options0. rewrite lookup_delete_ne by done.
      by rewrite !lookup_insert_ne by done. }
    rewrite (createPloop_no_volumePath parse env
               (Part001.mountDir +:+ get (Data secret) "clusterName") (prov_options o) w2 Hopt).
    done.
  - by apply prepareVstorage_ok in Hprep as [Hm _].
Qed.

Lemma X12_Provision_checks_parameters_late_witness :
  Part001.Provision humanize.ParseBytes "me" Sample.calm SampleX.request_nopath Sample.fresh
    = ((None, Some (Errorf "volumePath isn't specified")), SampleX.nopath_prepared) ∧
  is_mounted SampleX.nopath_prepared "/export/virtuozzo-provisioner/mnt/c1" = true.
Proof.
  apply (X12_Provision_checks_parameters_late humanize.ParseBytes "me" Sample.calm
           SampleX.request_nopath Sample.vz Sample.fresh SampleX.nopath_read).
  - right. reflexivity.
  - reflexivity.
  - reflexivity.
  - apply (run_eta (client.Get Sample.calm "default" "vz"
                      (prov_start SampleX.request_nopath Sample.fresh))).
    vm_compute. reflexivity.
  - apply (run_eta (Part001.prepareVstorage Sample.calm (prov_options SampleX.request_nopath)
                      "c1" "pw" SampleX.nopath_read)).
    vm_compute. reflexivity.
Defined.

(** ** [Delete] of the provisioner with finalizers *)

(** X13. A [Delete] that does not return [nil] has not changed any secret:
    every error return, and the dereference of a missing claim reference,
    comes before the finalizer is looked at. *)
Theorem X13_Delete_error_keeps_secret (id : string) (env : Env)
    (volume : PersistentVolume) (w : World) (r : result) (w' : World) :
  Part001.Delete id env volume w = (r, w') →
  r ≠ Returned None →
  secrets w' = secrets w.
Proof.
  unfold Part001.Delete.
  destruct (Annotations volume !! Part001.parentProvisionerAnn) as [ann|];
    [|by intros [= <- <-]].
  destruct (decide (ann ≠ id)); [by intros [= <- <-]|].
  destruct (Annotations volume !! Part001.vzShareAnn) as [share|]; [|by intros [= <- <-]].
  destruct (ClaimRef volume) as [namespace|]; [|by intros [= <- <-]].
  st. cbv beta iota zeta.
  destruct (client.Get _ _ _ w) as [[secret|err] w1] eqn:Hget; cbv beta iota zeta.
  2:{ intros [= <- <-] _. by apply (along_run same_secrets _ _ _ _
                                       (along_Get same_secrets env _ _) Hget). }
  pose proof (along_run same_secrets _ _ _ _ (along_Get same_secrets env _ _) Hget) as H01.
  destruct (Part001.prepareVstorage _ _ _ _ w1) as [[err|] w2] eqn:Hprep; cbv beta iota zeta.
  { intros [= <- <-] _.
    pose proof (along_run same_secrets _ _ _ _
                  (along_prepareVstorage same_secrets env _ _ _ same_secrets_of_set_mounts)
                  Hprep) as H12.
    unfold same_secrets in *. congruence. }
  pose proof (along_run same_secrets _ _ _ _
                (along_prepareVstorage same_secrets env _ _ _ same_secrets_of_set_mounts)
                Hprep) as H12.
  destruct (Part001.removePloop _ _ _ w2) as [[err|] w3] eqn:Hrm; cbv beta iota zeta.
  { intros [= <- <-] _.
    pose proof (along_run same_secrets _ _ _ _ (along_removePloop same_secrets env _ _) Hrm)
      as H23.
    unfold same_secrets in *. congruence. }
  intros Hrun Hr. exfalso. apply Hr. clear Hr.
  destruct (Options (FlexVolume volume) !! "finalizer"); [|by injection Hrun as <- _].
  destruct (decide _); [by injection Hrun as <- _|].
  destruct (append_cut _ _). destruct (Part001.patchSecret _ _ _ w3) as [[?|] ?].
  - by injection Hrun as <- _.
  - by injection Hrun as <- _.
Qed.

Lemma X13_Delete_error_keeps_secret_witness :
  let run := Part001.Delete "me" SampleX.unopenable Sample.handle Sample.provisioned.2 in
  run.1 = Returned (Some (Errorf "ploop: cannot open")) ∧
  secrets run.2 = secrets Sample.provisioned.2.
Proof.
  intros run.
  assert (Hr : run.1 = Returned (Some (Errorf "ploop: cannot open")))
    by (vm_compute; reflexivity).
  split; [exact Hr|].
  apply (X13_Delete_error_keeps_secret "me" SampleX.unopenable Sample.handle
           Sample.provisioned.2 run.1 run.2).
  - exact (run_eta run run.1 eq_refl).
  - rewrite Hr. discriminate.
Defined.

(** ** The search for the finalizer and the cut of the list *)

Lemma index_from_first i x l :
  x ∈ l →
  ∃ n : nat, index_from i x l = i + Z.of_nat n ∧ l !! n = Some x ∧
             ∀ j : nat, (j < n)%nat → l !! j ≠ Some x.
Proof.
  revert i. induction l as [|f l IH]; intros i Hx; [by apply elem_of_nil in Hx|].
  simpl. destruct (decide (f = x)) as [->|Hne].
  - exists 0%nat. split_and!; [lia | done | intros j Hj; lia].
  - apply elem_of_cons in Hx as [->|Hx]; [done|].
    destruct (IH (i + 1) Hx) as (n & Hn & Hl & Hfirst).
    exists (S n). split_and!; [lia | done |].
    intros [|j] Hj; simpl; [congruence | apply Hfirst; lia].
Qed.

(** X14. The loop that looks for the finalizer in the list of the secret
    ends with -1 exactly when the token is not in the list; otherwise it
    ends with the index of the first entry that is the token. *)
Theorem X14_finalizer_search (x : string) (l : list string) :
  (index_of x l = -1 ↔ x ∉ l) ∧
  (x ∈ l →
   0 ≤ index_of x l < Z.of_nat (length l) ∧
   l !! Z.to_nat (index_of x l) = Some x ∧
   ∀ j : nat, (j < Z.to_nat (index_of x l))%nat → l !! j ≠ Some x).
Proof.
  split; [apply index_of_absent|]. intros Hx.
  destruct (index_from_first 0 x l Hx) as (n & Hn & Hl & Hfirst).
  unfold index_of. rewrite Hn. rewrite Z.add_0_l, Nat2Z.id.
  split_and!; [lia | | done | done].
  apply lookup_lt_Some in Hl. lia.
Qed.

Lemma X14_finalizer_search_witness :
  ["a"; "t"; "b"; "t"] !! Z.to_nat (index_of "t" ["a"; "t"; "b"; "t"]) = Some "t" ∧
  0 ≤ index_of "t" ["a"; "t"; "b"; "t"] < 4.
Proof.
  destruct (X14_finalizer_search "t" ["a"; "t"; "b"; "t"]) as [_ H].
  destruct H as (Hb & Hl & _); [in_list|].
  split; [exact Hl | exact Hb].
Defined.

Lemma index_from_middle i x l1 l2 :
  x ∉ l1 → index_from i x (l1 ++ x :: l2) = i + Z.of_nat (length l1).
Proof.
  revert i. induction l1 as [|f l1 IH]; intros i Hx; simpl.
  - destruct (decide (x = x)); [lia | done].
  - destruct (decide (f = x)) as [->|Hne]; [exfalso; apply Hx; by left|].
    rewrite IH; [lia|]. intros H. apply Hx. by right.
Qed.

Lemma append_cut_middle (l1 l2 : list string) (t : string) :
  append_cut (l1 ++ t :: l2) (length l1)
    = ((l1 ++ l2) ++ drop (length l2) (t :: l2), l1 ++ l2).
Proof.
  unfold append_cut.
  assert (Hmoved : take (length l1) (l1 ++ t :: l2) ++ drop (S (length l1)) (l1 ++ t :: l2)
                   = l1 ++ l2).
  { rewrite take_app_length. f_equal.
    replace (S (length l1)) with (length l1 + 1)%nat by lia.
    by rewrite drop_app_add. }
  rewrite Hmoved. f_equal. f_equal.
  rewrite length_app. by rewrite drop_app_add.
Qed.

Lemma drop_to_last (l2 : list string) (t x : string) :
  drop (length (l2 ++ [x])) (t :: l2 ++ [x]) = [x].
Proof.
  change (t :: l2 ++ [x]) with ((t :: l2) ++ [x]).
  replace (length (l2 ++ [x])) with (length (t :: l2))
    by (rewrite length_app; simpl; lia).
  by rewrite drop_app_length.
Qed.

Lemma list_difference_without (l : list string) (x : string) :
  (x ∉ list_difference l [x]) ∧ ∀ y, y ≠ x → y ∈ l → y ∈ list_difference l [x].
Proof.
  rewrite list_difference_filter. split.
  - intros H. apply list_elem_of_filter in H as [H _]. apply H. by left.
  - intros y Hy Hin. apply list_elem_of_filter. split; [|done].
    intros H. by apply list_elem_of_singleton in H.
Qed.

(** X15. [Delete] copies the secret and cuts the token out of the copy's
    list with [append] on a slice of it, which writes into the array the
    two lists share.  When entries stand behind the token, the list that
    the patch is computed from is then the cut list with the last entry
    once more, so the patch that a [Delete] returning [nil] has sent
    deletes the last entry of the list, not the token.  If the server
    takes the patch, the secret loses every occurrence of its last entry
    and keeps the token of the deleted volume (unless the two are the same
    string); if it refuses, the list stays as it was. *)
Theorem X15_Delete_cut_shares_array (id : string) (env : Env) (volume : PersistentVolume)
    (w w' : World) (namespace t x : string) (l1 l2 : list string) :
  Part001.Delete id env volume w = (Returned None, w') →
  ClaimRef volume = Some namespace →
  Options (FlexVolume volume) !! "finalizer" = Some t →
  finalizers_of w namespace (SecretRef (FlexVolume volume)) = l1 ++ t :: l2 ++ [x] →
  t ∉ l1 →
  let name := SecretRef (FlexVolume volume) in
  let sent := OpSecretPatch namespace name (mkPatch [] [x]) in
  last (trace w') = Some sent ∧
  (fails env sent = None →
   finalizers_of w' namespace name = list_difference (l1 ++ t :: l2 ++ [x]) [x] ∧
   (x ∉ finalizers_of w' namespace name) ∧
   (t ≠ x → t ∈ finalizers_of w' namespace name)) ∧
  (fails env sent ≠ None →
   finalizers_of w' namespace name = l1 ++ t :: l2 ++ [x]).
Proof.
  intros H Hclaim Hfin Hlist Ht name sent.
  apply Delete_ok_inv in H
    as (share & ns & secret & w1 & w2 & w3 & _ & _ & Hns & Hget & Hprep & Hrm & m & Htail).
  rewrite Hclaim in Hns. injection Hns as <-.
  fold name in Hget, Hlist.
  apply Get_inl in Hget as (s & Hs & -> & ->).
  cbn [Finalizers Name Namespace Data] in Hprep, Hrm, Htail.
  assert (Hl : Finalizers s = l1 ++ t :: l2 ++ [x]).
  { unfold finalizers_of in Hlist. by rewrite Hs in Hlist. }
  pose proof (along_run same_secrets _ _ _ _
                (along_prepareVstorage same_secrets env _ _ _ same_secrets_of_set_mounts)
                Hprep) as H02.
  pose proof (along_run same_secrets _ _ _ _
                (along_removePloop same_secrets env _ _) Hrm) as H23.
  assert (Hs3 : secrets w3 !! (namespace, name) = Some s).
  { unfold same_secrets in *. by rewrite H23, H02. }
  rewrite Hfin, Hl in Htail.
  assert (Hidx : index_of t (l1 ++ t :: l2 ++ [x]) = Z.of_nat (length l1)).
  { unfold index_of. rewrite index_from_middle by done. lia. }
  rewrite Hidx in Htail.
  destruct (decide _) as [Hneg|_]; [lia|].
  rewrite Nat2Z.id, append_cut_middle, drop_to_last in Htail. cbn [fst snd] in Htail.
  destruct Htail as (r & w4 & Hpatch & Hw').
  unfold Part001.patchSecret in Hpatch.
  rewrite (patch_of_removed _ _ x) in Hpatch by reflexivity.
  unfold client.Patch_, glog.Infof, logf in Hpatch. revert Hpatch. st.
  cbn [Finalizers Name Namespace Data]. fold sent.
  destruct (fails env sent) as [msg|] eqn:Hfails.
  - intros [= <- <-]. destruct Hw' as [warn ->]. simpl.
    split; [by rewrite last_snoc|]. split; [done|]. intros _.
    unfold finalizers_of. simpl. by rewrite Hs3.
  - simpl. rewrite Hs3.
    intros [= <- <-]. subst w'. simpl.
    split; [by rewrite last_snoc|]. split; [|done]. intros _.
    match goal with |- finalizers_of ?wf _ _ = _ ∧ _ =>
      assert (Hafter : finalizers_of wf namespace name
                       = list_difference (l1 ++ t :: l2 ++ [x]) [x]) end.
    { unfold finalizers_of. simpl. rewrite lookup_insert_eq. simpl.
      unfold strategicpatch.apply. simpl. by rewrite app_nil_r, Hl. }
    destruct (list_difference_without (l1 ++ t :: l2 ++ [x]) x) as [Hx Hkeep].
    split_and!.
    + exact Hafter.
    + by rewrite Hafter.
    + intros Hne. rewrite Hafter. apply Hkeep; [done|].
      apply elem_of_app. right. by left.
Qed.

Lemma X15_Delete_cut_shares_array_witness :
  finalizers_of Sample.deleted_first.2 "default" (SecretRef (FlexVolume Sample.handle))
    = list_difference ([] ++ "virtuozzo.com/6f1a-pv" :: [] ++ ["virtuozzo.com/9c2e-pv"])
        ["virtuozzo.com/9c2e-pv"].
Proof.
  destruct (X15_Delete_cut_shares_array "me" Sample.calm Sample.handle Sample.provisioned2.2
              Sample.deleted_first.2 "default" "virtuozzo.com/6f1a-pv"
              "virtuozzo.com/9c2e-pv" [] []) as (_ & H & _).
  - apply (run_eta Sample.deleted_first). vm_compute. reflexivity.
  - reflexivity.
  - vm_compute. reflexivity.
  - vm_compute. reflexivity.
  - apply not_elem_of_nil.
  - destruct H as [H _]; [reflexivity | exact H].
Defined.

(** ** The first provisioner and package [volume] *)

Lemma parse_loop_inl kvs acc v :
  VirtuozzoStorage.parse_loop kvs acc = inl v →
  Forall (λ kv : string * string, kv.1 = "volumePath") kvs ∧
  v = default acc (snd <$> last kvs).
Proof.
  revert acc. induction kvs as [|[k x] kvs IH]; intros acc; simpl.
  - by intros [= <-].
  - destruct (decide (k = "volumePath")) as [->|]; [|done].
    intros H. apply IH in H as [Hall ->]. split; [by constructor|].
    destruct kvs as [|kv kvs]; [done|]. rewrite last_cons_cons.
    destruct (proj2 (last_is_Some (kv :: kvs)) ltac:(done)) as [y ->]. done.
Qed.

(** X16. [parseParameters] accepts the parameter maps that hold a
    non-empty [volumePath] and nothing else, and returns that path; any
    other key, and a missing or empty path, is an error. *)
Theorem X16_parseParameters_exact (parameters : gmap string string) (v : string) :
  VirtuozzoStorage.parseParameters parameters = inl v ↔
  parameters = {[ "volumePath" := v ]} ∧ v ≠ "".
Proof.
  unfold VirtuozzoStorage.parseParameters. split.
  - destruct (VirtuozzoStorage.parse_loop _ _) as [vp|e] eqn:Hloop; [|done].
    destruct (decide (vp = "")) as [|Hne]; [done|]. intros [= ->].
    apply parse_loop_inl in Hloop as [Hall Hv]. split; [|done].
    pose proof (NoDup_fst_map_to_list parameters) as Hnd.
    rewrite <- (list_to_map_to_list parameters).
    destruct (map_to_list parameters) as [|[k x] [|[k' x'] kvs]].
    + by simpl in Hv.
    + apply Forall_cons in Hall as [Hk _]. simpl in Hk, Hv. subst. done.
    + exfalso. apply Forall_cons in Hall as [Hk Hall].
      apply Forall_cons in Hall as [Hk' _]. simpl in *. subst.
      apply NoDup_cons in Hnd as [Hnd _]. apply Hnd. by left.
  - intros [-> Hne]. rewrite map_to_list_singleton. simpl.
    destruct (decide ("volumePath" = "volumePath")); [|done].
    by destruct (decide (v = "")).
Qed.

Lemma X16_parseParameters_exact_witness :
  VirtuozzoStorage.parseParameters {[ "volumePath" := "/mnt/vstorage/kube" ]}
    = inl "/mnt/vstorage/kube".
Proof.
  apply (X16_parseParameters_exact {[ "volumePath" := "/mnt/vstorage/kube" ]}).
  split; [reflexivity | discriminate].
Defined.

Lemma Volume_scan_unknown kvs a k v :
  (k, v) ∈ kvs →
  k ∉ ["volumePath"; "volumeId"; "size"; "vzsReplicas"; "vzsTier";
       "kubernetes.io/readwrite"; "kubernetes.io/fsType"] →
  ∃ msg, Volume.scan kvs a = inr (Errorf msg).
Proof.
  intros Hin Hk. revert a. induction kvs as [|[k' v'] kvs IH]; intros a.
  { by apply elem_of_nil in Hin. }
  simpl. apply elem_of_cons in Hin as [[= <- <-]|Hin].
  - destruct (decide (k = "volumePath")) as [->|]; [exfalso; apply Hk; in_list|].
    destruct (decide (k = "volumeId")) as [->|]; [exfalso; apply Hk; in_list|].
    destruct (decide (k = "size")) as [->|]; [exfalso; apply Hk; in_list|].
    destruct (decide _) as [Hknown|]; [|by eexists].
    exfalso. apply Hk. by do 3 apply list_elem_of_further.
  - repeat (destruct (decide _); [by apply IH|]). by eexists.
Qed.

(** X17. [Create] of package [volume] refuses options it does not know: a
    key outside [volumePath], [volumeId], [size], [vzsReplicas],
    [vzsTier], [kubernetes.io/readwrite] and [kubernetes.io/fsType] ends
    the call with an error before any directory is made. *)
Theorem X17_Create_unknown_option (parse : string → Z * option error) (env : Env)
    (options : gmap string string) (w : World) (k : string) :
  is_Some (options !! k) →
  k ∉ ["volumePath"; "volumeId"; "size"; "vzsReplicas"; "vzsTier";
       "kubernetes.io/readwrite"; "kubernetes.io/fsType"] →
  ∃ msg, Volume.Create parse env options w = (Some (Errorf msg), w).
Proof.
  intros [v Hv] Hk. unfold Volume.Create.
  apply elem_of_map_to_list in Hv.
  destruct (Volume_scan_unknown _ (Volume.mkVars "" "" "") k v Hv Hk) as [msg ->].
  by eexists.
Qed.

Lemma X17_Create_unknown_option_witness :
  ∃ msg, Volume.Create humanize.ParseBytes Sample.calm
           {[ "volumePath" := "/mnt/vstorage/kube"; "volumeId" := "v1"; "size" := "10G";
              "vzsEncoding" := "3+2" ]} Sample.fresh
         = (Some (Errorf msg), Sample.fresh).
Proof.
  apply (X17_Create_unknown_option humanize.ParseBytes Sample.calm _ Sample.fresh "vzsEncoding").
  - eexists. reflexivity.
  - not_in_list.
Defined.

Lemma take_labels_frame (kvs : list (string * string))
    (ploop_options : gmap string string) (w : World) :
  let run := VirtuozzoStorage.take_labels kvs ploop_options w in
  (∀ k, k ≠ "vzsReplicas" → k ≠ "vzsTier" → run.1 !! k = ploop_options !! k) ∧
  trace run.2 = trace w ∧ files run.2 = files w ∧ volumes run.2 = volumes w.
Proof.
  revert ploop_options w. induction kvs as [|[k v] kvs IH]; intros ploop_options w; simpl.
  - done.
  - destruct (decide _) as [Hk|Hk].
    + destruct (IH (<[k := v]> ploop_options) w) as (Hget & Hrest).
      split; [|exact Hrest]. intros k' H1 H2. rewrite Hget by done.
      apply lookup_insert_ne. destruct Hk as [-> | ->]; done.
    + st. simpl.
      match goal with |- context [VirtuozzoStorage.take_labels kvs ploop_options ?w0] =>
        destruct (IH ploop_options w0) as (H1 & H2 & H3 & H4) end.
      split_and!; done.
Qed.



(** ** The older provisioner *)

(** X19. In the older provisioner the unmount is deferred as soon as
    [prepareVstorage] has returned [nil], so it runs however the call
    ends: a [Provision] whose [createPloop] fails and a [Delete] whose
    [os.RemoveAll] fails return their error with the unmount of the mount
    path as the last external call, like the calls that succeed. *)
Theorem X19_older_unmount_is_deferred (parse : string → Z * option error) (id : string)
    (env : Env) (o : VolumeOptions) (volume : PersistentVolume) (secret : Secret)
    (w w1 w2 : World) :
  let name := get (Data secret) "clusterName" in
  let password := get (Data secret) "clusterPassword" in
  (Selector (PVC o) = None →
   client.Get env (claim_Namespace (PVC o)) (get (Parameters o) "secretName")
     (prov0_start env o w) = (inl secret, w1) →
   Part000.prepareVstorage env (prov0_options env o) name password w1 = (None, w2) →
   last (trace (Part000.Provision parse id env o w).2)
     = Some (OpUnmount (Part000.MountDir +:+ name))) ∧
  (∀ share namespace,
   Annotations volume !! Part000.parentProvisionerAnn = Some id →
   Annotations volume !! Part000.vzShareAnn = Some share →
   ClaimRef volume = Some namespace →
   client.Get env namespace (SecretRef (FlexVolume volume)) w = (inl secret, w1) →
   Part000.prepareVstorage env (Options (FlexVolume volume)) name password w1 = (None, w2) →
   last (trace (Part000.Delete id env volume w).2)
     = Some (OpUnmount (Part000.MountDir +:+ name))).
Proof.
  intros name password. split.
  - intros Hsel Hget Hprep. unfold Part000.Provision.
    destruct (decide (Selector (PVC o) ≠ None)) as [Hn|_]; [by rewrite Hsel in Hn|].
    st. cbv beta iota zeta.
    change (glog.Infof _ w) with ((), prov0_start env o w). cbv beta iota zeta.
    fold (prov0_options env o).
    assert (Hname : get (<["size" := fmt.d (storage (PVC o))]>
                           (<["volumeId" := "kubernetes-dynamic-pvc-" +:+ NewUUID env]>
                              (Parameters o))) "secretName"
                    = get (Parameters o) "secretName") by (by rewrite !get_insert_ne).
    rewrite Hname, Hget. cbv beta iota zeta. fold name password. rewrite Hprep.
    cbv beta iota zeta.
    destruct (Part000.createPloop _ _ _ _ w2) as [[e|] w3]; cbv beta iota zeta.
    + unfold syscall.Unmount, call. destruct (fails env _); simpl; by rewrite last_snoc.
    + destruct (glog.Infof _ w3) as [[] w4].
      unfold syscall.Unmount, call. destruct (fails env _); simpl; by rewrite last_snoc.
  - intros share namespace Hann Hshare Hclaim Hget Hprep. unfold Part000.Delete.
    rewrite Hann, Hshare, Hclaim.
    destruct (decide (id ≠ id)); [done|].
    st. cbv beta iota zeta. rewrite Hget. cbv beta iota zeta. fold name password.
    rewrite Hprep. cbv beta iota zeta.
    destruct (glog.Infof _ w2) as [[] w3].
    destruct (os.RemoveAll _ _ w3) as [[e|] w4]; cbv beta iota zeta.
    + unfold syscall.Unmount, call. destruct (fails env _); simpl; by rewrite last_snoc.
    + destruct (glog.Infof _ w4) as [[] w5].
      unfold syscall.Unmount, call. destruct (fails env _); simpl; by rewrite last_snoc.
Qed.

Lemma X19_older_unmount_is_deferred_witness :
  let run := Part000.Delete "me" SampleX.undeletable SampleX.handle0 Sample.provisioned0.2 in
  run.1 = Returned (Some (Errorf "permission denied")) ∧
  last (trace run.2) = Some (OpUnmount "/export/virtuozzo-provisioner/mnt/c1").
Proof.
  intros run. split; [vm_compute; reflexivity|].
  destruct (X19_older_unmount_is_deferred humanize.ParseBytes "me" SampleX.undeletable
              Sample.request SampleX.handle0 Sample.vz Sample.provisioned0.2
              SampleX.handle0_read SampleX.handle0_prepared) as [_ H].
  apply (H "kubernetes-dynamic-pvc-6f1a" "default").
  - vm_compute. reflexivity.
  - vm_compute. reflexivity.
  - reflexivity.
  - apply (run_eta (client.Get SampleX.undeletable "default" "vz" Sample.provisioned0.2)).
    vm_compute. reflexivity.
  - apply (run_eta (Part000.prepareVstorage SampleX.undeletable
                      (Options (FlexVolume SampleX.handle0)) "c1" "pw" SampleX.handle0_read)).
    vm_compute. reflexivity.
Defined.

(** ** The first provisioner: what [Provision] makes, [Delete] removes *)

Lemma along_Volume_set_attrs (R : relation World) `{!Framed R} env ploop_path kvs :
  along R (Volume.set_attrs env ploop_path kvs).
Proof.
  induction kvs as [|[k v] kvs IH]; simpl; [by apply along_ret|].
  apply along_bind; [done | |].
  - repeat destruct (decide _); [by apply along_set_attr | by apply along_set_attr
                                 | by apply along_ret].
  - intros [e|]; [|exact IH].
    apply along_bind; [done | by apply along_RemoveAll | intros; by apply along_ret].
Qed.

(** A [Create] that returns [nil] has called [os.MkdirAll] on the volume's
    directory. *)
Lemma Volume_Create_makes_directory parse env options w w' :
  Volume.Create parse env options w = (None, w') →
  OpMkdirAll (get options "volumePath" +:+ "/" +:+ get options "volumeId") ∈ trace w'.
Proof.
  unfold Volume.Create. destruct (Volume.scan _ _) as [a|e]; [|done].
  repeat (destruct (decide _); [done|]).
  cbv beta iota zeta. set (ploop_path := get options "volumePath" +:+ "/" +:+ _).
  st. cbv beta iota zeta.
  destruct (os.MkdirAll env ploop_path w) as [[e|] w1] eqn:Hmk; [done|].
  assert (Hin : OpMkdirAll ploop_path ∈ trace w1).
  { unfold os.MkdirAll, call in Hmk. destruct (fails env _); [done|].
    injection Hmk as <-. simpl. apply elem_of_app. right. apply list_elem_of_here. }
  pose proof (along_Volume_set_attrs trace_extends env ploop_path (map_to_list options) w1)
    as [r Hr].
  destruct (Volume.set_attrs env ploop_path (map_to_list options) w1) as [[e|] w2]; [done|].
  match goal with |- context [ploop.Create env ?s ?f w2] =>
    pose proof (along_ploop_Create trace_extends env s f w2) as [r' Hr'];
    destruct (ploop.Create env s f w2) as [[e|] w3]; [done|] end.
  intros [= <-]. simpl in *. rewrite Hr', Hr. apply elem_of_app. left.
  apply elem_of_app. by left.
Qed.

(** X20. The first provisioner's [Delete] undoes its [Provision]: when
    [Provision] returns a volume, the storage class gave a volume path, the
    call made the directory [<volumePath>/kubernetes-dynamic-pvc-<uuid>]
    with [os.MkdirAll], and a later [Delete] of the returned volume by the
    same provisioner, in whatever state, makes one external call,
    [os.RemoveAll] of that same directory, returns what it returned, and
    leaves the mount table alone; labels of the claim's selector cannot
    move the directory. *)
Theorem X20_first_provisioner_round_trip (parse : string → Z * option error)
    (identity : string) (env : Env) (o : VolumeOptions) (pv : PersistentVolume)
    (w w' : World) :
  VirtuozzoStorage.Provision parse identity env o w = ((Some pv, None), w') →
  ∃ volumePath,
    VirtuozzoStorage.parseParameters (Parameters o) = inl volumePath ∧
    let path := volumePath +:+ "/" +:+ ("kubernetes-dynamic-pvc-" +:+ NewUUID env) in
    OpMkdirAll path ∈ trace w' ∧
    ∀ env' w0,
      let run := VirtuozzoStorage.Delete identity env' pv w0 in
      trace run.2 = trace w0 ++ [OpRemoveAll path] ∧
      mounts run.2 = mounts w0 ∧
      run.1 = Errorf <$> fails env' (OpRemoveAll path).
Proof.
  unfold VirtuozzoStorage.Provision.
  destruct (VirtuozzoStorage.parseParameters _) as [volumePath|e]; [|done].
  match goal with |- context [if ?b then _ else _] => destruct b end; [done|].
  st. cbv beta iota zeta.
  set (share := "kubernetes-dynamic-pvc-" +:+ NewUUID env).
  set (labels := option_bind _ _ _ (Selector (PVC o))).
  set (opts0 := ({[ "volumePath" := volumePath; "volumeId" := share;
                    "size" := fmt.d (storage (PVC o)) ]} : gmap string string)).
  destruct (glog.Infof _ w) as [[] w1].
  assert (∃ opts w2,
    (match labels with
     | Some labels => VirtuozzoStorage.take_labels (map_to_list labels) opts0
     | None => λ w0 : World, (opts0, w0)
     end) w1 = (opts, w2) ∧
    get opts "volumePath" = volumePath ∧ get opts "volumeId" = share)
    as (opts & w2 & -> & Hvp & Hid).
  { destruct labels as [l|].
    - destruct (take_labels_frame (map_to_list l) opts0 w1) as [Hget _].
      destruct (VirtuozzoStorage.take_labels _ _ _) as [opts w2]. simpl in Hget.
      exists opts, w2. split; [done|]. unfold get.
      rewrite !Hget by done. by subst opts0.
    - exists opts0, w1. split; [done|]. by subst opts0. }
  cbv beta iota zeta.
  destruct (Volume.Create parse env opts w2) as [[e|] w3] eqn:Hcreate; [done|].
  cbv beta iota zeta. intros [= <- <-].
  exists volumePath. split; [done|]. cbv zeta. split.
  - apply Volume_Create_makes_directory in Hcreate. by rewrite Hvp, Hid in Hcreate.
  - intros env' w0. unfold VirtuozzoStorage.Delete.
    cbn [Annotations FlexVolume Options].
    rewrite lookup_insert_eq.
    destruct (decide (identity ≠ identity)); [done|].
    rewrite lookup_insert_ne by done. rewrite lookup_singleton_eq.
    rewrite Hvp, Hid. st. cbv beta iota zeta.
    unfold os.RemoveAll, call. simpl.
    destruct (fails env' _); simpl; done.
Qed.

Lemma X20_first_provisioner_round_trip_witness :
  OpMkdirAll "/mnt/vstorage/kube/kubernetes-dynamic-pvc-6f1a" ∈ trace Sample.provisioned_many.2.
Proof.
  destruct (X20_first_provisioner_round_trip humanize.ParseBytes "me" Sample.calm
              Sample.request_many (default Sample.bare Sample.provisioned_many.1.1)
              Sample.fresh Sample.provisioned_many.2) as (vp & Hvp & Hin & _).
  - apply (returned_volume_eta Sample.provisioned_many). vm_compute. reflexivity.
  - vm_compute in Hvp. injection Hvp as <-. exact Hin.
Defined.
